(** * Project status engine: RAG evaluation, highlight detection, period comparison

    A shallow embedding of [project_status_engine.py].  Python [float]s are
    IEEE-754 binary64 values and are modelled by Rocq's primitive floats;
    Python [int]s are unbounded and are modelled by [Z]; dictionaries with a
    fixed set of recognised keys are records whose optional keys are [option]
    fields; raised exceptions are the [Raise] constructor of [result].

    Where an [int] meets a float the interpreter converts or compares it
    exactly, and raises [OverflowError] when it is too large for a float;
    an [int] with too many digits cannot be printed.  Both are modelled.
    What depends on the interpreter and its configuration is a parameter of
    the definitions that use it: the date parser, the rounding of a sum of
    floats, the iteration order of a set and the limit on the digits of a
    printed integer. *)

From Stdlib Require Import ZArith List String Ascii Bool Lia.
From Stdlib Require Import Floats DecimalString.
Import ListNotations.

Set Warnings "-inexact-float".
Local Open Scope string_scope.
Local Open Scope Z_scope.

(** ** Python primitives used by the engine *)

Module Py.

(** Exceptions the engine can let escape. *)
Inductive exn : Type :=
| KeyError
| ValueError
| TypeError
| OverflowError
| ZeroDivisionError.

Inductive result (A : Type) : Type :=
| Ok (a : A)
| Raise (e : exn).
Arguments Ok {A} a.
Arguments Raise {A} e.

Definition bind {A B : Type} (r : result A) (k : A -> result B) : result B :=
  match r with
  | Ok a => k a
  | Raise e => Raise e
  end.

(** Float comparisons, written the way the source writes them. *)
Definition ge (x y : float) : bool := (y <=? x)%float.
Definition le (x y : float) : bool := (x <=? y)%float.
Definition gt (x y : float) : bool := (y <? x)%float.
Definition lt (x y : float) : bool := (x <? y)%float.
Definition ne (x y : float) : bool := negb (x =? y)%float.

(** *** Integers into floats

    The quotient of two integers, and an integer itself, become the double
    nearest to the exact value, ties to even.  The exact value [a/b] is scaled
    by a power of two into the integers of 53 bits (or as far as the
    subnormal scale 2^1074 allows), rounded there, and scaled back. *)

Definition round_half_even (n d : Z) : Z :=
  let q := n / d in
  match 2 * (n mod d) ?= d with
  | Lt => q
  | Gt => q + 1
  | Eq => if Z.even q then q else q + 1
  end.

(** [n * 2^k / d], as a numerator and a denominator, for any sign of [k]. *)
Definition scaled_num (n k : Z) : Z := n * 2 ^ Z.max k 0.
Definition scaled_den (d k : Z) : Z := d * 2 ^ Z.max (- k) 0.

(** The scale [k] at which [n/d] has 53 bits, at most 1074. *)
Definition binade (n d : Z) : Z :=
  let k0 := 53 + Z.log2 d - Z.log2 n in
  let k1 :=
    if scaled_num n k0 <? 2 ^ 53 * scaled_den d k0 then k0 else k0 - 1 in
  Z.min k1 1074.

(** The float of sign [negative], mantissa [m] and exponent [e]. *)
Definition float_of_parts (negative : bool) (m e : Z) : float :=
  SF2Prim match m with
          | Z.pos p => S754_finite negative p e
          | _ => S754_zero negative
          end.

Definition nearest_quotient (a b : Z) : float :=
  let negative := xorb (a <? 0) (b <? 0) in
  if a =? 0 then float_of_parts negative 0 0
  else
    let k := binade (Z.abs a) (Z.abs b) in
    float_of_parts negative
      (round_half_even (scaled_num (Z.abs a) k) (scaled_den (Z.abs b) k))
      (- k).

(** The least magnitude that rounds beyond the largest double: half a unit
    in the last place above it. *)
Definition overflow_threshold : Z := 2 ^ 1024 - 2 ^ 970.

(** [float(n)], as in [n * 0.9]: [OverflowError] when [n] is too large. *)
Definition float_of_int (n : Z) : result float :=
  if overflow_threshold <=? Z.abs n then Raise OverflowError
  else Ok (nearest_quotient n 1).

(** [float(n)] for a count [n] of list elements.  A list has fewer than 2^63
    elements, so the conversion is exact or correctly rounded and cannot
    overflow. *)
Definition float_of_count (n : Z) : float := nearest_quotient n 1.

(** [a / b] on two [int]s: the correctly rounded quotient,
    [ZeroDivisionError] for a zero divisor and [OverflowError] when the
    quotient is too large for a float. *)
Definition int_truediv (a b : Z) : result float :=
  if b =? 0 then Raise ZeroDivisionError
  else if overflow_threshold * Z.abs b <=? Z.abs a then Raise OverflowError
  else Ok (nearest_quotient a b).

(** [n < x] and [n > x] for an [int] and a float: the two numbers are
    compared exactly, and nothing compares with a NaN. *)
Definition compare_int_float (n : Z) (x : float) : option comparison :=
  match Prim2SF x with
  | S754_nan => None
  | S754_infinity negative => Some (if negative then Gt else Lt)
  | S754_zero _ => Some (n ?= 0)
  | S754_finite negative m e =>
      let v := if negative then Z.neg m else Z.pos m in
      Some (if 0 <=? e then n ?= v * 2 ^ e else n * 2 ^ (- e) ?= v)
  end.

Definition int_lt_float (n : Z) (x : float) : bool :=
  match compare_int_float n x with
  | Some Lt => true
  | _ => false
  end.

Definition int_gt_float (n : Z) (x : float) : bool :=
  match compare_int_float n x with
  | Some Gt => true
  | _ => false
  end.

(** [min(x, y)] on floats: [y] is returned only when [y < x]. *)
Definition min (x y : float) : float := if lt y x then y else x.

(** [sum] of a list of booleans, each counting as 0 or 1. *)
Definition sum_bool (l : list bool) : Z :=
  fold_left (fun acc (b : bool) => acc + (if b then 1 else 0)) l 0.

(** [sum] of integers: additions from left to right, starting from 0. *)
Definition sum_int (l : list Z) : Z := fold_left Z.add l 0.

(** [sum] of floats as the interpreters up to 3.11 compute it: one rounded
    addition per item, from left to right, starting from 0. *)
Definition sum_float (l : list float) : float :=
  fold_left PrimFloat.add l 0%float.

(** [max] of a non-empty sequence; the empty one raises [ValueError]. *)
Definition max_int (l : list Z) : result Z :=
  match l with
  | [] => Raise ValueError
  | x :: xs => Ok (fold_left Z.max xs x)
  end.

Definition len {A : Type} (l : list A) : Z := Z.of_nat (List.length l).

(** [s.lower()], on the ASCII letters.  Strings are UTF-8 byte strings; the
    bytes of a non-ASCII character are left as they are, which cannot change
    whether an ASCII word occurs in the result. *)
Definition lower_ascii (c : ascii) : ascii :=
  let n := N_of_ascii c in
  if ((65 <=? n) && (n <=? 90))%N then ascii_of_N (n + 32) else c.

Fixpoint lower (s : string) : string :=
  match s with
  | EmptyString => EmptyString
  | String c rest => String (lower_ascii c) (lower rest)
  end.

(** [sub in s] *)
Fixpoint contains (sub s : string) : bool :=
  if String.prefix sub s then true
  else match s with
       | EmptyString => false
       | String _ rest => contains sub rest
       end.

(** [d.get(k) == literal] on an optional string key. *)
Definition eq_str (o : option string) (literal : string) : bool :=
  match o with
  | Some s => String.eqb s literal
  | None => false
  end.

(** [next(iterator, default)] *)
Definition next {A : Type} (l : list A) (default : A) : A :=
  match l with
  | x :: _ => x
  | [] => default
  end.

(** [sum(1 for x in l if p(x))] *)
Definition count {A : Type} (p : A -> bool) (l : list A) : Z :=
  len (filter p l).

(** [max(iterable, key=...)]: the first element whose key is largest. *)
Definition max_key {A : Type} (key : A -> Z) (l : list A) : result A :=
  match l with
  | [] => Raise ValueError
  | x :: xs =>
      Ok (fold_left (fun best y => if key best <? key y then y else best) xs x)
  end.

(** [l.append(x)] *)
Definition append {A : Type} (l : list A) (x : A) : list A := (l ++ [x])%list.

(** The decimal digits of an [int], with its sign. *)
Definition str_int (n : Z) : string := NilZero.string_of_int (Z.to_int n).

(** [f'{n}'] for an [int].  An interpreter with a limit on the conversion of
    integers to strings, [max_str_digits = sys.get_int_max_str_digits()],
    raises [ValueError] for an integer with more decimal digits than the
    limit.  The limit is 4300 unless it is configured otherwise (then 0, or
    640 and more); 0 stands for no limit, as in the interpreters that came
    before it. *)
Definition format_int (max_str_digits n : Z) : result string :=
  if (0 <? max_str_digits) && (10 ^ max_str_digits <=? Z.abs n)
  then Raise ValueError
  else Ok (str_int n).

(** Fixed-point formatting of a float, [format(x, '.<digits>f')]: the exact
    binary value is rounded to [digits] decimals, ties to even. *)
Definition scaled (digits : nat) (m : positive) (e : Z) : Z :=
  let n := Z.pos m * 10 ^ Z.of_nat digits in
  if 0 <=? e then n * 2 ^ e else round_half_even n (2 ^ (- e)).

Fixpoint zeros (n : nat) : string :=
  match n with
  | O => ""
  | S k => "0" ++ zeros k
  end.

Definition zfill (width : nat) (s : string) : string :=
  zeros (width - String.length s) ++ s.

Definition fixed (digits : nat) (n : Z) : string :=
  let p := 10 ^ Z.of_nat digits in
  match digits with
  | O => str_int n
  | S _ => str_int (n / p) ++ "." ++ zfill digits (str_int (n mod p))
  end.

Definition sign (s : bool) : string := if s then "-" else "".

Definition format_f (digits : nat) (x : float) : string :=
  match Prim2SF x with
  | S754_nan => "nan"
  | S754_infinity s => sign s ++ "inf"
  | S754_zero s => sign s ++ fixed digits 0
  | S754_finite s m e => sign s ++ fixed digits (scaled digits m e)
  end.

(** [format(x, '.0%')]: the float is multiplied by 100, printed with no
    decimals and followed by a percent sign. *)
Definition format_pct0 (x : float) : string :=
  format_f 0 (x * 100)%float ++ "%".

(** [d.get(k, default)] on an optional key. *)
Definition get {A : Type} (o : option A) (default : A) : A :=
  match o with
  | Some a => a
  | None => default
  end.

End Py.

Declare Scope py_scope.
Delimit Scope py_scope with py.
Notation "x <- c1 ;; c2" := (Py.bind c1 (fun x => c2))
  (at level 61, c1 at next level, right associativity) : py_scope.
Local Open Scope py_scope.

(** ** Data model *)

Inductive StatusColor : Type :=
| GREEN
| AMBER
| RED
| BLUE
| GREY.

Inductive TrendDirection : Type :=
| UP
| DOWN
| FLAT.

Record HealthMetrics : Type := mkHealthMetrics {
  spi : float;
  cpi : float;
  quality_score : float;
  risk_score : float;
  defect_count : Z;
  sev1_defects : Z;
  sev2_defects : Z;
  milestone_completion_rate : float;
  scope_change_percentage : float;
  resource_utilization : float;
  stakeholder_satisfaction : float
}.

(** The dataclass defaults. *)
Definition default_metrics : HealthMetrics :=
  {| spi := 1.0; cpi := 1.0; quality_score := 1.0; risk_score := 0.0;
     defect_count := 0; sev1_defects := 0; sev2_defects := 0;
     milestone_completion_rate := 1.0; scope_change_percentage := 0.0;
     resource_utilization := 1.0; stakeholder_satisfaction := 1.0 |}.

(** The raw project mapping, with its recognised optional keys.  A milestone
    carries a [status], a risk a [severity], a KPI a [metric] name and an
    integer [value]. *)
Record Milestone : Type := { m_status : option string }.
Record Risk : Type := { r_severity : option string }.
Record Kpi : Type := { k_metric : option string; k_value : option Z }.

Record ProjectData : Type := {
  pd_id : option string;
  pd_name : option string;
  milestones : option (list Milestone);
  risks : option (list Risk);
  kpis : option (list Kpi)
}.

(** A highlight or lowlight record: a dictionary literal from strings to
    strings, kept in insertion order. *)
Definition Dict : Type := list (string * string).

Fixpoint lookup (key : string) (d : Dict) : option string :=
  match d with
  | [] => None
  | (k, v) :: rest => if String.eqb k key then Some v else lookup key rest
  end.

(** A naive or timezone-aware [datetime]: microseconds since the start of
    the proleptic calendar, and the UTC offset when there is one. *)
Record datetime : Type := {
  micros : Z;
  utcoffset : option Z
}.

(** [datetime.now()]: the naive local time, [clock] microseconds into the
    calendar. *)
Definition datetime_now (clock : Z) : datetime :=
  {| micros := clock; utcoffset := None |}.

(** [timedelta(days=n)] *)
Definition timedelta_days (n : Z) : Z := n * 86400 * 1000000.

(** [d - delta].  The engine subtracts 7 and 14 days from a reading of the
    wall clock, which lies far from the first day of the calendar: the
    difference is a date. *)
Definition datetime_sub (d : datetime) (delta : Z) : datetime :=
  {| micros := micros d - delta; utcoffset := utcoffset d |}.

(** [a <= b]; comparing a naive with an aware datetime raises [TypeError]. *)
Definition datetime_le (a b : datetime) : Py.result bool :=
  match utcoffset a, utcoffset b with
  | None, None => Py.Ok (micros a <=? micros b)
  | Some oa, Some ob => Py.Ok (micros a - oa <=? micros b - ob)
  | _, _ => Py.Raise Py.TypeError
  end.

(** A historical record; every key is optional. *)
Record HistoricalRecord : Type := {
  h_date : option string;
  h_spi : option float;
  h_cpi : option float;
  h_issues : option Z;
  h_completion : option float
}.

(** The aggregate of one window, the three trends and the comparison
    payload.  The payload keeps the window bounds as datetimes. *)
Record Aggregate : Type := {
  avg_spi : float;
  avg_cpi : float;
  total_issues : Z;
  completion_rate : float
}.

Record Trends : Type := {
  trend_schedule : TrendDirection;
  trend_cost : TrendDirection;
  trend_quality : TrendDirection
}.

Record Period : Type := {
  period_start : datetime;
  period_end : datetime;
  period_metrics : Aggregate
}.

Record Comparison : Type := {
  current_period : Period;
  previous_period : Period;
  trends : Trends
}.

(** [comparison_period] is the comparison payload, or the empty dictionary
    (here [None]) when no comparison was made. *)
Record ProjectStatus : Type := {
  project_id : string;
  project_name : string;
  overall_status : StatusColor;
  trend : TrendDirection;
  health_metrics : HealthMetrics;
  highlights : list Dict;
  lowlights : list Dict;
  confidence_score : float;
  evaluation_date : datetime;
  comparison_period : option Comparison
}.

(** ** RAGEvaluator *)

Record Bands (A : Type) : Type := mkBands {
  green : A;
  amber : A;
  red : A
}.
Arguments mkBands {A}.
Arguments green {A}.
Arguments amber {A}.
Arguments red {A}.

Record ScheduleBand : Type := { spi_min : float; slip_max : float }.
Record CostBand : Type := { cpi_min : float; eac_variance_max : float }.
Record QualityBand : Type :=
  { sev1_max : Z; sev2_max : Z; defect_trend_max : float }.
Record RiskBand : Type := { high_risks_max : Z; risk_score_max : float }.

Record Thresholds : Type := {
  schedule : Bands ScheduleBand;
  cost : Bands CostBand;
  quality : Bands QualityBand;
  risk : Bands RiskBand
}.

Definition THRESHOLDS : Thresholds :=
  {| schedule :=
       mkBands {| spi_min := 0.98; slip_max := 0.05 |}
               {| spi_min := 0.90; slip_max := 0.10 |}
               {| spi_min := 0.0; slip_max := 1.0 |};
     cost :=
       mkBands {| cpi_min := 0.98; eac_variance_max := 0.05 |}
               {| cpi_min := 0.90; eac_variance_max := 0.10 |}
               {| cpi_min := 0.0; eac_variance_max := 1.0 |};
     quality :=
       mkBands {| sev1_max := 0; sev2_max := 0; defect_trend_max := 0 |}
               {| sev1_max := 0; sev2_max := 3; defect_trend_max := 0.20 |}
               {| sev1_max := 999; sev2_max := 999; defect_trend_max := 1.0 |};
     risk :=
       mkBands {| high_risks_max := 0; risk_score_max := 0.3 |}
               {| high_risks_max := 1; risk_score_max := 0.6 |}
               {| high_risks_max := 999; risk_score_max := 1.0 |} |}.

Definition evaluate_schedule_health (metrics : HealthMetrics) : StatusColor :=
  let spi := spi metrics in
  if Py.ge spi (spi_min (green (schedule THRESHOLDS))) then GREEN
  else if Py.ge spi (spi_min (amber (schedule THRESHOLDS))) then AMBER
  else RED.

Definition evaluate_cost_health (metrics : HealthMetrics) : StatusColor :=
  let cpi := cpi metrics in
  if Py.ge cpi (cpi_min (green (cost THRESHOLDS))) then GREEN
  else if Py.ge cpi (cpi_min (amber (cost THRESHOLDS))) then AMBER
  else RED.

Definition evaluate_quality_health (metrics : HealthMetrics) : StatusColor :=
  if (sev1_defects metrics <=? sev1_max (green (quality THRESHOLDS)))
     && (sev2_defects metrics <=? sev2_max (green (quality THRESHOLDS)))
  then GREEN
  else if (sev1_defects metrics <=? sev1_max (amber (quality THRESHOLDS)))
          && (sev2_defects metrics <=? sev2_max (amber (quality THRESHOLDS)))
  then AMBER
  else RED.

Definition evaluate_risk_health (metrics : HealthMetrics) : StatusColor :=
  let risk_score := risk_score metrics in
  if Py.le risk_score (risk_score_max (green (risk THRESHOLDS))) then GREEN
  else if Py.le risk_score (risk_score_max (amber (risk THRESHOLDS))) then AMBER
  else RED.

(** The two local dictionaries of [calculate_overall_status]. *)
Definition severity_map (s : StatusColor) : option Z :=
  match s with
  | GREEN => Some 0
  | AMBER => Some 1
  | RED => Some 2
  | BLUE | GREY => None
  end.

Definition status_map (k : Z) : option StatusColor :=
  match k with
  | 0 => Some GREEN
  | 1 => Some AMBER
  | 2 => Some RED
  | _ => None
  end.

(** [severity_map.get(s, 0)] *)
Definition severity (s : StatusColor) : Z := Py.get (severity_map s) 0.

(** The five "has real data" flags. *)
Definition data_points (metrics : HealthMetrics) : list bool :=
  [ Py.ne (spi metrics) 1.0;
    Py.ne (cpi metrics) 1.0;
    Py.ne (quality_score metrics) 1.0;
    Py.ne (risk_score metrics) 0.0;
    Py.ne (milestone_completion_rate metrics) 1.0 ].

Definition calculate_overall_status (metrics : HealthMetrics)
  : Py.result (StatusColor * float) :=
  let schedule_status := evaluate_schedule_health metrics in
  let cost_status := evaluate_cost_health metrics in
  let quality_status := evaluate_quality_health metrics in
  let risk_status := evaluate_risk_health metrics in
  let statuses := [schedule_status; cost_status; quality_status; risk_status] in
  let severities := map severity statuses in
  worst_severity <- Py.max_int severities ;;
  let data_points := data_points metrics in
  confidence <- Py.int_truediv (Py.sum_bool data_points) (Py.len data_points) ;;
  match status_map worst_severity with
  | Some overall_status => Py.Ok (overall_status, confidence)
  | None => Py.Raise Py.KeyError
  end.

(** ** HighlightDetector *)

Module HIGHLIGHT_TRIGGERS.

Record Schedule : Type :=
  { spi_threshold : float; early_completion_days : Z; milestone_early : bool }.
Record Cost : Type := { cpi_threshold : float; savings_percentage : float }.
Record Quality : Type :=
  { defect_reduction : float; zero_sev1 : bool; test_coverage_target : float }.
Record Risk : Type := { risk_retired : bool; risk_reduced : bool }.

Definition schedule : Schedule :=
  {| spi_threshold := 1.05; early_completion_days := 5; milestone_early := true |}.
Definition cost : Cost :=
  {| cpi_threshold := 1.05; savings_percentage := 0.03 |}.
Definition quality : Quality :=
  {| defect_reduction := 0.20; zero_sev1 := true; test_coverage_target := 0.80 |}.
Definition risk : Risk := {| risk_retired := true; risk_reduced := true |}.

End HIGHLIGHT_TRIGGERS.

Module LOWLIGHT_TRIGGERS.

Record Schedule : Type :=
  { spi_threshold : float; slip_days : Z; slip_percentage : float }.
Record Cost : Type := { cpi_threshold : float; overrun_percentage : float }.
Record Quality : Type :=
  { sev1_count : Z; sev2_count : Z; defect_escape : bool }.
Record Risk : Type := { new_high_risk : bool; dependency_slip : bool }.

Definition schedule : Schedule :=
  {| spi_threshold := 0.95; slip_days := 7; slip_percentage := 0.05 |}.
Definition cost : Cost :=
  {| cpi_threshold := 0.95; overrun_percentage := 0.03 |}.
Definition quality : Quality :=
  {| sev1_count := 1; sev2_count := 3; defect_escape := true |}.
Definition risk : Risk := {| new_high_risk := true; dependency_slip := true |}.

End LOWLIGHT_TRIGGERS.

Definition detect_highlights (current_metrics : HealthMetrics)
    (previous_metrics : option HealthMetrics) (project_data : ProjectData)
  : list Dict :=
  let highlights : list Dict := [] in
  (* Schedule highlights *)
  let highlights :=
    if Py.ge (spi current_metrics)
             (HIGHLIGHT_TRIGGERS.spi_threshold HIGHLIGHT_TRIGGERS.schedule)
    then Py.append highlights
      [ ("category", "schedule");
        ("title", "Schedule Performance Exceeds Target");
        ("description", "SPI at " ++ Py.format_f 2 (spi current_metrics)
                        ++ ", indicating ahead of schedule");
        ("impact", "positive");
        ("metric", "SPI: " ++ Py.format_f 2 (spi current_metrics)) ]
    else highlights in
  (* Cost highlights *)
  let highlights :=
    if Py.ge (cpi current_metrics)
             (HIGHLIGHT_TRIGGERS.cpi_threshold HIGHLIGHT_TRIGGERS.cost)
    then Py.append highlights
      [ ("category", "cost");
        ("title", "Cost Performance Under Budget");
        ("description", "CPI at " ++ Py.format_f 2 (cpi current_metrics)
                        ++ ", indicating cost savings");
        ("impact", "positive");
        ("metric", "CPI: " ++ Py.format_f 2 (cpi current_metrics)) ]
    else highlights in
  (* Quality highlights *)
  let highlights :=
    if (sev1_defects current_metrics =? 0) && (sev2_defects current_metrics =? 0)
    then Py.append highlights
      [ ("category", "quality");
        ("title", "Zero Critical Defects");
        ("description", "No Severity 1 or 2 defects in current period");
        ("impact", "positive");
        ("metric", "Sev-1: 0, Sev-2: 0") ]
    else highlights in
  (* Milestone completion *)
  let highlights :=
    if Py.gt (milestone_completion_rate current_metrics) 0.95
    then Py.append highlights
      [ ("category", "delivery");
        ("title", "Strong Milestone Achievement");
        ("description",
         Py.format_pct0 (milestone_completion_rate current_metrics)
         ++ " milestone completion rate");
        ("impact", "positive");
        ("metric", "Completion: "
                   ++ Py.format_pct0 (milestone_completion_rate current_metrics)) ]
    else highlights in
  highlights.

Section Lowlights.

(** [sys.get_int_max_str_digits()], the limit of the interpreter on the
    digits of an integer that is converted to a string. *)
Variable int_max_str_digits : Z.

Definition detect_lowlights (current_metrics : HealthMetrics)
    (previous_metrics : option HealthMetrics) (project_data : ProjectData)
  : Py.result (list Dict) :=
  let lowlights : list Dict := [] in
  (* Schedule lowlights *)
  let lowlights :=
    if Py.le (spi current_metrics)
             (LOWLIGHT_TRIGGERS.spi_threshold LOWLIGHT_TRIGGERS.schedule)
    then Py.append lowlights
      [ ("category", "schedule");
        ("title", "Schedule Slippage Detected");
        ("description", "SPI at " ++ Py.format_f 2 (spi current_metrics)
                        ++ ", indicating behind schedule");
        ("impact", "negative");
        ("metric", "SPI: " ++ Py.format_f 2 (spi current_metrics));
        ("action_required", "Schedule recovery plan needed") ]
    else lowlights in
  (* Cost lowlights *)
  let lowlights :=
    if Py.le (cpi current_metrics)
             (LOWLIGHT_TRIGGERS.cpi_threshold LOWLIGHT_TRIGGERS.cost)
    then Py.append lowlights
      [ ("category", "cost");
        ("title", "Cost Overrun Risk");
        ("description", "CPI at " ++ Py.format_f 2 (cpi current_metrics)
                        ++ ", indicating cost overrun");
        ("impact", "negative");
        ("metric", "CPI: " ++ Py.format_f 2 (cpi current_metrics));
        ("action_required", "Cost mitigation strategy required") ]
    else lowlights in
  (* Quality lowlights *)
  lowlights <-
    (if sev1_defects current_metrics
        >=? LOWLIGHT_TRIGGERS.sev1_count LOWLIGHT_TRIGGERS.quality
     then
       description <-
         Py.format_int int_max_str_digits (sev1_defects current_metrics) ;;
       metric <-
         Py.format_int int_max_str_digits (sev1_defects current_metrics) ;;
       Py.Ok
         (Py.append lowlights
            [ ("category", "quality");
              ("title", "Critical Defects Present");
              ("description", description ++ " Severity 1 defects open");
              ("impact", "negative");
              ("metric", "Sev-1: " ++ metric);
              ("action_required", "Immediate defect resolution required") ])
     else Py.Ok lowlights) ;;
  (* Risk lowlights *)
  let lowlights :=
    if Py.gt (risk_score current_metrics) 0.6
    then Py.append lowlights
      [ ("category", "risk");
        ("title", "High Risk Exposure");
        ("description", "Risk score at "
                        ++ Py.format_f 2 (risk_score current_metrics));
        ("impact", "negative");
        ("metric", "Risk Score: " ++ Py.format_f 2 (risk_score current_metrics));
        ("action_required", "Risk mitigation plan needed") ]
    else lowlights in
  Py.Ok lowlights.

End Lowlights.

(** ** ProjectComparator *)

Section Comparator.

(** [datetime.fromisoformat]: the parsed datetime, or [None] where the
    library raises [ValueError].  The accepted grammar depends on the
    interpreter version and is left open. *)
Variable fromisoformat : string -> option datetime.

(** [sum] over floats.  How the additions are rounded depends on the
    interpreter version (one rounded addition per item up to 3.11, as
    [Py.sum_float]; a compensated sum from 3.12 on) and is left open. *)
Variable float_sum : list float -> float.

(** The body of the loop of [_filter_period_data]: [acc] is the list
    [filtered] so far, or the exception already raised. *)
Definition filter_step (start end_ : datetime)
    (acc : Py.result (list HistoricalRecord)) (item : HistoricalRecord)
  : Py.result (list HistoricalRecord) :=
  filtered <- acc ;;
  match h_date item with
  | Some s =>
      match fromisoformat s with
      | Some item_date =>
          after <- datetime_le start item_date ;;
          inside <- (if after : bool then datetime_le item_date end_
                     else Py.Ok false) ;;
          if inside : bool then Py.Ok (Py.append filtered item)
          else Py.Ok filtered
      | None => Py.Raise Py.ValueError
      end
  | None => Py.Ok filtered
  end.

Definition _filter_period_data (data : list HistoricalRecord)
    (start end_ : datetime) : Py.result (list HistoricalRecord) :=
  fold_left (filter_step start end_) data (Py.Ok []).

Definition _aggregate_metrics (period_data : list HistoricalRecord) : Aggregate :=
  match period_data with
  | [] =>
      {| avg_spi := 1.0; avg_cpi := 1.0; total_issues := 0;
         completion_rate := 0.0 |}
  | _ :: _ =>
      let n := Py.float_of_count (Py.len period_data) in
      {| avg_spi :=
           (float_sum (map (fun d => Py.get (h_spi d) 1.0%float) period_data) / n)%float;
         avg_cpi :=
           (float_sum (map (fun d => Py.get (h_cpi d) 1.0%float) period_data) / n)%float;
         total_issues :=
           Py.sum_int (map (fun d => Py.get (h_issues d) 0) period_data);
         completion_rate :=
           (float_sum (map (fun d => Py.get (h_completion d) 0%float) period_data) / n)%float |}
  end.

Definition _calculate_trends (recent previous : list HistoricalRecord)
  : Py.result Trends :=
  let recent_metrics := _aggregate_metrics recent in
  let previous_metrics := _aggregate_metrics previous in
  (* SPI trend *)
  let schedule :=
    if Py.gt (avg_spi recent_metrics) (avg_spi previous_metrics * 1.02)%float
    then UP
    else if Py.lt (avg_spi recent_metrics) (avg_spi previous_metrics * 0.98)%float
    then DOWN
    else FLAT in
  (* CPI trend *)
  let cost :=
    if Py.gt (avg_cpi recent_metrics) (avg_cpi previous_metrics * 1.02)%float
    then UP
    else if Py.lt (avg_cpi recent_metrics) (avg_cpi previous_metrics * 0.98)%float
    then DOWN
    else FLAT in
  (* Issues trend (inverse - fewer is better) *)
  issues <- Py.float_of_int (total_issues previous_metrics) ;;
  quality <-
    (if Py.int_lt_float (total_issues recent_metrics) (issues * 0.9)%float
     then Py.Ok UP
     else
       issues <- Py.float_of_int (total_issues previous_metrics) ;;
       if Py.int_gt_float (total_issues recent_metrics) (issues * 1.1)%float
       then Py.Ok DOWN
       else Py.Ok FLAT) ;;
  Py.Ok {| trend_schedule := schedule; trend_cost := cost;
           trend_quality := quality |}.

(** [clock] is the reading of the wall clock when the comparison starts. *)
Definition calculate_7day_comparison (clock : Z)
    (current_data : ProjectData) (historical_data : list HistoricalRecord)
  : Py.result Comparison :=
  let current_date := datetime_now clock in
  let seven_days_ago := datetime_sub current_date (timedelta_days 7) in
  let fourteen_days_ago := datetime_sub current_date (timedelta_days 14) in
  recent_period <-
    _filter_period_data historical_data seven_days_ago current_date ;;
  previous_period <-
    _filter_period_data historical_data fourteen_days_ago seven_days_ago ;;
  let current_metrics := _aggregate_metrics recent_period in
  let previous_metrics := _aggregate_metrics previous_period in
  trends <- _calculate_trends recent_period previous_period ;;
  Py.Ok
    {| current_period :=
         {| period_start := seven_days_ago;
            period_end := current_date;
            period_metrics := current_metrics |};
       previous_period :=
         {| period_start := fourteen_days_ago;
            period_end := seven_days_ago;
            period_metrics := previous_metrics |};
       trends := trends |}.

End Comparator.

(** ** ProjectStatusEngine *)

Definition _extract_metrics (project_data : ProjectData)
  : Py.result HealthMetrics :=
  (* Calculate SPI from milestones *)
  let milestones := Py.get (milestones project_data) [] in
  let completed :=
    Py.count (fun m => Py.eq_str (m_status m) "completed") milestones in
  let total := match milestones with [] => 1 | _ :: _ => Py.len milestones end in
  milestone_rate <-
    (if total >? 0 then Py.int_truediv completed total else Py.Ok 0%float) ;;
  (* Calculate other metrics from available data *)
  let risks := Py.get (risks project_data) [] in
  let high_risks := Py.count (fun r => Py.eq_str (r_severity r) "high") risks in
  let risk_score := Py.min (Py.float_of_count high_risks * 0.3)%float 1.0 in
  (* Extract KPI values *)
  let kpis := Py.get (kpis project_data) [] in
  let issues_kpi :=
    Py.next
      (filter (fun k => Py.contains "issue" (Py.lower (Py.get (k_metric k) ""))) kpis)
      {| k_metric := None; k_value := None |} in
  let issue_count := Py.get (k_value issues_kpi) 0 in
  (* Estimate SPI and CPI based on available data *)
  let spi :=
    if existsb (fun m => Py.eq_str (m_status m) "at-risk") milestones
    then 0.95%float else 1.02%float in
  let cpi := 0.98%float in
  (* Count defects from issues *)
  let sev1_defects := Z.max 0 (issue_count / 10) in
  let sev2_defects := Z.max 0 (issue_count / 5 - sev1_defects) in
  quality_score <-
    (if issue_count <? 100
     then ratio <- Py.int_truediv issue_count 100 ;; Py.Ok (1.0 - ratio)%float
     else Py.Ok 0.0%float) ;;
  Py.Ok
    {| spi := spi;
       cpi := cpi;
       quality_score := quality_score;
       risk_score := risk_score;
       defect_count := issue_count;
       sev1_defects := sev1_defects;
       sev2_defects := sev2_defects;
       milestone_completion_rate := milestone_rate;
       scope_change_percentage := 0.0;
       resource_utilization := 1.0;
       stakeholder_satisfaction := 0.85 |}.

Definition trend_eqb (a b : TrendDirection) : bool :=
  match a, b with
  | UP, UP | DOWN, DOWN | FLAT, FLAT => true
  | _, _ => false
  end.

Section Engine.

Variable fromisoformat : string -> option datetime.
Variable float_sum : list float -> float.
Variable int_max_str_digits : Z.

(** [list(set(values))]: the distinct members of [values] in the iteration
    order of the set, which the language leaves unspecified. *)
Variable set_iteration : list TrendDirection -> list TrendDirection.

(** [clock_comparison] and [clock_evaluation] are the readings of the wall
    clock at the two places where [datetime.now()] is called. *)
Definition evaluate_project (clock_comparison clock_evaluation : Z)
    (project_data : ProjectData)
    (historical_data : option (list HistoricalRecord))
  : Py.result ProjectStatus :=
  (* Extract or calculate metrics *)
  metrics <- _extract_metrics project_data ;;
  (* Calculate RAG status *)
  rag <- calculate_overall_status metrics ;;
  let '(overall_status, confidence) := rag in
  (* Detect highlights and lowlights *)
  let highlights := detect_highlights metrics None project_data in
  lowlights <- detect_lowlights int_max_str_digits metrics None project_data ;;
  (* Calculate comparison if historical data available *)
  compared <-
    match historical_data with
    | Some ((_ :: _) as historical_data) =>
        comparison <-
          calculate_7day_comparison fromisoformat float_sum clock_comparison
            project_data historical_data ;;
        let trends := trends comparison in
        let trend_values :=
          [trend_schedule trends; trend_cost trends; trend_quality trends] in
        (* Overall trend based on majority *)
        trend <-
          match trend_values with
          | _ :: _ =>
              Py.max_key (fun t => Py.count (trend_eqb t) trend_values)
                (set_iteration trend_values)
          | [] => Py.Ok FLAT
          end ;;
        Py.Ok (Some comparison, trend)
    | Some [] | None => Py.Ok (None, FLAT)
    end ;;
  let '(comparison, trend) := compared in
  Py.Ok
    {| project_id := Py.get (pd_id project_data) "unknown";
       project_name := Py.get (pd_name project_data) "Unknown Project";
       overall_status := overall_status;
       trend := trend;
       health_metrics := metrics;
       highlights := highlights;
       lowlights := lowlights;
       confidence_score := confidence;
       evaluation_date := datetime_now clock_evaluation;
       comparison_period := comparison |}.

End Engine.

(** ** The portfolio report *)

(** The [value] of the enumeration members. *)
Definition StatusColor_value (c : StatusColor) : string :=
  match c with
  | GREEN => "green"
  | AMBER => "amber"
  | RED => "red"
  | BLUE => "blue"
  | GREY => "grey"
  end.

Definition TrendDirection_value (t : TrendDirection) : string :=
  match t with
  | UP => "↑"
  | DOWN => "↓"
  | FLAT => "→"
  end.

(** The [metrics] sub-dictionary of a report entry. *)
Record EntryMetrics : Type := {
  entry_spi : float;
  entry_cpi : float;
  entry_quality : float;
  entry_risk : float
}.

(** One evaluated project of the report.  [entry_project] is
    [project.get('name')], which is [None] for a project without a name. *)
Record Entry : Type := {
  entry_project : option string;
  entry_status : string;
  entry_trend : string;
  entry_confidence : string;
  entry_highlights : list Dict;
  entry_lowlights : list Dict;
  entry_metrics : EntryMetrics
}.

(** The executive summary; its two inner dictionaries have the keys green,
    amber and red. *)
Record Summary : Type := {
  total_projects : Z;
  health_distribution : Bands Z;
  health_percentage : Bands string
}.

Record Report : Type := {
  report_date : datetime;
  projects : list Entry;
  summary : Summary
}.

(** [f'{(n/total*100):.0f}%' if total > 0 else '0%'] *)
Definition percentage (n total : Z) : Py.result string :=
  if total >? 0
  then ratio <- Py.int_truediv n total ;;
       Py.Ok (Py.format_f 0 (ratio * 100)%float ++ "%")
  else Py.Ok "0%".

Definition _generate_summary (projects : list Entry) : Py.result Summary :=
  let total := Py.len projects in
  let green := Py.count (fun p => String.eqb (entry_status p) "green") projects in
  let amber := Py.count (fun p => String.eqb (entry_status p) "amber") projects in
  let red := Py.count (fun p => String.eqb (entry_status p) "red") projects in
  green_percentage <- percentage green total ;;
  amber_percentage <- percentage amber total ;;
  red_percentage <- percentage red total ;;
  Py.Ok
    {| total_projects := total;
       health_distribution := mkBands green amber red;
       health_percentage :=
         mkBands green_percentage amber_percentage red_percentage |}.

Section Report.

Variable fromisoformat : string -> option datetime.
Variable float_sum : list float -> float.
Variable int_max_str_digits : Z.
Variable set_iteration : list TrendDirection -> list TrendDirection.

(** The entry appended for one project; [clock] is the reading of the wall
    clock during its evaluation. *)
Definition report_entry (clock : Z) (project : ProjectData) : Py.result Entry :=
  status <-
    evaluate_project fromisoformat float_sum int_max_str_digits set_iteration
      clock clock project None ;;
  Py.Ok
    {| entry_project := pd_name project;
       entry_status := StatusColor_value (overall_status status);
       entry_trend := TrendDirection_value (trend status);
       entry_confidence := Py.format_pct0 (confidence_score status);
       entry_highlights := highlights status;
       entry_lowlights := lowlights status;
       entry_metrics :=
         {| entry_spi := spi (health_metrics status);
            entry_cpi := cpi (health_metrics status);
            entry_quality := quality_score (health_metrics status);
            entry_risk := risk_score (health_metrics status) |} |}.

(** The loop over the projects: [acc] holds the entries so far and the
    number of clock readings taken. *)
Definition report_step (clock : nat -> Z)
    (acc : Py.result (list Entry * nat)) (project : ProjectData)
  : Py.result (list Entry * nat) :=
  state <- acc ;;
  let '(evaluated_projects, reads) := state in
  entry <- report_entry (clock reads) project ;;
  Py.Ok (Py.append evaluated_projects entry, S reads).

(** [clock n] is the n-th reading of the wall clock during the call: one per
    project, then one for the report date. *)
Definition generate_status_report (clock : nat -> Z)
    (projects : list ProjectData) : Py.result Report :=
  state <- fold_left (report_step clock) projects (Py.Ok ([], O)) ;;
  let '(evaluated_projects, reads) := state in
  summary <- _generate_summary evaluated_projects ;;
  Py.Ok
    {| report_date := datetime_now (clock reads);
       projects := evaluated_projects;
       summary := summary |}.

End Report.

(** ** A concrete date parser

    A parser of the forms of ISO-8601 that every interpreter version reads
    alike: [YYYY-MM-DD], optionally followed by a separator and [HH:MM:SS],
    optionally followed by a UTC offset [+HH:MM] or [-HH:MM].  Other strings
    are rejected, among them forms that the interpreters read (a time
    without seconds, fractions of a second).  It instantiates
    [fromisoformat] in the examples, on strings of these forms only. *)

Module Iso.

Definition digit (c : ascii) : option Z :=
  let n := Z.of_N (N_of_ascii c) in
  if (48 <=? n) && (n <=? 57) then Some (n - 48) else None.

Definition two_digits (s : string) : option (Z * string) :=
  match s with
  | String a (String b rest) =>
      match digit a, digit b with
      | Some x, Some y => Some (10 * x + y, rest)
      | _, _ => None
      end
  | _ => None
  end.

Definition four_digits (s : string) : option (Z * string) :=
  match two_digits s with
  | Some (hi, rest) =>
      match two_digits rest with
      | Some (lo, rest') => Some (100 * hi + lo, rest')
      | None => None
      end
  | None => None
  end.

(** Skip the literal character [c]. *)
Definition expect (c : ascii) (s : string) : option string :=
  match s with
  | String d rest => if Ascii.eqb c d then Some rest else None
  | EmptyString => None
  end.

Definition is_leap (y : Z) : bool :=
  (y mod 4 =? 0) && (negb (y mod 100 =? 0) || (y mod 400 =? 0)).

Definition days_in_month (y m : Z) : Z :=
  match m with
  | 2 => if is_leap y then 29 else 28
  | 4 | 6 | 9 | 11 => 30
  | _ => 31
  end.

Definition days_before_year (y : Z) : Z :=
  let p := y - 1 in p * 365 + p / 4 - p / 100 + p / 400.

Definition days_before_month (y m : Z) : Z :=
  fold_left (fun acc k => acc + days_in_month y k)
            (map Z.of_nat (seq 1 (Z.to_nat (m - 1)))) 0.

(** Days since 0001-01-01. *)
Definition days_of (y m d : Z) : Z :=
  days_before_year y + days_before_month y m + (d - 1).

Definition parse_date (s : string) : option (Z * string) :=
  match four_digits s with
  | Some (y, s1) =>
      match expect "-" s1 with
      | Some s2 =>
          match two_digits s2 with
          | Some (m, s3) =>
              match expect "-" s3 with
              | Some s4 =>
                  match two_digits s4 with
                  | Some (d, rest) =>
                      if (1 <=? y) && (1 <=? m) && (m <=? 12)
                         && (1 <=? d) && (d <=? days_in_month y m)
                      then Some (days_of y m d * 86400, rest)
                      else None
                  | None => None
                  end
              | None => None
              end
          | None => None
          end
      | None => None
      end
  | None => None
  end.

(** [HH:MM:SS] as seconds, or [HH:MM] when [with_seconds] is off. *)
Definition parse_clock (with_seconds : bool) (s : string) : option (Z * string) :=
  match two_digits s with
  | Some (h, s1) =>
      match expect ":" s1 with
      | Some s2 =>
          match two_digits s2 with
          | Some (mi, s3) =>
              if negb ((h <? 24) && (mi <? 60)) then None
              else if with_seconds then
                match expect ":" s3 with
                | Some s4 =>
                    match two_digits s4 with
                    | Some (sec, rest) =>
                        if sec <? 60 then Some (h * 3600 + mi * 60 + sec, rest)
                        else None
                    | None => None
                    end
                | None => None
                end
              else Some (h * 3600 + mi * 60, s3)
          | None => None
          end
      | None => None
      end
  | None => None
  end.

Definition parse_offset (s : string) : option (option Z) :=
  match s with
  | EmptyString => Some None
  | String c rest =>
      let signed (k : Z) :=
        match parse_clock false rest with
        | Some (secs, EmptyString) => Some (Some (k * secs * 1000000))
        | _ => None
        end in
      if Ascii.eqb c "+" then signed 1
      else if Ascii.eqb c "-" then signed (-1)
      else None
  end.

Definition fromisoformat (s : string) : option datetime :=
  match parse_date s with
  | Some (day_secs, EmptyString) =>
      Some {| micros := day_secs * 1000000; utcoffset := None |}
  | Some (day_secs, String _ rest) =>
      match parse_clock true rest with
      | Some (secs, rest') =>
          match parse_offset rest' with
          | Some off =>
              Some {| micros := (day_secs + secs) * 1000000; utcoffset := off |}
          | None => None
          end
      | None => None
      end
  | None => None
  end.

End Iso.

(** ** Vocabulary of the statements *)

(** [m] is the integer nearest to [n/d], the even one of the two when [n/d]
    lies half way. *)
Definition nearest_even (n d m : Z) : Prop :=
  2 * Z.abs (m * d - n) <= d
  /\ (2 * Z.abs (m * d - n) = d -> Z.even m = true).

(** [q] is the double nearest to the rational [a/b], ties to even: at the
    scale [2^k] where [|a/b|] has 53 bits ([k] stops at 1074, the scale of the
    subnormal numbers), [m] is the nearest integer, and [q] is [m * 2^-k] with
    the sign of the quotient. *)
Definition rounds_to (a b : Z) (q : float) : Prop :=
  b <> 0
  /\ exists k m,
       let n := Z.abs a * 2 ^ Z.max k 0 in
       let d := Z.abs b * 2 ^ Z.max (- k) 0 in
       k <= 1074
       /\ n < 2 ^ 53 * d
       /\ (k = 1074 \/ 2 ^ 52 * d <= n)
       /\ nearest_even n d m
       /\ q = SF2Prim match m with
                      | Z.pos p => S754_finite (xorb (a <? 0) (b <? 0)) p (- k)
                      | _ => S754_zero (xorb (a <? 0) (b <? 0))
                      end.

(** The title and the remediation action of a record. *)
Definition title (d : Dict) : option string := lookup "title" d.
Definition action_required (d : Dict) : option string := lookup "action_required" d.

(** The trigger of each highlight rule with its title, in rule order. *)
Definition highlight_rules : list ((HealthMetrics -> bool) * string) :=
  [ (fun m => (1.05 <=? spi m)%float, "Schedule Performance Exceeds Target");
    (fun m => (1.05 <=? cpi m)%float, "Cost Performance Under Budget");
    (fun m => (sev1_defects m =? 0) && (sev2_defects m =? 0),
     "Zero Critical Defects");
    (fun m => (0.95 <? milestone_completion_rate m)%float,
     "Strong Milestone Achievement") ].

(** The trigger of each lowlight rule with its title and action, in rule
    order. *)
Definition lowlight_rules : list ((HealthMetrics -> bool) * (string * string)) :=
  [ (fun m => (spi m <=? 0.95)%float,
     ("Schedule Slippage Detected", "Schedule recovery plan needed"));
    (fun m => (cpi m <=? 0.95)%float,
     ("Cost Overrun Risk", "Cost mitigation strategy required"));
    (fun m => 1 <=? sev1_defects m,
     ("Critical Defects Present", "Immediate defect resolution required"));
    (fun m => (0.6 <? risk_score m)%float,
     ("High Risk Exposure", "Risk mitigation plan needed")) ].

(** The rules of a list that fire on a snapshot, in order. *)
Definition fired {A : Type} (rules : list ((HealthMetrics -> bool) * A))
    (m : HealthMetrics) : list A :=
  map snd (filter (fun r => fst r m) rules).

(** The five "differs from its default" flags, as a count. *)
Definition deviations (m : HealthMetrics) : list bool :=
  [ negb (spi m =? 1.0)%float;
    negb (cpi m =? 1.0)%float;
    negb (quality_score m =? 1.0)%float;
    negb (risk_score m =? 0.0)%float;
    negb (milestone_completion_rate m =? 1.0)%float ].

Definition count_true (l : list bool) : Z :=
  Z.of_nat (count_occ Bool.bool_dec l true).

(** Every flag raised in [l1] is raised in [l2]. *)
Definition flags_le (l1 l2 : list bool) : Prop :=
  Forall2 (fun a b : bool => a = true -> b = true) l1 l2.

(** The snapshots of the two worked examples; the fields that are not named
    keep their defaults. *)
Definition healthy_snapshot : HealthMetrics :=
  {| spi := 1.10; cpi := 1.10; quality_score := 1.0; risk_score := 0.0;
     defect_count := 0; sev1_defects := 0; sev2_defects := 0;
     milestone_completion_rate := 0.98; scope_change_percentage := 0.0;
     resource_utilization := 1.0; stakeholder_satisfaction := 1.0 |}.

Definition troubled_snapshot : HealthMetrics :=
  {| spi := 0.80; cpi := 0.80; quality_score := 1.0; risk_score := 0.9;
     defect_count := 0; sev1_defects := 2; sev2_defects := 0;
     milestone_completion_rate := 1.0; scope_change_percentage := 0.0;
     resource_utilization := 1.0; stakeholder_satisfaction := 1.0 |}.

(** A snapshot with more sev1 defects than 4300 digits can tell, and a
    project with ten times as many issues. *)
Definition swamped_snapshot : HealthMetrics :=
  {| spi := 0.80; cpi := 0.80; quality_score := 1.0; risk_score := 0.9;
     defect_count := 0; sev1_defects := 10 ^ 4300; sev2_defects := 0;
     milestone_completion_rate := 1.0; scope_change_percentage := 0.0;
     resource_utilization := 1.0; stakeholder_satisfaction := 1.0 |}.

(** The datetime a record carries, where it has a date that parses. *)
Definition parsed_date (fromisoformat : string -> option datetime)
    (item : HistoricalRecord) : option datetime :=
  match h_date item with
  | Some s => fromisoformat s
  | None => None
  end.

(** A record whose date, if it has one, parses to a naive datetime. *)
Definition readable (fromisoformat : string -> option datetime)
    (item : HistoricalRecord) : Prop :=
  forall s, h_date item = Some s ->
  exists d, fromisoformat s = Some d /\ utcoffset d = None.

(** A record whose date, if it parses, is naive. *)
Definition not_aware (fromisoformat : string -> option datetime)
    (item : HistoricalRecord) : Prop :=
  forall s d, h_date item = Some s -> fromisoformat s = Some d ->
  utcoffset d = None.

(** A record dated within the closed interval [[lo, hi]]. *)
Definition in_window (fromisoformat : string -> option datetime) (lo hi : Z)
    (item : HistoricalRecord) : bool :=
  match parsed_date fromisoformat item with
  | Some d => (lo <=? micros d) && (micros d <=? hi)
  | None => false
  end.

Definition has_date (item : HistoricalRecord) : bool :=
  match h_date item with
  | Some _ => true
  | None => false
  end.

Definition week : Z := timedelta_days 7.

(** The aggregate of an empty window. *)
Definition neutral_aggregate : Aggregate :=
  {| avg_spi := 1.0; avg_cpi := 1.0; total_issues := 0; completion_rate := 0.0 |}.

Definition all_flat : Trends :=
  {| trend_schedule := FLAT; trend_cost := FLAT; trend_quality := FLAT |}.

(** A comparison over two empty windows. *)
Definition neutral_comparison (c : Comparison) : Prop :=
  period_metrics (current_period c) = neutral_aggregate
  /\ period_metrics (previous_period c) = neutral_aggregate
  /\ trends c = all_flat.

(** A status that reports such a comparison. *)
Definition reports_neutral_comparison (st : ProjectStatus) : Prop :=
  exists c, comparison_period st = Some c /\ neutral_comparison c.

(** Example inputs. *)
Definition empty_project : ProjectData :=
  {| pd_id := None; pd_name := None; milestones := None; risks := None;
     kpis := None |}.

Definition dated (s : string) (issues : Z) : HistoricalRecord :=
  {| h_date := Some s; h_spi := None; h_cpi := None; h_issues := Some issues;
     h_completion := None |}.

Definition undated (issues : Z) : HistoricalRecord :=
  {| h_date := None; h_spi := None; h_cpi := None; h_issues := Some issues;
     h_completion := None |}.

(** Noon of 2025-09-17, in microseconds. *)
Definition noon_2025_09_17 : Z := 63893707200000000.

Definition with_kpi (metric : string) (value : Z) : ProjectData :=
  {| pd_id := None; pd_name := None; milestones := None; risks := None;
     kpis := Some [ {| k_metric := Some metric; k_value := Some value |} ] |}.

(** One iteration order of a set of trends: first occurrences, in list
    order. *)
Definition first_occurrences (l : list TrendDirection) : list TrendDirection :=
  fold_left (fun seen t => if existsb (trend_eqb t) seen then seen
                           else (seen ++ [t])%list) l [].

(** The value of the first KPI that [selects], 0 when there is none or it has
    no value. *)
Definition issue_count_by (selects : string -> bool) (pd : ProjectData) : Z :=
  match find (fun k => selects (Py.get (k_metric k) "")) (Py.get (kpis pd) []) with
  | Some k => Py.get (k_value k) 0
  | None => 0
  end.

(** The issue count that the code reads: the name is lower-cased before the
    search. *)
Definition issue_count (pd : ProjectData) : Z :=
  issue_count_by (fun name => Py.contains "issue" (Py.lower name)) pd.

(** The extraction formulas, for a given issue count and sev1 estimate.
    Every division and every conversion of an integer is the nearest
    double. *)
Definition extraction (issue_count sev1 : Z) (pd : ProjectData)
    (m : HealthMetrics) : Prop :=
  let milestones := Py.get (milestones pd) [] in
  let completed :=
    Z.of_nat (List.length
                (filter (fun x => Py.eq_str (m_status x) "completed") milestones)) in
  let high :=
    Z.of_nat (List.length
                (filter (fun r => Py.eq_str (r_severity r) "high")
                        (Py.get (risks pd) []))) in
  spi m = (if existsb (fun x => Py.eq_str (m_status x) "at-risk") milestones
           then 0.95 else 1.02)%float
  /\ cpi m = 0.98%float
  /\ (exists f,
        rounds_to high 1 f
        /\ risk_score m
           = if (1.0 <? f * 0.3)%float then 1.0%float else (f * 0.3)%float)
  /\ defect_count m = issue_count
  /\ sev1_defects m = sev1
  /\ sev2_defects m = Z.max 0 (issue_count / 5 - sev1)
  /\ (if issue_count <? 100
      then exists q, rounds_to issue_count 100 q
                     /\ quality_score m = (1.0 - q)%float
      else quality_score m = 0.0%float)
  /\ match milestones with
     | [] => milestone_completion_rate m = 0%float
     | _ :: _ =>
         rounds_to completed (Z.of_nat (List.length milestones))
           (milestone_completion_rate m)
     end.

(** The extraction as worded: the metric name contains "issue", and sev1 is
    the bare quotient. *)
Definition extraction_as_worded (pd : ProjectData) (m : HealthMetrics) : Prop :=
  let issue_count := issue_count_by (Py.contains "issue") pd in
  extraction issue_count (issue_count / 10) pd m.

(** The extraction as coded: the name is lower-cased before the search, and
    sev1 is clamped at 0. *)
Definition extraction_as_coded (pd : ProjectData) (m : HealthMetrics) : Prop :=
  extraction (issue_count pd) (Z.max 0 (issue_count pd / 10)) pd m.

(** The projects whose metrics can be extracted: [issue_count / 100] is
    evaluated below 100 issues, and is too large for a float from
    [-100 * (2^1024 - 2^970)] downwards. *)
Definition extractable (pd : ProjectData) : Prop :=
  - (100 * Py.overflow_threshold) < issue_count pd.

(** What [_extract_metrics] does with a project: it returns metrics that
    satisfy [P] when the project is extractable, and raises [OverflowError]
    when it is not. *)
Definition extracts (pd : ProjectData) (P : HealthMetrics -> Prop) : Prop :=
  match _extract_metrics pd with
  | Py.Ok m => extractable pd /\ P m
  | Py.Raise e => e = Py.OverflowError /\ ~ extractable pd
  end.

(** An integer that an f-string prints under the limit on its digits. *)
Definition printable (max_str_digits n : Z) : Prop :=
  max_str_digits <= 0 \/ Z.abs n < 10 ^ max_str_digits.

(** The snapshots whose lowlights can be written: the record of the quality
    rule, which fires from one sev1 defect on, prints their number. *)
Definition describable (max_str_digits : Z) (m : HealthMetrics) : Prop :=
  sev1_defects m < 1 \/ printable max_str_digits (sev1_defects m).

(** The projects that can be evaluated: their metrics can be extracted, and
    the sev1 estimate, a tenth of the issue count, can be printed. *)
Definition evaluable (max_str_digits : Z) (pd : ProjectData) : Prop :=
  extractable pd
  /\ (max_str_digits <= 0 \/ issue_count pd < 10 ^ (max_str_digits + 1)).

(** A project with an issue count beyond the range of the floats. *)
Definition flooded_project : ProjectData :=
  {| pd_id := None; pd_name := Some "flooded"; milestones := None;
     risks := None;
     kpis := Some [ {| k_metric := Some "issues";
                       k_value := Some (- 10 ^ 400) |} ] |}.

Definition swamped_project : ProjectData :=
  {| pd_id := None; pd_name := Some "swamped"; milestones := None;
     risks := None;
     kpis := Some [ {| k_metric := Some "issues";
                       k_value := Some (10 ^ 4301) |} ] |}.

(** The issues of a record and of a window, and what the aggregate of a
    window is: the neutral aggregate of an empty window, else the averages
    over the number of records and the sum of the issues. *)
Definition issues_of (d : HistoricalRecord) : Z :=
  match h_issues d with
  | Some i => i
  | None => 0
  end.

Definition issue_total (window : list HistoricalRecord) : Z :=
  fold_right Z.add 0 (map issues_of window).

Definition average (float_sum : list float -> float)
    (field : HistoricalRecord -> option float) (default : float)
    (window : list HistoricalRecord) (count : float) : float :=
  (float_sum
     (map (fun d => match field d with Some x => x | None => default end) window)
   / count)%float.

Definition aggregated (float_sum : list float -> float)
    (window : list HistoricalRecord) (agg : Aggregate) : Prop :=
  match window with
  | [] =>
      agg = {| avg_spi := 1.0; avg_cpi := 1.0; total_issues := 0;
               completion_rate := 0.0 |}
  | _ :: _ =>
      exists count,
        rounds_to (Z.of_nat (List.length window)) 1 count
        /\ avg_spi agg = average float_sum h_spi 1.0 window count
        /\ avg_cpi agg = average float_sum h_cpi 1.0 window count
        /\ total_issues agg = issue_total window
        /\ completion_rate agg = average float_sum h_completion 0 window count
  end.

(** A record is counted in the aggregate of a window: it is one of the
    records the aggregate is made of, and its issues are a summand of the
    total. *)
Definition counted_in (float_sum : list float -> float) (r : HistoricalRecord)
    (window : list HistoricalRecord) (agg : Aggregate) : Prop :=
  aggregated float_sum window agg
  /\ exists before after,
       window = (before ++ r :: after)%list
       /\ total_issues agg = issues_of r + issue_total (before ++ after).

(** A history with a record at the turn of the two windows, seven days
    before noon of 2025-09-17, a record without a date and a recent one. *)
Definition boundary_record : HistoricalRecord := dated "2025-09-10T12:00:00" 5.

Definition boundary_history : list HistoricalRecord :=
  [ boundary_record; undated 3; dated "2025-09-16" 2 ].

(** A history whose first date carries a UTC offset and whose second does
    not parse. *)
Definition aware_then_malformed : list HistoricalRecord :=
  [ dated "2025-09-10T12:00:00+00:00" 5; dated "not-a-date" 3 ].

(** A status classified by a green band and an amber band, red being the
    catch-all. *)
Definition classified (is_green is_amber : bool) (s : StatusColor) : Prop :=
  (s = GREEN <-> is_green = true)
  /\ (s = AMBER <-> is_amber = true)
  /\ (s = RED <-> is_green = false /\ is_amber = false).

(** A record that [_filter_period_data] keeps between [start] and [end_]:
    its date parses and both comparisons with the bounds succeed. *)
Definition within (fromisoformat : string -> option datetime)
    (start end_ : datetime) (item : HistoricalRecord) : bool :=
  match parsed_date fromisoformat item with
  | Some d =>
      match datetime_le start d, datetime_le d end_ with
      | Py.Ok true, Py.Ok true => true
      | _, _ => false
      end
  | None => false
  end.

(** A record with a given title is in a list of records. *)
Definition listed (t : string) (records : list Dict) : Prop :=
  In (Some t) (map title records).

(** The three trends of a comparison, in dictionary order. *)
Definition trend_values (c : Comparison) : list TrendDirection :=
  [trend_schedule (trends c); trend_cost (trends c); trend_quality (trends c)].

(** A status string of the scoring algorithm. *)
Definition rag_string (s : string) : Prop :=
  s = "green" \/ s = "amber" \/ s = "red".

(** What [_extract_metrics] reads off a project: whether a milestone is at
    risk, and how many risks are high. *)
Definition at_risk (pd : ProjectData) : bool :=
  existsb (fun x => Py.eq_str (m_status x) "at-risk") (Py.get (milestones pd) []).

Definition high_risk_count (pd : ProjectData) : Z :=
  Py.count (fun r => Py.eq_str (r_severity r) "high") (Py.get (risks pd) []).

(** A history whose single record, of the day before noon of 2025-09-17,
    raises the schedule average and lowers the cost average. *)
Definition mixed_record : HistoricalRecord :=
  {| h_date := Some "2025-09-16"; h_spi := Some 1.2%float;
     h_cpi := Some 0.8%float; h_issues := None; h_completion := None |}.

Definition mixed_history : list HistoricalRecord := [ mixed_record ].

(** What every entry of a portfolio report satisfies, for its project. *)
Definition entry_of (max_str_digits : Z) (project : ProjectData) (e : Entry)
  : Prop :=
  exists m st conf,
    _extract_metrics project = Py.Ok m
    /\ calculate_overall_status m = Py.Ok (st, conf)
    /\ entry_project e = pd_name project
    /\ entry_status e = StatusColor_value st
    /\ rag_string (entry_status e)
    /\ entry_trend e = TrendDirection_value FLAT
    /\ entry_confidence e = Py.format_pct0 conf
    /\ entry_highlights e = detect_highlights m None project
    /\ detect_lowlights max_str_digits m None project
       = Py.Ok (entry_lowlights e).

(** ** Rounding of integers and quotients *)

Lemma round_half_even_nearest (n d : Z) :
  0 < d -> nearest_even n d (Py.round_half_even n d).
Proof.
  intros Hd. unfold nearest_even, Py.round_half_even. cbv zeta.
  pose proof (Z.div_mod n d ltac:(lia)) as E.
  pose proof (Z.mod_pos_bound n d Hd) as B.
  set (q := n / d) in *. set (r := n mod d) in *. clearbody q r.
  destruct (Z.compare_spec (2 * r) d) as [Heq|Hlt|Hgt].
  - destruct (Z.even q) eqn:Ev.
    + split; [nia|]. intros _. exact Ev.
    + split; [nia|]. intros _. rewrite Z.even_add, Ev. reflexivity.
  - split; [nia|]. intros H. exfalso. nia.
  - split; [nia|]. intros H. exfalso. nia.
Qed.

Lemma pow2_pos (e : Z) : 0 <= e -> 0 < 2 ^ e.
Proof. intros. apply Z.pow_pos_nonneg; lia. Qed.

Lemma scaled_den_pos (d k : Z) : 0 < d -> 0 < Py.scaled_den d k.
Proof.
  intros. unfold Py.scaled_den. apply Z.mul_pos_pos; [lia|]. apply pow2_pos. lia.
Qed.

Lemma scaled_num_pos (n k : Z) : 0 < n -> 0 < Py.scaled_num n k.
Proof.
  intros. unfold Py.scaled_num. apply Z.mul_pos_pos; [lia|]. apply pow2_pos. lia.
Qed.

(** One step of scale doubles the ratio. *)
Lemma scale_step (n d k : Z) :
  Py.scaled_num n (k + 1) * Py.scaled_den d k
  = 2 * (Py.scaled_num n k * Py.scaled_den d (k + 1)).
Proof.
  unfold Py.scaled_num, Py.scaled_den.
  destruct (Z.le_gt_cases 0 k) as [H|H].
  - replace (Z.max (k + 1) 0) with (Z.succ k) by lia.
    replace (Z.max k 0) with k by lia.
    replace (Z.max (- k) 0) with 0 by lia.
    replace (Z.max (- (k + 1)) 0) with 0 by lia.
    rewrite Z.pow_succ_r by lia. ring.
  - replace (Z.max (k + 1) 0) with 0 by lia.
    replace (Z.max k 0) with 0 by lia.
    replace (Z.max (- k) 0) with (Z.succ (- (k + 1))) by lia.
    replace (Z.max (- (k + 1)) 0) with (- (k + 1)) by lia.
    rewrite Z.pow_succ_r by lia. ring.
Qed.

(** Bounds of the scaled ratio read off the bit lengths. *)
Lemma scaled_lower (n d k : Z) :
  0 < n -> 0 < d -> 53 + Z.log2 d - Z.log2 n <= k ->
  2 ^ 52 * Py.scaled_den d k <= Py.scaled_num n k.
Proof.
  intros Hn Hd Hk. unfold Py.scaled_num, Py.scaled_den.
  pose proof (Z.log2_spec n Hn) as [Ln _].
  pose proof (Z.log2_spec d Hd) as [_ Ld].
  pose proof (Z.log2_nonneg n). pose proof (Z.log2_nonneg d).
  set (P := Z.max k 0). set (N := Z.max (- k) 0).
  assert (E : 2 ^ 52 * (2 ^ Z.succ (Z.log2 d) * 2 ^ N) <= 2 ^ Z.log2 n * 2 ^ P).
  { rewrite <- !Z.pow_add_r by lia. apply Z.pow_le_mono_r; lia. }
  pose proof (pow2_pos N ltac:(lia)). pose proof (pow2_pos P ltac:(lia)).
  nia.
Qed.

Lemma scaled_upper (n d k : Z) :
  0 < n -> 0 < d -> k <= 52 + Z.log2 d - Z.log2 n ->
  Py.scaled_num n k < 2 ^ 53 * Py.scaled_den d k.
Proof.
  intros Hn Hd Hk. unfold Py.scaled_num, Py.scaled_den.
  pose proof (Z.log2_spec n Hn) as [_ Ln].
  pose proof (Z.log2_spec d Hd) as [Ld _].
  pose proof (Z.log2_nonneg n). pose proof (Z.log2_nonneg d).
  set (P := Z.max k 0). set (N := Z.max (- k) 0).
  assert (E : 2 ^ Z.succ (Z.log2 n) * 2 ^ P <= 2 ^ 53 * (2 ^ Z.log2 d * 2 ^ N)).
  { rewrite <- !Z.pow_add_r by lia. apply Z.pow_le_mono_r; lia. }
  pose proof (pow2_pos N ltac:(lia)). pose proof (pow2_pos P ltac:(lia)).
  nia.
Qed.

Lemma binade_spec (n d : Z) :
  0 < n -> 0 < d ->
  let k := Py.binade n d in
  k <= 1074
  /\ Py.scaled_num n k < 2 ^ 53 * Py.scaled_den d k
  /\ (k = 1074 \/ 2 ^ 52 * Py.scaled_den d k <= Py.scaled_num n k).
Proof.
  intros Hn Hd. unfold Py.binade. cbv zeta.
  set (k0 := 53 + Z.log2 d - Z.log2 n).
  assert (B1 : exists k1,
             (if Py.scaled_num n k0 <? 2 ^ 53 * Py.scaled_den d k0 then k0 else k0 - 1)
             = k1
             /\ Py.scaled_num n k1 < 2 ^ 53 * Py.scaled_den d k1
             /\ 2 ^ 52 * Py.scaled_den d k1 <= Py.scaled_num n k1).
  { destruct (Py.scaled_num n k0 <? 2 ^ 53 * Py.scaled_den d k0) eqn:T.
    - exists k0. split; [reflexivity|]. split; [now apply Z.ltb_lt|].
      apply scaled_lower; lia.
    - exists (k0 - 1). split; [reflexivity|].
      split; [apply scaled_upper; lia|].
      apply Z.ltb_ge in T.
      pose proof (scale_step n d (k0 - 1)) as S.
      replace (k0 - 1 + 1) with k0 in S by lia.
      pose proof (scaled_den_pos d k0 Hd).
      pose proof (scaled_den_pos d (k0 - 1) Hd).
      nia. }
  destruct B1 as [k1 [-> [U L]]].
  split; [lia|].
  destruct (Z.le_gt_cases k1 1074) as [H|H].
  - replace (Z.min k1 1074) with k1 by lia. split; [exact U | now right].
  - replace (Z.min k1 1074) with 1074 by lia. split; [|now left].
    unfold Py.scaled_num, Py.scaled_den in *.
    replace (Z.max k1 0) with k1 in U by lia.
    replace (Z.max (- k1) 0) with 0 in U by lia.
    replace (Z.max 1074 0) with 1074 by lia.
    replace (Z.max (- 1074) 0) with 0 by lia.
    assert (2 ^ 1074 <= 2 ^ k1) by (apply Z.pow_le_mono_r; lia).
    nia.
Qed.

Lemma nearest_quotient_rounds (a b : Z) :
  b <> 0 -> rounds_to a b (Py.nearest_quotient a b).
Proof.
  intros Hb. split; [exact Hb|]. unfold Py.nearest_quotient. cbv zeta.
  destruct (a =? 0) eqn:Ea.
  - apply Z.eqb_eq in Ea. subst a. exists 1074, 0.
    change (Z.abs 0) with 0. rewrite Z.mul_0_l.
    assert (0 < Z.abs b * 2 ^ Z.max (- 1074) 0).
    { apply Z.mul_pos_pos; [lia|]. apply pow2_pos. lia. }
    split; [lia|]. split; [lia|]. split; [now left|].
    split; [|reflexivity]. unfold nearest_even. simpl Z.abs. split; lia.
  - apply Z.eqb_neq in Ea.
    destruct (binade_spec (Z.abs a) (Z.abs b) ltac:(lia) ltac:(lia))
      as (K & U & L).
    exists (Py.binade (Z.abs a) (Z.abs b)),
      (Py.round_half_even (Py.scaled_num (Z.abs a) (Py.binade (Z.abs a) (Z.abs b)))
                       (Py.scaled_den (Z.abs b) (Py.binade (Z.abs a) (Z.abs b)))).
    split; [exact K|]. split; [exact U|]. split; [exact L|].
    split; [|reflexivity].
    apply round_half_even_nearest. apply scaled_den_pos. lia.
Qed.

(** The largest double is far above the counts of the engine. *)
Lemma overflow_threshold_large : 2 ^ 64 <= Py.overflow_threshold.
Proof. vm_compute. discriminate. Qed.

Lemma int_truediv_returns (a b : Z) :
  b <> 0 -> Z.abs a < Py.overflow_threshold * Z.abs b ->
  Py.int_truediv a b = Py.Ok (Py.nearest_quotient a b).
Proof.
  intros Hb Ha. unfold Py.int_truediv.
  apply Z.eqb_neq in Hb. rewrite Hb.
  apply Z.leb_gt in Ha. now rewrite Ha.
Qed.

Lemma int_truediv_overflows (a b : Z) :
  b <> 0 -> Py.overflow_threshold * Z.abs b <= Z.abs a ->
  Py.int_truediv a b = Py.Raise Py.OverflowError.
Proof.
  intros Hb Ha. unfold Py.int_truediv.
  apply Z.eqb_neq in Hb. rewrite Hb.
  apply Z.leb_le in Ha. now rewrite Ha.
Qed.

(** What [a / b] returns is the nearest double. *)
Lemma int_truediv_rounds (a b : Z) (q : float) :
  Py.int_truediv a b = Py.Ok q -> rounds_to a b q.
Proof.
  unfold Py.int_truediv. destruct (b =? 0) eqn:Hb; [discriminate|].
  destruct (_ <=? _); [discriminate|]. intros [= <-].
  apply nearest_quotient_rounds. now apply Z.eqb_neq.
Qed.

(** A part of a whole divides into a float. *)
Lemma int_truediv_part (a b : Z) :
  0 <= a <= b -> 0 < b ->
  Py.int_truediv a b = Py.Ok (Py.nearest_quotient a b).
Proof.
  intros Ha Hb. apply int_truediv_returns; [lia|].
  pose proof overflow_threshold_large. nia.
Qed.

Lemma float_of_count_rounds (n : Z) : rounds_to n 1 (Py.float_of_count n).
Proof. apply nearest_quotient_rounds. discriminate. Qed.

(** ** Facts about float comparison *)

Lemma SFcompare_swap (x y : spec_float) :
  SFcompare y x = option_map CompOpp (SFcompare x y).
Proof.
  destruct x as [sx | sx | | sx mx ex], y as [sy | sy | | sy my ey];
    try destruct sx; try destruct sy; simpl; try reflexivity.
  - rewrite (Z.compare_antisym ey ex).
    destruct (ey ?= ex)%Z; simpl; try reflexivity.
    pose proof (Pos.compare_cont_antisym mx my Eq) as H; simpl in H.
    now rewrite H.
  - rewrite (Z.compare_antisym ey ex).
    destruct (ey ?= ex)%Z; simpl; try reflexivity.
    pose proof (Pos.compare_cont_antisym mx my Eq) as H; simpl in H.
    now rewrite H.
Qed.

(** On two numbers, [x < y] is the negation of [y <= x]. *)
Lemma ltb_negb_leb (x y : float) :
  PrimFloat.is_nan x = false -> PrimFloat.is_nan y = false ->
  (x <? y)%float = negb (y <=? x)%float.
Proof.
  unfold PrimFloat.is_nan. rewrite !eqb_spec, ltb_spec, leb_spec.
  unfold SFeqb, SFltb, SFleb.
  rewrite (SFcompare_swap (Prim2SF x) (Prim2SF y)).
  intros Hx Hy.
  destruct (Prim2SF x) as [sx | sx | | sx mx ex],
           (Prim2SF y) as [sy | sy | | sy my ey];
    simpl in Hx, Hy; try discriminate.
  all: destruct (SFcompare _ _) as [[]|] eqn:E; simpl; try reflexivity.
  all: try (simpl in E; try destruct sx; try destruct sy; discriminate).
Qed.

(** A comparison that holds has two numbers as operands. *)
Lemma leb_true_not_nan (x y : float) :
  (x <=? y)%float = true ->
  PrimFloat.is_nan x = false /\ PrimFloat.is_nan y = false.
Proof.
  unfold PrimFloat.is_nan. rewrite !eqb_spec, leb_spec.
  unfold SFeqb, SFleb.
  destruct (Prim2SF x) as [sx | sx | | sx mx ex],
           (Prim2SF y) as [sy | sy | | sy my ey];
  simpl; try discriminate; intros _; split; try reflexivity;
  try destruct sx; try destruct sy; simpl; try reflexivity;
  rewrite ?Z.compare_refl, ?Pos.compare_cont_refl; reflexivity.
Qed.

(** Below the upper rung but on the lower one: strictly between the two. *)
Lemma ge_ladder (x lo hi : float) :
  PrimFloat.is_nan hi = false ->
  Py.ge x lo = true -> Py.ge x hi = false -> Py.lt x hi = true.
Proof.
  unfold Py.ge, Py.lt. intros Hhi Hlo Hnot.
  destruct (leb_true_not_nan _ _ Hlo) as [_ Hx].
  rewrite (ltb_negb_leb x hi Hx Hhi), Hnot. reflexivity.
Qed.

Lemma le_ladder (x lo hi : float) :
  PrimFloat.is_nan lo = false ->
  Py.le x hi = true -> Py.le x lo = false -> Py.gt x lo = true.
Proof.
  unfold Py.le, Py.gt. intros Hlo Hhi Hnot.
  destruct (leb_true_not_nan _ _ Hhi) as [Hx _].
  rewrite (ltb_negb_leb lo x Hlo Hx), Hnot. reflexivity.
Qed.

Lemma lt_not_ge (x y : float) : Py.lt x y = true -> Py.ge x y = false.
Proof.
  unfold Py.lt, Py.ge. rewrite ltb_spec, leb_spec. unfold SFltb, SFleb.
  rewrite (SFcompare_swap (Prim2SF x) (Prim2SF y)).
  destruct (SFcompare (Prim2SF x) (Prim2SF y)) as [[]|]; simpl; congruence.
Qed.

Lemma gt_not_le (x y : float) : Py.gt x y = true -> Py.le x y = false.
Proof.
  unfold Py.gt, Py.le. rewrite ltb_spec, leb_spec. unfold SFltb, SFleb.
  rewrite (SFcompare_swap (Prim2SF y) (Prim2SF x)).
  destruct (SFcompare (Prim2SF y) (Prim2SF x)) as [[]|]; simpl; congruence.
Qed.

(** ** Order on floats *)

Lemma SFleb_trans (x y z : spec_float) :
  SFleb x y = true -> SFleb y z = true -> SFleb x z = true.
Proof.
  unfold SFleb, SFcompare.
  destruct x as [sx | sx | | sx mx ex], y as [sy | sy | | sy my ey],
           z as [sz | sz | | sz mz ez];
    try destruct sx; try destruct sy; try destruct sz;
    try discriminate; try reflexivity; intros Hxy Hyz.
  all: change (Pos.compare_cont Eq) with Pos.compare in *.
  all: destruct (Z.compare_spec ex ey), (Z.compare_spec ey ez),
         (Z.compare_spec ex ez); subst;
       try discriminate; try reflexivity; try lia.
  all: destruct (Pos.compare_spec mx my), (Pos.compare_spec my mz),
         (Pos.compare_spec mx mz); subst;
       try discriminate; try reflexivity; try lia.
Qed.

Lemma leb_trans (x y z : float) :
  (x <=? y)%float = true -> (y <=? z)%float = true -> (x <=? z)%float = true.
Proof. rewrite !leb_spec. apply SFleb_trans. Qed.

(** No float lies on or above [hi] and on or below a smaller [lo]. *)
Lemma not_between (lo hi x : float) :
  (hi <=? lo)%float = false ->
  (hi <=? x)%float = true -> (x <=? lo)%float = false.
Proof.
  intros Hgap Hhi. destruct (x <=? lo)%float eqn:Hlo; [|reflexivity].
  rewrite (leb_trans hi x lo Hhi Hlo) in Hgap. discriminate Hgap.
Qed.

(** ** The confidence score *)

Lemma sum_bool_from (l : list bool) (acc : Z) :
  fold_left (fun a (b : bool) => a + (if b then 1 else 0)) l acc
  = acc + count_true l.
Proof.
  revert acc. induction l as [|b l IH]; intros acc; simpl.
  - unfold count_true. simpl. lia.
  - rewrite IH. unfold count_true. simpl.
    destruct b; destruct (bool_dec _ _) as [E|E];
      try discriminate E; try (exfalso; apply E; reflexivity); lia.
Qed.

Lemma sum_bool_count_true (l : list bool) : Py.sum_bool l = count_true l.
Proof. unfold Py.sum_bool. now rewrite sum_bool_from. Qed.

Lemma count_true_bounds (l : list bool) : 0 <= count_true l <= Py.len l.
Proof.
  unfold count_true, Py.len. pose proof (count_occ_bound bool_dec true l). lia.
Qed.

Lemma flags_le_count (l1 l2 : list bool) :
  flags_le l1 l2 -> count_true l1 <= count_true l2.
Proof.
  unfold flags_le, count_true. induction 1 as [|a b l1 l2 Hab _ IH]; simpl.
  - lia.
  - destruct a; [rewrite (Hab eq_refl)|destruct b]; simpl; lia.
Qed.

(** ** The RAG evaluator *)

(** The classifiers only answer green, amber or red. *)
Lemma severity_bounds (s : StatusColor) : 0 <= severity s <= 2.
Proof. destruct s; cbv; split; congruence. Qed.

Lemma schedule_green_amber_red (m : HealthMetrics) :
  evaluate_schedule_health m = GREEN \/ evaluate_schedule_health m = AMBER
  \/ evaluate_schedule_health m = RED.
Proof.
  unfold evaluate_schedule_health. cbv zeta.
  destruct (Py.ge _ _); [tauto|]. destruct (Py.ge _ _); tauto.
Qed.

Lemma cost_green_amber_red (m : HealthMetrics) :
  evaluate_cost_health m = GREEN \/ evaluate_cost_health m = AMBER
  \/ evaluate_cost_health m = RED.
Proof.
  unfold evaluate_cost_health. cbv zeta.
  destruct (Py.ge _ _); [tauto|]. destruct (Py.ge _ _); tauto.
Qed.

Lemma quality_green_amber_red (m : HealthMetrics) :
  evaluate_quality_health m = GREEN \/ evaluate_quality_health m = AMBER
  \/ evaluate_quality_health m = RED.
Proof.
  unfold evaluate_quality_health.
  destruct (_ && _); [tauto|]. destruct (_ && _); tauto.
Qed.

Lemma risk_green_amber_red (m : HealthMetrics) :
  evaluate_risk_health m = GREEN \/ evaluate_risk_health m = AMBER
  \/ evaluate_risk_health m = RED.
Proof.
  unfold evaluate_risk_health. cbv zeta.
  destruct (Py.le _ _); [tauto|]. destruct (Py.le _ _); tauto.
Qed.

(** The worst severity of four statuses and the status it maps back to. *)
Lemma worst_of_four (a b c d : StatusColor) :
  exists w st,
    Py.max_int (map severity [a; b; c; d]) = Py.Ok w
    /\ status_map w = Some st
    /\ severity st
       = Z.max (Z.max (severity a) (severity b)) (Z.max (severity c) (severity d))
    /\ (st = GREEN \/ st = AMBER \/ st = RED).
Proof.
  destruct a, b, c, d; eexists; eexists;
    (split; [reflexivity|]); (split; [reflexivity|]);
    (split; [reflexivity|]); tauto.
Qed.

(** The ratio of raised flags is always a float. *)
Lemma confidence_returns (m : HealthMetrics) :
  Py.int_truediv (Py.sum_bool (data_points m)) (Py.len (data_points m))
  = Py.Ok (Py.nearest_quotient (count_true (deviations m)) 5).
Proof.
  rewrite sum_bool_count_true.
  change (data_points m) with (deviations m).
  pose proof (count_true_bounds (deviations m)) as Hb.
  change (Py.len (deviations m)) with 5 in *.
  apply int_truediv_part; lia.
Qed.

(** The call returns: the status found by the worst-of rule, and the ratio
    of raised data flags. *)
Lemma calculate_overall_status_returns (m : HealthMetrics) :
  exists st,
    calculate_overall_status m
    = Py.Ok (st, Py.nearest_quotient (count_true (deviations m)) 5)
    /\ severity st
       = Z.max (Z.max (severity (evaluate_schedule_health m))
                      (severity (evaluate_cost_health m)))
               (Z.max (severity (evaluate_quality_health m))
                      (severity (evaluate_risk_health m)))
    /\ (st = GREEN \/ st = AMBER \/ st = RED).
Proof.
  unfold calculate_overall_status. cbv zeta.
  destruct (worst_of_four (evaluate_schedule_health m) (evaluate_cost_health m)
              (evaluate_quality_health m) (evaluate_risk_health m))
    as (w & st & Hmax & Hmap & Hsev & Hrag).
  exists st. rewrite Hmax. unfold Py.bind at 1.
  rewrite confidence_returns. unfold Py.bind. rewrite Hmap.
  repeat split; assumption.
Qed.

(** The overall status and the four dimensions, related. *)
Lemma overall_status_cases (m : HealthMetrics) :
  exists st,
    calculate_overall_status m
    = Py.Ok (st, Py.nearest_quotient (count_true (deviations m)) 5)
    /\ (st = GREEN \/ st = AMBER \/ st = RED)
    /\ (st = GREEN <->
        evaluate_schedule_health m = GREEN /\ evaluate_cost_health m = GREEN
        /\ evaluate_quality_health m = GREEN /\ evaluate_risk_health m = GREEN)
    /\ (st = RED <->
        evaluate_schedule_health m = RED \/ evaluate_cost_health m = RED
        \/ evaluate_quality_health m = RED \/ evaluate_risk_health m = RED).
Proof.
  destruct (calculate_overall_status_returns m) as (st & Hrun & Hsev & Hrag).
  exists st. split; [exact Hrun|]. split; [exact Hrag|]. clear Hrun.
  destruct (schedule_green_amber_red m) as [Hs|[Hs|Hs]];
    destruct (cost_green_amber_red m) as [Hc|[Hc|Hc]];
    destruct (quality_green_amber_red m) as [Hq|[Hq|Hq]];
    destruct (risk_green_amber_red m) as [Hr|[Hr|Hr]];
    rewrite Hs, Hc, Hq, Hr in *;
    destruct Hrag as [-> | [-> | ->]]; try discriminate Hsev;
    split; split; intros;
    try discriminate; try tauto; intuition discriminate.
Qed.


(** A ladder whose amber band excludes the green one classifies. *)
Lemma ladder_classified (g a g' a' : bool) :
  g = g' -> (g = false -> a = a') -> (a' = true -> g' = false) ->
  classified g' a' (if g then GREEN else if a then AMBER else RED).
Proof.
  intros <- Ha Hex. unfold classified.
  destruct g; [destruct a' | rewrite (Ha eq_refl); destruct a'];
    try discriminate (Hex eq_refl);
    repeat split; intros; intuition congruence.
Qed.

(** C2: each per-dimension classifier is its threshold ladder: schedule is
    green iff spi >= 0.98, amber iff 0.90 <= spi < 0.98, else red; cost the
    same on cpi; quality is green iff sev1 <= 0 and sev2 <= 0, amber iff
    sev1 <= 0 and sev2 <= 3 and not green, else red; risk is green iff
    risk_score <= 0.3, amber iff 0.3 < risk_score <= 0.6, else red. *)
Theorem classifiers_are_threshold_ladders (m : HealthMetrics) :
  classified (0.98 <=? spi m)%float
             ((0.90 <=? spi m)%float && (spi m <? 0.98)%float)
             (evaluate_schedule_health m)
  /\ classified (0.98 <=? cpi m)%float
                ((0.90 <=? cpi m)%float && (cpi m <? 0.98)%float)
                (evaluate_cost_health m)
  /\ classified ((sev1_defects m <=? 0) && (sev2_defects m <=? 0))
                ((sev1_defects m <=? 0) && (sev2_defects m <=? 3)
                 && negb ((sev1_defects m <=? 0) && (sev2_defects m <=? 0)))
                (evaluate_quality_health m)
  /\ classified (risk_score m <=? 0.3)%float
                ((0.3 <? risk_score m)%float && (risk_score m <=? 0.6)%float)
                (evaluate_risk_health m).
Proof.
  split; [|split; [|split]].
  - unfold evaluate_schedule_health. cbv zeta.
    apply ladder_classified; [reflexivity | |].
    + simpl. intros Hg.
      destruct (Py.ge (spi m) 0.9) eqn:Ha;
        [change (0.9 <=? spi m)%float with (Py.ge (spi m) 0.9); rewrite Ha
        |change (0.9 <=? spi m)%float with (Py.ge (spi m) 0.9); rewrite Ha;
         reflexivity].
      symmetry. exact (ge_ladder _ 0.9 0.98 eq_refl Ha Hg).
    + intros H. apply andb_prop in H. destruct H as [_ H].
      exact (lt_not_ge _ _ H).
  - unfold evaluate_cost_health. cbv zeta.
    apply ladder_classified; [reflexivity | |].
    + simpl. intros Hg.
      destruct (Py.ge (cpi m) 0.9) eqn:Ha;
        [change (0.9 <=? cpi m)%float with (Py.ge (cpi m) 0.9); rewrite Ha
        |change (0.9 <=? cpi m)%float with (Py.ge (cpi m) 0.9); rewrite Ha;
         reflexivity].
      symmetry. exact (ge_ladder _ 0.9 0.98 eq_refl Ha Hg).
    + intros H. apply andb_prop in H. destruct H as [_ H].
      exact (lt_not_ge _ _ H).
  - unfold evaluate_quality_health.
    apply ladder_classified; [reflexivity | |].
    + simpl. intros ->. now rewrite andb_true_r.
    + intros H. apply andb_prop in H. destruct H as [_ H].
      now apply negb_true_iff in H.
  - unfold evaluate_risk_health. cbv zeta.
    apply ladder_classified; [reflexivity | |].
    + simpl. intros Hg. rewrite andb_comm.
      destruct (Py.le (risk_score m) 0.6) eqn:Ha;
        [change (risk_score m <=? 0.6)%float with (Py.le (risk_score m) 0.6);
         rewrite Ha
        |change (risk_score m <=? 0.6)%float with (Py.le (risk_score m) 0.6);
         rewrite Ha; reflexivity].
      symmetry. exact (le_ladder _ 0.3 0.6 eq_refl Ha Hg).
    + intros H. apply andb_prop in H. destruct H as [H _].
      exact (gt_not_le _ _ H).
Qed.

(** ** Range and growth of the confidence *)

(** The six possible scores, in increasing order. *)
Lemma fifths_monotone (a b : Z) :
  0 <= a <= b -> b <= 5 ->
  (0 <=? Py.nearest_quotient a 5)%float = true
  /\ (Py.nearest_quotient a 5 <=? Py.nearest_quotient b 5)%float = true
  /\ (Py.nearest_quotient b 5 <=? 1)%float = true.
Proof.
  intros Ha Hb.
  assert (Ea : a = 0 \/ a = 1 \/ a = 2 \/ a = 3 \/ a = 4 \/ a = 5) by lia.
  assert (Eb : b = 0 \/ b = 1 \/ b = 2 \/ b = 3 \/ b = 4 \/ b = 5) by lia.
  destruct Ea as [->|[->|[->|[->|[->| ->]]]]];
    destruct Eb as [->|[->|[->|[->|[->| ->]]]]];
    try (exfalso; lia); vm_compute; repeat split.
Qed.

(** C5: the confidence returned by [calculate_overall_status] is the number
    of raised flags among spi <> 1.0, cpi <> 1.0, quality_score <> 1.0,
    risk_score <> 0.0 and milestone_completion_rate <> 1.0, divided by 5 (the
    nearest double of that quotient); it lies in [0,1], and a snapshot that
    raises every flag another raises scores at least as high. *)
Theorem confidence_counts_deviations (m : HealthMetrics) :
  exists st conf,
    calculate_overall_status m = Py.Ok (st, conf)
    /\ Py.int_truediv (count_true (deviations m)) 5 = Py.Ok conf
    /\ rounds_to (count_true (deviations m)) 5 conf
    /\ (0 <=? conf)%float = true
    /\ (conf <=? 1)%float = true
    /\ (forall m' st' conf',
          calculate_overall_status m' = Py.Ok (st', conf') ->
          flags_le (deviations m) (deviations m') ->
          (conf <=? conf')%float = true).
Proof.
  destruct (calculate_overall_status_returns m) as (st & Hrun & _).
  exists st, (Py.nearest_quotient (count_true (deviations m)) 5).
  pose proof (count_true_bounds (deviations m)) as Hb.
  change (Py.len (deviations m)) with 5 in Hb.
  destruct (fifths_monotone _ _ (conj (proj1 Hb) (Z.le_refl _)) (proj2 Hb))
    as [H0 [_ H1]].
  split; [exact Hrun|].
  split; [apply int_truediv_part; lia|].
  split; [apply nearest_quotient_rounds; discriminate|].
  split; [exact H0|]. split; [exact H1|].
  intros m' st' conf' Hrun' Hle.
  destruct (calculate_overall_status_returns m') as (st2 & Hrun2 & _).
  rewrite Hrun2 in Hrun'. injection Hrun' as _ <-.
  pose proof (count_true_bounds (deviations m')) as Hb'.
  change (Py.len (deviations m')) with 5 in Hb'.
  apply flags_le_count in Hle.
  now apply fifths_monotone.
Qed.

(** ** The highlight and lowlight detector *)

Lemma highlight_titles (m : HealthMetrics) (prev : option HealthMetrics)
    (pd : ProjectData) :
  map title (detect_highlights m prev pd) = map Some (fired highlight_rules m).
Proof.
  unfold detect_highlights, fired, highlight_rules. cbv zeta.
  cbn [filter fst snd].
  change (Py.ge (spi m) _) with (1.05 <=? spi m)%float.
  change (Py.ge (cpi m) _) with (1.05 <=? cpi m)%float.
  change (Py.gt (milestone_completion_rate m) _)
    with (0.95 <? milestone_completion_rate m)%float.
  destruct (1.05 <=? spi m)%float, (1.05 <=? cpi m)%float,
    ((sev1_defects m =? 0) && (sev2_defects m =? 0)),
    (0.95 <? milestone_completion_rate m)%float; reflexivity.
Qed.

(** Integers under the limit are printed, the others raise. *)
Lemma format_int_returns (limit n : Z) :
  printable limit n -> Py.format_int limit n = Py.Ok (Py.str_int n).
Proof.
  unfold printable, Py.format_int. intros [H|H].
  - assert (E : (0 <? limit) = false) by (apply Z.ltb_ge; exact H).
    now rewrite E.
  - assert (E : (10 ^ limit <=? Z.abs n) = false) by (apply Z.leb_gt; exact H).
    rewrite E, andb_false_r. reflexivity.
Qed.

Lemma format_int_raises (limit n : Z) :
  ~ printable limit n -> Py.format_int limit n = Py.Raise Py.ValueError.
Proof.
  unfold printable, Py.format_int. intros H.
  assert (E1 : (0 <? limit) = true) by (apply Z.ltb_lt; lia).
  assert (E2 : (10 ^ limit <=? Z.abs n) = true) by (apply Z.leb_le; lia).
  now rewrite E1, E2.
Qed.

Lemma describable_or_not (limit : Z) (m : HealthMetrics) :
  describable limit m
  \/ (1 <= sev1_defects m /\ ~ printable limit (sev1_defects m)).
Proof. unfold describable, printable. lia. Qed.

(** A small number of defects is printed under any limit. *)
Lemma small_count_printable (limit n : Z) : Z.abs n < 10 -> printable limit n.
Proof.
  intros Hn. unfold printable.
  destruct (Z.le_gt_cases limit 0) as [H|H]; [now left | right].
  assert (10 ^ 1 <= 10 ^ limit) by (apply Z.pow_le_mono_r; lia).
  change (10 ^ 1) with 10 in *. lia.
Qed.

(** The lowlights of a describable snapshot: the records of the rules that
    fire, in rule order. *)
Lemma lowlights_written (limit : Z) (m : HealthMetrics)
    (prev : option HealthMetrics) (pd : ProjectData) :
  describable limit m ->
  exists lows,
    detect_lowlights limit m prev pd = Py.Ok lows
    /\ map (fun d => (title d, action_required d)) lows
       = map (fun r => (Some (fst r), Some (snd r))) (fired lowlight_rules m)
    /\ Forall (fun d => lookup "impact" d = Some "negative") lows
    /\ (List.length lows <= 4)%nat.
Proof.
  intros Hd. unfold detect_lowlights, fired, lowlight_rules. cbv zeta.
  cbn [filter fst snd].
  change (Py.le (spi m) _) with (spi m <=? 0.95)%float.
  change (Py.le (cpi m) _) with (cpi m <=? 0.95)%float.
  change (Py.gt (risk_score m) _) with (0.6 <? risk_score m)%float.
  change (LOWLIGHT_TRIGGERS.sev1_count LOWLIGHT_TRIGGERS.quality) with 1.
  rewrite Z.geb_leb.
  destruct (1 <=? sev1_defects m) eqn:Hs.
  - assert (Hp : printable limit (sev1_defects m)).
    { destruct Hd as [H|H]; [apply Z.leb_le in Hs; lia | exact H]. }
    rewrite (format_int_returns _ _ Hp). unfold Py.bind.
    destruct (spi m <=? 0.95)%float, (cpi m <=? 0.95)%float,
      (0.6 <? risk_score m)%float;
      eexists; (split; [reflexivity|]); (split; [reflexivity|]);
      (split; [repeat constructor | cbn [Py.append app List.length]; lia]).
  - unfold Py.bind.
    destruct (spi m <=? 0.95)%float, (cpi m <=? 0.95)%float,
      (0.6 <? risk_score m)%float;
      eexists; (split; [reflexivity|]); (split; [reflexivity|]);
      (split; [repeat constructor | cbn [Py.append app List.length]; lia]).
Qed.

(** Where the quality rule fires on a number of defects beyond the limit,
    the description of its record cannot be formatted. *)
Lemma lowlights_unwritten (limit : Z) (m : HealthMetrics)
    (prev : option HealthMetrics) (pd : ProjectData) :
  ~ describable limit m ->
  detect_lowlights limit m prev pd = Py.Raise Py.ValueError.
Proof.
  intros Hd.
  destruct (describable_or_not limit m) as [H|[Hs Hp]]; [now destruct Hd|].
  unfold detect_lowlights. cbv zeta.
  change (LOWLIGHT_TRIGGERS.sev1_count LOWLIGHT_TRIGGERS.quality) with 1.
  rewrite Z.geb_leb. apply Z.leb_le in Hs. rewrite Hs.
  rewrite (format_int_raises _ _ Hp). reflexivity.
Qed.

(** The lowlights, whenever they are returned. *)
Lemma lowlight_titles (limit : Z) (m : HealthMetrics)
    (prev : option HealthMetrics) (pd : ProjectData) (lows : list Dict) :
  detect_lowlights limit m prev pd = Py.Ok lows ->
  describable limit m
  /\ map (fun d => (title d, action_required d)) lows
     = map (fun r => (Some (fst r), Some (snd r))) (fired lowlight_rules m)
  /\ Forall (fun d => lookup "impact" d = Some "negative") lows
  /\ (List.length lows <= 4)%nat.
Proof.
  intros Hrun.
  destruct (describable_or_not limit m) as [Hd|[Hs Hp]].
  - destruct (lowlights_written limit m prev pd Hd) as (lows' & Hrun' & H).
    rewrite Hrun in Hrun'. injection Hrun' as <-. now split.
  - rewrite lowlights_unwritten in Hrun; [discriminate Hrun|].
    intros [H|H]; [lia | now apply Hp].
Qed.

(** C3: [detect_highlights] evaluates its four rules independently (spi >=
    1.05; cpi >= 1.05; sev1 = 0 and sev2 = 0; milestone_completion_rate >
    0.95) and lists the records of the rules that fire in that order; the
    snapshot with spi 1.10, cpi 1.10, no sev1 or sev2 defect and completion
    rate 0.98 yields the four highlights and no lowlight. *)
Theorem detect_highlights_fires_rules_in_order (m : HealthMetrics)
    (prev : option HealthMetrics) (pd : ProjectData) :
  map title (detect_highlights m prev pd) = map Some (fired highlight_rules m)
  /\ map title (detect_highlights healthy_snapshot prev pd)
     = [ Some "Schedule Performance Exceeds Target";
         Some "Cost Performance Under Budget";
         Some "Zero Critical Defects";
         Some "Strong Milestone Achievement" ]
  /\ List.length (detect_highlights healthy_snapshot prev pd) = 4%nat
  /\ (forall limit, detect_lowlights limit healthy_snapshot prev pd = Py.Ok []).
Proof.
  split; [apply highlight_titles|].
  split; [vm_compute; reflexivity|]. split; [vm_compute; reflexivity|].
  intros limit. reflexivity.
Qed.

(** C4, as amended: [detect_lowlights] evaluates its four rules
    independently (spi <= 0.95; cpi <= 0.95; sev1 >= 1; risk_score > 0.6)
    and, for a snapshot whose number of sev1 defects is below 1 or can be
    printed, lists the records of the rules that fire in that order, each
    with its remediation action; where the quality rule fires on a number
    with more digits than the interpreter converts to a string, it raises
    [ValueError] instead.  The snapshot with spi 0.80, cpi 0.80, two sev1
    defects and risk score 0.9 is red overall and has the four lowlights,
    under any limit. *)
Theorem detect_lowlights_fires_rules_in_order (limit : Z) (m : HealthMetrics)
    (prev : option HealthMetrics) (pd : ProjectData) :
  (describable limit m ->
   exists lows,
     detect_lowlights limit m prev pd = Py.Ok lows
     /\ map (fun d => (title d, action_required d)) lows
        = map (fun r => (Some (fst r), Some (snd r))) (fired lowlight_rules m))
  /\ (~ describable limit m ->
      detect_lowlights limit m prev pd = Py.Raise Py.ValueError)
  /\ (exists conf, calculate_overall_status troubled_snapshot = Py.Ok (RED, conf))
  /\ (exists lows,
        detect_lowlights limit troubled_snapshot prev pd = Py.Ok lows
        /\ map title lows
           = [ Some "Schedule Slippage Detected";
               Some "Cost Overrun Risk";
               Some "Critical Defects Present";
               Some "High Risk Exposure" ]
        /\ (4 <= List.length lows)%nat).
Proof.
  split; [|split; [|split]].
  - intros Hd.
    destruct (lowlights_written limit m prev pd Hd) as (lows & Hrun & Ht & _).
    now exists lows.
  - apply lowlights_unwritten.
  - eexists. vm_compute. reflexivity.
  - assert (Hd : describable limit troubled_snapshot).
    { right. apply small_count_printable. vm_compute. reflexivity. }
    destruct (lowlights_written limit troubled_snapshot prev pd Hd)
      as (lows & Hrun & Ht & _).
    exists lows. split; [exact Hrun|].
    assert (Htitles : map title lows
                      = [ Some "Schedule Slippage Detected";
                          Some "Cost Overrun Risk";
                          Some "Critical Defects Present";
                          Some "High Risk Exposure" ]).
    { transitivity (map fst (map (fun d => (title d, action_required d)) lows)).
      - now rewrite map_map.
      - rewrite Ht. vm_compute. reflexivity. }
    split; [exact Htitles|].
    rewrite <- (length_map title), Htitles. simpl. lia.
Qed.

(** ** The period comparator *)

Section ComparatorFacts.

Variable fromisoformat : string -> option datetime.
Variable float_sum : list float -> float.

Local Abbreviation step := (filter_step fromisoformat).
Local Abbreviation aggregate := (_aggregate_metrics float_sum).

(** Once raised, an exception ends the loop. *)
Lemma loop_raise (start end_ : datetime) (data : list HistoricalRecord)
    (e : Py.exn) :
  fold_left (step start end_) data (Py.Raise e) = Py.Raise e.
Proof. induction data as [|x data IH]; simpl; [reflexivity | exact IH]. Qed.

(** Over readable records and naive bounds the loop is a filter. *)
Lemma loop_readable (lo hi : Z) (data acc : list HistoricalRecord) :
  Forall (readable fromisoformat) data ->
  fold_left (step (datetime_now lo) (datetime_now hi)) data (Py.Ok acc)
  = Py.Ok (acc ++ filter (in_window fromisoformat lo hi) data)%list.
Proof.
  intros Hall. revert acc.
  induction Hall as [|x data Hx _ IH]; intros acc; simpl.
  - now rewrite app_nil_r.
  - unfold in_window, parsed_date. unfold readable in Hx.
    destruct (h_date x) as [s|] eqn:Hd; simpl.
    + destruct (Hx s eq_refl) as [d [Hp Hn]]. rewrite Hp.
      unfold datetime_le. simpl. rewrite Hn. simpl.
      destruct (lo <=? micros d); simpl.
      * destruct (micros d <=? hi); simpl.
        -- rewrite IH. unfold Py.append. now rewrite <- app_assoc.
        -- apply IH.
      * apply IH.
    + apply IH.
Qed.

Lemma filter_readable (lo hi : Z) (data : list HistoricalRecord) :
  Forall (readable fromisoformat) data ->
  _filter_period_data fromisoformat data (datetime_now lo) (datetime_now hi)
  = Py.Ok (filter (in_window fromisoformat lo hi) data).
Proof. intros H. unfold _filter_period_data. now rewrite loop_readable. Qed.

(** Records without a date do not take part in the loop. *)
Lemma loop_skips_undated (start end_ : datetime) (data : list HistoricalRecord)
    (acc : Py.result (list HistoricalRecord)) :
  fold_left (step start end_) data acc
  = fold_left (step start end_) (filter has_date data) acc.
Proof.
  revert acc. induction data as [|x data IH]; intros acc; simpl.
  - reflexivity.
  - unfold has_date at 1. destruct (h_date x) as [s|] eqn:Hd; simpl.
    + apply IH.
    + rewrite <- IH. f_equal. unfold filter_step. rewrite Hd.
      destruct acc; reflexivity.
Qed.

(** Where no date is timezone-aware, the loop returns or raises the parse
    error. *)
Lemma loop_not_aware (lo hi : Z) (data acc : list HistoricalRecord) :
  Forall (not_aware fromisoformat) data ->
  (exists l, fold_left (step (datetime_now lo) (datetime_now hi)) data (Py.Ok acc)
             = Py.Ok l)
  \/ fold_left (step (datetime_now lo) (datetime_now hi)) data (Py.Ok acc)
     = Py.Raise Py.ValueError.
Proof.
  intros Hall. revert acc.
  induction Hall as [|x data Hx _ IH]; intros acc; simpl.
  - left. now exists acc.
  - unfold not_aware in Hx.
    destruct (h_date x) as [s|] eqn:Hd; simpl; [|apply IH].
    destruct (fromisoformat s) as [d|] eqn:Hp; [|right; apply loop_raise].
    unfold datetime_le. simpl. rewrite (Hx s d eq_refl Hp). simpl.
    destruct (lo <=? micros d); simpl; [|apply IH].
    destruct (micros d <=? hi); simpl; apply IH.
Qed.

(** A record whose date does not parse stops the loop with an exception. *)
Lemma loop_malformed (start end_ : datetime)
    (before after : list HistoricalRecord) (r : HistoricalRecord) (s : string)
    (acc : Py.result (list HistoricalRecord)) :
  h_date r = Some s -> fromisoformat s = None ->
  exists e, fold_left (step start end_) (before ++ r :: after) acc = Py.Raise e.
Proof.
  intros Hd Hp. rewrite fold_left_app. simpl.
  destruct (fold_left (step start end_) before acc) as [l|e].
  - exists Py.ValueError. unfold filter_step at 2. simpl. rewrite Hd, Hp.
    apply loop_raise.
  - exists e. unfold filter_step at 2. simpl. apply loop_raise.
Qed.

(** The sum of the issues of a window. *)
Lemma sum_int_from (l : list Z) (a : Z) :
  fold_left Z.add l a = a + fold_right Z.add 0 l.
Proof.
  revert a. induction l as [|x l IH]; intros a; simpl; [lia|].
  rewrite IH. lia.
Qed.

Lemma sum_int_total (window : list HistoricalRecord) :
  Py.sum_int (map (fun d => Py.get (h_issues d) 0) window) = issue_total window.
Proof.
  unfold Py.sum_int, issue_total. rewrite sum_int_from.
  induction window as [|x window IH]; simpl; [reflexivity|].
  unfold issues_of at 1, Py.get at 1. simpl in IH. rewrite IH. reflexivity.
Qed.

Lemma aggregate_total (window : list HistoricalRecord) :
  total_issues (aggregate window) = issue_total window.
Proof.
  destruct window as [|x window]; [reflexivity|].
  unfold _aggregate_metrics. cbv zeta. cbn [total_issues].
  apply sum_int_total.
Qed.

(** The aggregate of a window is made of its records. *)
Lemma aggregate_aggregated (window : list HistoricalRecord) :
  aggregated float_sum window (aggregate window).
Proof.
  destruct window as [|x window]; [reflexivity|].
  unfold aggregated.
  exists (Py.float_of_count (Py.len (x :: window))).
  split; [apply float_of_count_rounds|].
  split; [reflexivity|]. split; [reflexivity|].
  split; [apply aggregate_total | reflexivity].
Qed.

Lemma issue_total_insert (before after : list HistoricalRecord)
    (r : HistoricalRecord) :
  issue_total (before ++ r :: after) = issues_of r + issue_total (before ++ after).
Proof.
  unfold issue_total.
  induction before as [|x before IH]; simpl; [reflexivity|].
  rewrite IH. lia.
Qed.

(** Each record of a window is counted in its aggregate. *)
Lemma aggregate_counts (window : list HistoricalRecord) (r : HistoricalRecord) :
  In r window -> counted_in float_sum r window (aggregate window).
Proof.
  intros Hin. split; [apply aggregate_aggregated|].
  destruct (in_split _ _ Hin) as (before & after & ->).
  exists before, after. split; [reflexivity|].
  rewrite aggregate_total. apply issue_total_insert.
Qed.

(** The trends are computed unless the issue total of the previous window is
    too large for a float. *)
Lemma calculate_trends_returns (recent previous : list HistoricalRecord) :
  Z.abs (issue_total previous) < Py.overflow_threshold ->
  exists t, _calculate_trends float_sum recent previous = Py.Ok t.
Proof.
  intros Hsmall. unfold _calculate_trends. cbv zeta.
  rewrite !aggregate_total. unfold Py.float_of_int.
  apply Z.leb_gt in Hsmall. rewrite Hsmall. unfold Py.bind.
  destruct (Py.int_lt_float _ _); [eexists; reflexivity|].
  destruct (Py.int_gt_float _ _); eexists; reflexivity.
Qed.

Lemma calculate_trends_overflows (recent previous : list HistoricalRecord) :
  Py.overflow_threshold <= Z.abs (issue_total previous) ->
  _calculate_trends float_sum recent previous = Py.Raise Py.OverflowError.
Proof.
  intros Hlarge. unfold _calculate_trends. cbv zeta.
  rewrite !aggregate_total. unfold Py.float_of_int.
  apply Z.leb_le in Hlarge. rewrite Hlarge. reflexivity.
Qed.

(** Two empty windows compare flat. *)
Lemma calculate_trends_empty :
  _calculate_trends float_sum [] [] = Py.Ok all_flat.
Proof. vm_compute. reflexivity. Qed.

End ComparatorFacts.

Section ComparisonClaims.

Variable fromisoformat : string -> option datetime.
Variable float_sum : list float -> float.

Local Abbreviation aggregate := (_aggregate_metrics float_sum).
Local Abbreviation compare := (calculate_7day_comparison fromisoformat float_sum).

(** Over readable records the two windows are the two closed intervals, and
    the comparison returns their aggregates as soon as the trends are
    computed. *)
Lemma comparison_readable (clock : Z) (pd : ProjectData)
    (data : list HistoricalRecord) :
  Forall (readable fromisoformat) data ->
  let recent := filter (in_window fromisoformat (clock - week) clock) data in
  let previous :=
    filter (in_window fromisoformat (clock - 2 * week) (clock - week)) data in
  compare clock pd data
  = Py.bind (_calculate_trends float_sum recent previous)
      (fun trends =>
         Py.Ok
           {| current_period :=
                {| period_start := datetime_now (clock - week);
                   period_end := datetime_now clock;
                   period_metrics := aggregate recent |};
              previous_period :=
                {| period_start := datetime_now (clock - 2 * week);
                   period_end := datetime_now (clock - week);
                   period_metrics := aggregate previous |};
              trends := trends |}).
Proof.
  intros Hall recent previous. unfold calculate_7day_comparison. cbv zeta.
  change (datetime_sub (datetime_now clock) (timedelta_days 7))
    with (datetime_now (clock - week)).
  change (datetime_sub (datetime_now clock) (timedelta_days 14))
    with (datetime_now (clock - 2 * week)).
  rewrite !(filter_readable fromisoformat) by assumption.
  reflexivity.
Qed.

(** The comparison of an empty history. *)
Lemma comparison_of_empty (c1 : Z) (pd : ProjectData) :
  compare c1 pd []
  = Py.Ok {| current_period :=
               {| period_start := datetime_now (c1 - week);
                  period_end := datetime_now c1;
                  period_metrics := neutral_aggregate |};
             previous_period :=
               {| period_start := datetime_now (c1 - 2 * week);
                  period_end := datetime_now (c1 - week);
                  period_metrics := neutral_aggregate |};
             trends := all_flat |}.
Proof.
  unfold calculate_7day_comparison, _filter_period_data. cbv zeta.
  cbn [fold_left]. unfold Py.bind at 1 2.
  rewrite calculate_trends_empty. reflexivity.
Qed.

(** C6: both windows are closed intervals, recent = [now - 7d, now] and
    previous = [now - 14d, now - 7d]; a record dated exactly now - 7d is in
    both lists and is counted in both aggregates: each aggregate is made of
    the records of its window, this one among them, and its issues are a
    summand of both issue totals.  The comparison reports these two
    aggregates; it raises [OverflowError] instead when the issue total of the
    previous window is too large for a float. *)
Theorem boundary_record_in_both_windows (clock : Z) (pd : ProjectData)
    (data : list HistoricalRecord) (r : HistoricalRecord) (s : string) :
  Forall (readable fromisoformat) data ->
  In r data ->
  h_date r = Some s ->
  fromisoformat s = Some (datetime_sub (datetime_now clock) (timedelta_days 7)) ->
  let now := datetime_now clock in
  exists recent previous,
    _filter_period_data fromisoformat data
      (datetime_sub now (timedelta_days 7)) now = Py.Ok recent
    /\ _filter_period_data fromisoformat data
         (datetime_sub now (timedelta_days 14))
         (datetime_sub now (timedelta_days 7)) = Py.Ok previous
    /\ recent = filter (in_window fromisoformat (clock - week) clock) data
    /\ previous
       = filter (in_window fromisoformat (clock - 2 * week) (clock - week)) data
    /\ In r recent
    /\ In r previous
    /\ counted_in float_sum r recent (aggregate recent)
    /\ counted_in float_sum r previous (aggregate previous)
    /\ (Z.abs (issue_total previous) < Py.overflow_threshold ->
        exists c,
          compare clock pd data = Py.Ok c
          /\ period_metrics (current_period c) = aggregate recent
          /\ period_metrics (previous_period c) = aggregate previous
          /\ counted_in float_sum r recent (period_metrics (current_period c))
          /\ counted_in float_sum r previous
               (period_metrics (previous_period c)))
    /\ (Py.overflow_threshold <= Z.abs (issue_total previous) ->
        compare clock pd data = Py.Raise Py.OverflowError).
Proof.
  intros Hall Hin Hd Hp now.
  assert (Hrecent : in_window fromisoformat (clock - week) clock r = true).
  { unfold in_window, parsed_date. rewrite Hd, Hp.
    unfold datetime_sub, datetime_now, week, timedelta_days. cbn [micros].
    apply andb_true_intro. split; apply Z.leb_le; lia. }
  assert (Hprevious :
            in_window fromisoformat (clock - 2 * week) (clock - week) r = true).
  { unfold in_window, parsed_date. rewrite Hd, Hp.
    unfold datetime_sub, datetime_now, week, timedelta_days. cbn [micros].
    apply andb_true_intro. split; apply Z.leb_le; lia. }
  assert (Hr : In r (filter (in_window fromisoformat (clock - week) clock) data))
    by (apply filter_In; split; assumption).
  assert (Hq : In r (filter (in_window fromisoformat (clock - 2 * week)
                               (clock - week)) data))
    by (apply filter_In; split; assumption).
  exists (filter (in_window fromisoformat (clock - week) clock) data),
    (filter (in_window fromisoformat (clock - 2 * week) (clock - week)) data).
  split; [exact (filter_readable fromisoformat _ _ data Hall)|].
  split; [exact (filter_readable fromisoformat _ _ data Hall)|].
  split; [reflexivity|]. split; [reflexivity|].
  split; [exact Hr|]. split; [exact Hq|].
  split; [now apply aggregate_counts|].
  split; [now apply aggregate_counts|].
  split.
  - intros Hsmall.
    destruct (calculate_trends_returns float_sum
                (filter (in_window fromisoformat (clock - week) clock) data)
                _ Hsmall) as [t Ht].
    eexists. split.
    + rewrite (comparison_readable clock pd data Hall). cbv zeta.
      rewrite Ht. reflexivity.
    + cbn [current_period previous_period period_metrics].
      split; [reflexivity|]. split; [reflexivity|].
      split; now apply aggregate_counts.
  - intros Hlarge.
    rewrite (comparison_readable clock pd data Hall). cbv zeta.
    rewrite (calculate_trends_overflows float_sum _ _ Hlarge). reflexivity.
Qed.

(** C9, as amended: a record whose date does not parse makes
    [calculate_7day_comparison] fail, whatever the records around it; the
    exception is the parse error when no record before it carries a
    timezone-aware date; records without a date are skipped. *)
Theorem malformed_date_propagates (clock : Z) (pd : ProjectData)
    (before after : list HistoricalRecord) (r : HistoricalRecord) (s : string) :
  h_date r = Some s ->
  fromisoformat s = None ->
  (exists e, compare clock pd (before ++ r :: after) = Py.Raise e)
  /\ (Forall (not_aware fromisoformat) before ->
      compare clock pd (before ++ r :: after) = Py.Raise Py.ValueError)
  /\ (forall data, compare clock pd data = compare clock pd (filter has_date data)).
Proof.
  intros Hd Hp. split; [|split].
  - unfold calculate_7day_comparison, _filter_period_data. cbv zeta.
    destruct (loop_malformed fromisoformat
                (datetime_sub (datetime_now clock) (timedelta_days 7))
                (datetime_now clock) before after r s (Py.Ok []) Hd Hp)
      as [e He].
    exists e. rewrite He. reflexivity.
  - intros Hna.
    unfold calculate_7day_comparison, _filter_period_data. cbv zeta.
    change (datetime_sub (datetime_now clock) (timedelta_days 7))
      with (datetime_now (clock - week)).
    rewrite fold_left_app.
    destruct (loop_not_aware fromisoformat (clock - week) clock before [] Hna)
      as [[l Hl] | Hl]; rewrite Hl; simpl.
    + rewrite Hd, Hp. rewrite loop_raise. reflexivity.
    + rewrite loop_raise. reflexivity.
  - intros data.
    unfold calculate_7day_comparison, _filter_period_data. cbv zeta.
    rewrite <- !loop_skips_undated. reflexivity.
Qed.

End ComparisonClaims.

(** ** Metric extraction *)

Lemma next_filter_find {A : Type} (p : A -> bool) (l : list A) (d : A) :
  Py.next (filter p l) d = match find p l with Some x => x | None => d end.
Proof.
  induction l as [|x l IH]; simpl; [reflexivity|].
  destruct (p x); [reflexivity | exact IH].
Qed.

(** The issue count that the code reads. *)
Lemma issue_count_read (pd : ProjectData) :
  Py.get
    (k_value
       (Py.next
          (filter (fun k => Py.contains "issue" (Py.lower (Py.get (k_metric k) "")))
                  (Py.get (kpis pd) []))
          {| k_metric := None; k_value := None |})) 0
  = issue_count pd.
Proof.
  rewrite next_filter_find. unfold issue_count, issue_count_by.
  destruct (find _ _); reflexivity.
Qed.

Lemma count_bounds {A : Type} (p : A -> bool) (l : list A) :
  0 <= Py.count p l <= Py.len l.
Proof.
  unfold Py.count, Py.len. pose proof (filter_length_le p l). lia.
Qed.

(** The completion rate is always computed: the divisor is the number of
    milestones, or 1 when there is none. *)
Lemma milestone_rate_returns (l : list Milestone) :
  let completed := Py.count (fun m => Py.eq_str (m_status m) "completed") l in
  let total := match l with [] => 1 | _ :: _ => Py.len l end in
  (if total >? 0 then Py.int_truediv completed total else Py.Ok 0%float)
  = Py.Ok (Py.nearest_quotient completed total).
Proof.
  intros completed total.
  pose proof (count_bounds (fun m => Py.eq_str (m_status m) "completed") l) as Hc.
  fold completed in Hc.
  assert (Ht : 0 < total /\ completed <= total).
  { subst total. destruct l as [|x l].
    - unfold Py.len in Hc. simpl in Hc. lia.
    - split; [|apply Hc]. unfold Py.len. simpl List.length. lia. }
  destruct Ht as [Hpos Hle].
  apply Z.gtb_lt in Hpos as Hgt. rewrite Hgt.
  apply int_truediv_part; lia.
Qed.

(** [_extract_metrics] with the counts named: only the quality score can
    fail. *)
Lemma extract_metrics_unfold (pd : ProjectData) :
  let l := Py.get (milestones pd) [] in
  _extract_metrics pd
  = Py.bind
      (if issue_count pd <? 100
       then Py.bind (Py.int_truediv (issue_count pd) 100)
                    (fun ratio => Py.Ok (1.0 - ratio)%float)
       else Py.Ok 0.0%float)
      (fun quality =>
         Py.Ok
           {| spi := if at_risk pd then 0.95%float else 1.02%float;
              cpi := 0.98;
              quality_score := quality;
              risk_score :=
                Py.min (Py.float_of_count (high_risk_count pd) * 0.3)%float 1.0;
              defect_count := issue_count pd;
              sev1_defects := Z.max 0 (issue_count pd / 10);
              sev2_defects :=
                Z.max 0 (issue_count pd / 5 - Z.max 0 (issue_count pd / 10));
              milestone_completion_rate :=
                Py.nearest_quotient
                  (Py.count (fun m => Py.eq_str (m_status m) "completed") l)
                  (match l with [] => 1 | _ :: _ => Py.len l end);
              scope_change_percentage := 0.0;
              resource_utilization := 1.0;
              stakeholder_satisfaction := 0.85 |}).
Proof.
  intros l. unfold _extract_metrics. cbv zeta.
  pose proof (milestone_rate_returns (Py.get (milestones pd) [])) as Hrate.
  cbv zeta in Hrate. rewrite Hrate. unfold Py.bind at 1.
  rewrite !issue_count_read. reflexivity.
Qed.

(** Below 100 issues the quotient by 100 is a float exactly for the
    extractable projects. *)
Lemma issue_ratio_returns (pd : ProjectData) :
  extractable pd -> issue_count pd < 100 ->
  Py.int_truediv (issue_count pd) 100
  = Py.Ok (Py.nearest_quotient (issue_count pd) 100).
Proof.
  unfold extractable. intros He Hlt.
  pose proof overflow_threshold_large as Hbig.
  apply int_truediv_returns; [discriminate|].
  change (Z.abs 100) with 100. lia.
Qed.

Lemma issue_ratio_overflows (pd : ProjectData) :
  ~ extractable pd ->
  (issue_count pd <? 100) = true
  /\ Py.int_truediv (issue_count pd) 100 = Py.Raise Py.OverflowError.
Proof.
  unfold extractable. intros He.
  pose proof overflow_threshold_large as Hbig.
  split; [apply Z.ltb_lt; lia|].
  apply int_truediv_overflows; [discriminate|].
  change (Z.abs 100) with 100. lia.
Qed.

(** The projects whose extraction returns. *)
Lemma extractable_returns (pd : ProjectData) :
  extractable pd -> exists m, _extract_metrics pd = Py.Ok m.
Proof.
  intros He. rewrite extract_metrics_unfold. cbv zeta.
  destruct (issue_count pd <? 100) eqn:Hlt.
  - apply Z.ltb_lt in Hlt. rewrite (issue_ratio_returns pd He Hlt).
    eexists. reflexivity.
  - eexists. reflexivity.
Qed.

Lemma not_extractable_raises (pd : ProjectData) :
  ~ extractable pd -> _extract_metrics pd = Py.Raise Py.OverflowError.
Proof.
  intros He. rewrite extract_metrics_unfold. cbv zeta.
  destruct (issue_ratio_overflows pd He) as [-> ->]. reflexivity.
Qed.

Lemma returns_extractable (pd : ProjectData) (m : HealthMetrics) :
  _extract_metrics pd = Py.Ok m -> extractable pd.
Proof.
  intros Hrun.
  destruct (Z.lt_ge_cases (- (100 * Py.overflow_threshold)) (issue_count pd))
    as [H|H]; [exact H|].
  rewrite not_extractable_raises in Hrun; [discriminate Hrun|].
  unfold extractable. lia.
Qed.

(** The fields of the extracted metrics, in the terms of the code. *)
Lemma extract_metrics_fields (pd : ProjectData) (m : HealthMetrics) :
  _extract_metrics pd = Py.Ok m ->
  spi m = (if at_risk pd then 0.95 else 1.02)%float
  /\ cpi m = 0.98%float
  /\ risk_score m
     = Py.min (Py.float_of_count (high_risk_count pd) * 0.3)%float 1.0
  /\ defect_count m = issue_count pd
  /\ sev1_defects m = Z.max 0 (issue_count pd / 10)
  /\ sev2_defects m = Z.max 0 (issue_count pd / 5 - Z.max 0 (issue_count pd / 10))
  /\ (if issue_count pd <? 100
      then exists q, Py.int_truediv (issue_count pd) 100 = Py.Ok q
                     /\ quality_score m = (1.0 - q)%float
      else quality_score m = 0.0%float)
  /\ milestone_completion_rate m
     = Py.nearest_quotient
         (Py.count (fun x => Py.eq_str (m_status x) "completed")
                   (Py.get (milestones pd) []))
         (match Py.get (milestones pd) [] with
          | [] => 1
          | _ :: _ => Py.len (Py.get (milestones pd) [])
          end).
Proof.
  rewrite extract_metrics_unfold. cbv zeta.
  destruct (issue_count pd <? 100) eqn:Hlt.
  - destruct (Py.int_truediv (issue_count pd) 100) as [q|e] eqn:Hq;
      unfold Py.bind; [|discriminate].
    intros [= <-]. cbn. repeat split. exists q. split; reflexivity.
  - unfold Py.bind. intros [= <-]. cbn. repeat split.
Qed.

(** What the extraction guarantees, it guarantees for every project. *)
Lemma extracts_intro (pd : ProjectData) (P : HealthMetrics -> Prop) :
  (forall m, _extract_metrics pd = Py.Ok m -> P m) -> extracts pd P.
Proof.
  intros HP. unfold extracts.
  destruct (_extract_metrics pd) as [m|e] eqn:Hrun.
  - split; [exact (returns_extractable pd m Hrun) | now apply HP].
  - destruct (Z.lt_ge_cases (- (100 * Py.overflow_threshold)) (issue_count pd))
      as [H|H].
    + destruct (extractable_returns pd H) as [m Hm]. congruence.
    + assert (Hn : ~ extractable pd) by (unfold extractable; lia).
      rewrite (not_extractable_raises pd Hn) in Hrun.
      injection Hrun as <-. split; [reflexivity | exact Hn].
Qed.

(** The lowlights of extracted metrics can be written when a tenth of the
    issue count can be printed. *)
Lemma extracted_describable (limit : Z) (pd : ProjectData) (m : HealthMetrics) :
  _extract_metrics pd = Py.Ok m ->
  describable limit m
  <-> (limit <= 0 \/ issue_count pd < 10 ^ (limit + 1)).
Proof.
  intros Hm.
  destruct (extract_metrics_fields pd m Hm) as (_ & _ & _ & _ & Hs & _).
  unfold describable, printable. rewrite Hs.
  set (ic := issue_count pd). clearbody ic.
  pose proof (Z.div_mod ic 10 ltac:(lia)) as D.
  pose proof (Z.mod_pos_bound ic 10 ltac:(lia)) as M.
  destruct (Z.le_gt_cases limit 0) as [Hl|Hl]; [tauto|].
  assert (Hp : 0 < 10 ^ limit) by (apply Z.pow_pos_nonneg; lia).
  assert (Hsucc : 10 ^ (limit + 1) = 10 * 10 ^ limit)
    by (rewrite Z.pow_add_r by lia; change (10 ^ 1) with 10; lia).
  rewrite Hsucc. set (p := 10 ^ limit) in *. clearbody p.
  split; intros H; lia.
Qed.

Lemma evaluable_describable (limit : Z) (pd : ProjectData) (m : HealthMetrics) :
  _extract_metrics pd = Py.Ok m ->
  evaluable limit pd <-> describable limit m.
Proof.
  intros Hm. rewrite (extracted_describable limit pd m Hm).
  unfold evaluable. pose proof (returns_extractable pd m Hm). tauto.
Qed.

(** A project with fewer than ten issues can be evaluated under any limit. *)
Lemma few_issues_evaluable (limit : Z) (pd : ProjectData) :
  0 <= issue_count pd < 10 -> evaluable limit pd.
Proof.
  intros Hc. unfold evaluable, extractable.
  pose proof overflow_threshold_large as Hbig.
  split; [lia|].
  destruct (Z.le_gt_cases limit 0) as [H|H]; [now left | right].
  assert (10 ^ 1 <= 10 ^ (limit + 1)) by (apply Z.pow_le_mono_r; lia).
  change (10 ^ 1) with 10 in *. lia.
Qed.

(** The fields against the formulas: every quotient is the nearest double. *)
Lemma extract_metrics_as_coded (pd : ProjectData) (m : HealthMetrics) :
  _extract_metrics pd = Py.Ok m -> extraction_as_coded pd m.
Proof.
  intros Hrun.
  destruct (extract_metrics_fields pd m Hrun)
    as (Hspi & Hcpi & Hrisk & Hdef & Hs1 & Hs2 & Hq & Hrate).
  unfold extraction_as_coded, extraction. cbv zeta.
  split; [exact Hspi|]. split; [exact Hcpi|].
  split.
  { exists (Py.float_of_count (high_risk_count pd)).
    split; [apply float_of_count_rounds | exact Hrisk]. }
  split; [exact Hdef|]. split; [exact Hs1|]. split; [exact Hs2|].
  split.
  { destruct (issue_count pd <? 100); [|exact Hq].
    destruct Hq as (q & Hdiv & Hq). exists q.
    split; [now apply int_truediv_rounds | exact Hq]. }
  rewrite Hrate.
  destruct (Py.get (milestones pd) []) as [|x l] eqn:Hl; [reflexivity|].
  apply nearest_quotient_rounds.
  unfold Py.len. simpl List.length. lia.
Qed.

(** C8, as amended: [_extract_metrics] returns metrics with spi = 1.02
    unless a milestone is "at-risk" (then 0.95); cpi = 0.98; risk_score =
    min(0.3 x high risks, 1.0); the issue count of the first KPI whose
    lower-cased metric name contains "issue" (0 when none); sev1 = max(0,
    issue_count // 10); sev2 = max(0, issue_count // 5 - sev1); quality_score
    = 1.0 - issue_count/100 below 100 issues, else 0.0; and the completion
    rate completed/len, 0 for an empty milestone list; every quotient is the
    double nearest to the exact one.  It raises [OverflowError] instead when
    the issue count is at or below -100 * (2^1024 - 2^970), where
    issue_count/100 is too large for a float. *)
Theorem extract_metrics_formulas (pd : ProjectData) :
  extracts pd (extraction_as_coded pd).
Proof. apply extracts_intro. apply extract_metrics_as_coded. Qed.

(** ** The engine *)

Section EngineClaims.

Variable fromisoformat : string -> option datetime.
Variable float_sum : list float -> float.
Variable limit : Z.
Variable set_iteration : list TrendDirection -> list TrendDirection.

Local Abbreviation run :=
  (evaluate_project fromisoformat float_sum limit set_iteration).

(** A failed extraction fails the evaluation. *)
Lemma evaluate_project_raises (c1 c2 : Z) (pd : ProjectData)
    (hist : option (list HistoricalRecord)) (e : Py.exn) :
  _extract_metrics pd = Py.Raise e -> run c1 c2 pd hist = Py.Raise e.
Proof. intros He. unfold evaluate_project. rewrite He. reflexivity. Qed.

(** So do lowlights that cannot be written. *)
Lemma evaluate_project_unwritten (c1 c2 : Z) (pd : ProjectData)
    (hist : option (list HistoricalRecord)) :
  extractable pd -> ~ evaluable limit pd ->
  run c1 c2 pd hist = Py.Raise Py.ValueError.
Proof.
  intros He Hn. destruct (extractable_returns pd He) as [m Hm].
  rewrite (evaluable_describable limit pd m Hm) in Hn.
  unfold evaluate_project. rewrite Hm. unfold Py.bind at 1.
  destruct (calculate_overall_status_returns m) as [o [Hrun _]].
  rewrite Hrun. unfold Py.bind at 1.
  rewrite (lowlights_unwritten limit m None pd Hn). reflexivity.
Qed.

(** What a returned status holds of the extraction, the evaluator and the
    detectors. *)
Lemma evaluate_project_fields (c1 c2 : Z) (pd : ProjectData)
    (hist : option (list HistoricalRecord)) (st : ProjectStatus) :
  run c1 c2 pd hist = Py.Ok st ->
  exists m,
    _extract_metrics pd = Py.Ok m
    /\ health_metrics st = m
    /\ calculate_overall_status m = Py.Ok (overall_status st, confidence_score st)
    /\ highlights st = detect_highlights m None pd
    /\ detect_lowlights limit m None pd = Py.Ok (lowlights st).
Proof.
  unfold evaluate_project.
  destruct (_extract_metrics pd) as [m|e]; unfold Py.bind at 1; [|discriminate].
  destruct (calculate_overall_status m) as [[o conf]|e] eqn:Hst;
    unfold Py.bind at 1; [|discriminate].
  destruct (detect_lowlights limit m None pd) as [lows|e] eqn:Hlow;
    unfold Py.bind at 1; [|discriminate].
  match goal with
  | |- Py.bind ?c _ = _ -> _ => destruct c as [[cmp t]|e]
  end; unfold Py.bind; [|discriminate].
  intros [= <-]. exists m.
  cbn [health_metrics overall_status confidence_score highlights lowlights].
  repeat split; assumption.
Qed.

(** Without history, or with an empty one, the comparator is not called. *)
Lemma evaluate_project_without_history (c1 c2 : Z) (pd : ProjectData)
    (hist : option (list HistoricalRecord)) :
  hist = None \/ hist = Some [] ->
  evaluable limit pd ->
  exists st,
    run c1 c2 pd hist = Py.Ok st
    /\ comparison_period st = None
    /\ trend st = FLAT.
Proof.
  intros Hh He. unfold evaluate_project.
  destruct (extractable_returns pd (proj1 He)) as [m Hm]. rewrite Hm.
  unfold Py.bind at 1.
  destruct (calculate_overall_status_returns m) as [o [Hrun _]].
  rewrite Hrun. unfold Py.bind at 1.
  rewrite (evaluable_describable limit pd m Hm) in He.
  destruct (lowlights_written limit m None pd He) as (lows & -> & _).
  unfold Py.bind at 1.
  destruct Hh as [-> | ->]; simpl; eexists; repeat split.
Qed.

(** C7, as amended: called on an empty history, the comparator returns the
    neutral aggregates (spi 1.0, cpi 1.0, no issue, completion 0.0) for both
    windows and three flat trends; [evaluate_project] does not call it for an
    empty or absent history: the status it returns, whenever the project can
    be evaluated, has an empty comparison and a flat overall trend.  It
    raises [OverflowError] when the metrics of the project cannot be
    extracted, and [ValueError] when its lowlights cannot be written. *)
Theorem empty_history_comparison (c1 c2 : Z) (pd : ProjectData) :
  (exists c,
     calculate_7day_comparison fromisoformat float_sum c1 pd [] = Py.Ok c
     /\ neutral_comparison c)
  /\ (evaluable limit pd ->
      exists st,
        run c1 c2 pd (Some []) = Py.Ok st
        /\ comparison_period st = None
        /\ trend st = FLAT)
  /\ (evaluable limit pd ->
      exists st,
        run c1 c2 pd None = Py.Ok st
        /\ comparison_period st = None
        /\ trend st = FLAT)
  /\ (~ extractable pd ->
      run c1 c2 pd (Some []) = Py.Raise Py.OverflowError
      /\ run c1 c2 pd None = Py.Raise Py.OverflowError)
  /\ (extractable pd -> ~ evaluable limit pd ->
      run c1 c2 pd (Some []) = Py.Raise Py.ValueError
      /\ run c1 c2 pd None = Py.Raise Py.ValueError).
Proof.
  split; [|split; [|split; [|split]]].
  - rewrite comparison_of_empty. eexists. split; [reflexivity|].
    unfold neutral_comparison. repeat split.
  - apply evaluate_project_without_history. now right.
  - apply evaluate_project_without_history. now left.
  - intros He. apply not_extractable_raises in He.
    split; now apply evaluate_project_raises.
  - intros He Hn. split; now apply evaluate_project_unwritten.
Qed.

End EngineClaims.

(** ** The constant cost index *)

Lemma fired_in {A : Type} (rules : list ((HealthMetrics -> bool) * A))
    (m : HealthMetrics) (a : A) :
  In a (fired rules m) -> exists c, In (c, a) rules /\ c m = true.
Proof.
  unfold fired. rewrite in_map_iff. intros [[c a'] [E Hin]].
  simpl in E. subst a'. apply filter_In in Hin. destruct Hin as [Hin Hc].
  now exists c.
Qed.

Lemma no_cost_highlight (m : HealthMetrics) (prev : option HealthMetrics)
    (pd : ProjectData) :
  cpi m = 0.98%float ->
  ~ In (Some "Cost Performance Under Budget")
       (map title (detect_highlights m prev pd)).
Proof.
  intros Hc Hin. rewrite highlight_titles in Hin.
  apply in_map_iff in Hin. destruct Hin as [t [[= ->] Hin]].
  apply fired_in in Hin. destruct Hin as [c [Hin Hfire]].
  simpl in Hin.
  destruct Hin as [E|[E|[E|[E|[]]]]]; inversion E; subst c.
  rewrite Hc in Hfire. vm_compute in Hfire. discriminate Hfire.
Qed.

Lemma no_cost_lowlight (limit : Z) (m : HealthMetrics)
    (prev : option HealthMetrics) (pd : ProjectData) (lows : list Dict) :
  cpi m = 0.98%float ->
  detect_lowlights limit m prev pd = Py.Ok lows ->
  ~ In (Some "Cost Overrun Risk") (map title lows).
Proof.
  intros Hc Hrun Hin.
  destruct (lowlight_titles limit m prev pd lows Hrun) as (_ & Ht & _).
  assert (Hin' : In (Some "Cost Overrun Risk")
                    (map fst (map (fun d => (title d, action_required d)) lows))).
  { rewrite map_map. exact Hin. }
  rewrite Ht, map_map in Hin'. simpl in Hin'.
  apply in_map_iff in Hin'. destruct Hin' as [[t a] [[= ->] Hin']].
  apply fired_in in Hin'. destruct Hin' as [c [Hin' Hfire]].
  simpl in Hin'.
  destruct Hin' as [E|[E|[E|[E|[]]]]]; inversion E; subst c.
  rewrite Hc in Hfire. vm_compute in Hfire. discriminate Hfire.
Qed.

(** C10: the metrics that [_extract_metrics] produces have cpi = 0.98 (it
    produces metrics for every project but those whose issue count overflows
    issue_count/100); so on the [evaluate_project] path the cost dimension is
    green, and no status it returns lists the "Cost Performance Under Budget"
    highlight or the "Cost Overrun Risk" lowlight.  A status is returned,
    without history, for every project that can be evaluated. *)
Theorem cost_dimension_is_constant (pd : ProjectData) :
  extracts pd (fun m => cpi m = 0.98%float /\ evaluate_cost_health m = GREEN)
  /\ (forall fromisoformat float_sum limit set_iteration c1 c2 hist st,
        evaluate_project fromisoformat float_sum limit set_iteration
          c1 c2 pd hist = Py.Ok st ->
        cpi (health_metrics st) = 0.98%float
        /\ evaluate_cost_health (health_metrics st) = GREEN
        /\ ~ In (Some "Cost Performance Under Budget")
                (map title (highlights st))
        /\ ~ In (Some "Cost Overrun Risk") (map title (lowlights st)))
  /\ (forall fromisoformat float_sum limit set_iteration c1 c2,
        evaluable limit pd ->
        exists st,
          evaluate_project fromisoformat float_sum limit set_iteration
            c1 c2 pd None = Py.Ok st)
  /\ (forall fromisoformat float_sum limit set_iteration c1 c2 hist,
        ~ evaluable limit pd ->
        exists e,
          evaluate_project fromisoformat float_sum limit set_iteration
            c1 c2 pd hist = Py.Raise e).
Proof.
  assert (Hcost : forall m, cpi m = 0.98%float -> evaluate_cost_health m = GREEN).
  { intros m Hc. unfold evaluate_cost_health. rewrite Hc. reflexivity. }
  split; [|split; [|split]].
  - apply extracts_intro. intros m Hm.
    destruct (extract_metrics_fields pd m Hm) as (_ & Hc & _).
    split; [exact Hc | now apply Hcost].
  - intros f fs l si c1 c2 hist st Hrun.
    destruct (evaluate_project_fields f fs l si c1 c2 pd hist st Hrun)
      as (m & Hm & Hh & _ & Hhi & Hlo).
    destruct (extract_metrics_fields pd m Hm) as (_ & Hc & _).
    rewrite Hh, Hhi.
    split; [exact Hc|]. split; [now apply Hcost|].
    split; [now apply no_cost_highlight|].
    now apply (no_cost_lowlight l m None pd).
  - intros f fs l si c1 c2 He.
    destruct (evaluate_project_without_history f fs l si c1 c2 pd None
                (or_introl eq_refl) He) as [st [Hrun _]].
    now exists st.
  - intros f fs l si c1 c2 hist Hn.
    destruct (Z.lt_ge_cases (- (100 * Py.overflow_threshold)) (issue_count pd))
      as [He|He].
    + exists Py.ValueError. now apply evaluate_project_unwritten.
    + exists Py.OverflowError. apply evaluate_project_raises.
      apply not_extractable_raises. unfold extractable. lia.
Qed.

(** ** Worked inputs *)

Lemma boundary_history_readable :
  Forall (readable Iso.fromisoformat) boundary_history.
Proof.
  unfold boundary_history, boundary_record, dated, undated.
  repeat constructor; intros s Hs; simpl in Hs; try discriminate Hs;
    injection Hs as <-; eexists; split; vm_compute; reflexivity.
Defined.

(** The record of 2025-09-10 noon is counted in both windows of the
    comparison made at noon of 2025-09-17: in the recent one with the record
    of 2025-09-16, and alone in the previous one. *)
Lemma boundary_record_counted_twice :
  exists c,
    calculate_7day_comparison Iso.fromisoformat Py.sum_float noon_2025_09_17
      empty_project boundary_history = Py.Ok c
    /\ counted_in Py.sum_float boundary_record
         [boundary_record; dated "2025-09-16" 2]
         (period_metrics (current_period c))
    /\ counted_in Py.sum_float boundary_record [boundary_record]
         (period_metrics (previous_period c)).
Proof.
  destruct (boundary_record_in_both_windows Iso.fromisoformat Py.sum_float
              noon_2025_09_17 empty_project boundary_history boundary_record
              "2025-09-10T12:00:00" boundary_history_readable
              (or_introl eq_refl) eq_refl eq_refl)
    as (recent & previous & _ & _ & -> & -> & _ & _ & _ & _ & Hc & _).
  destruct (Hc ltac:(vm_compute; reflexivity)) as (c & Hrun & _ & _ & H1 & H2).
  exists c. split; [exact Hrun|]. split; [exact H1 | exact H2].
Defined.

(** Its five issues enter the total of the recent window (with the two of
    2025-09-16) and the total of the previous window. *)
Example boundary_issues_in_both_totals :
  exists c,
    calculate_7day_comparison Iso.fromisoformat Py.sum_float noon_2025_09_17
      empty_project boundary_history = Py.Ok c
    /\ total_issues (period_metrics (current_period c)) = 7
    /\ total_issues (period_metrics (previous_period c)) = 5.
Proof. eexists. split; [vm_compute; reflexivity|]. split; reflexivity. Qed.

(** An issue total of the previous window beyond the range of the floats
    stops the comparison. *)
Example flooded_window_overflows :
  calculate_7day_comparison Iso.fromisoformat Py.sum_float noon_2025_09_17
    empty_project [dated "2025-09-10T12:00:00" (10 ^ 400)]
  = Py.Raise Py.OverflowError.
Proof. vm_compute. reflexivity. Qed.

(** A snapshot at the dataclass defaults is green with confidence 0. *)
Example default_metrics_green :
  calculate_overall_status default_metrics = Py.Ok (GREEN, 0%float).
Proof. vm_compute. reflexivity. Qed.

(** Under the default limit of 4300 digits, the snapshot with 10^4300 sev1
    defects fires the four lowlight rules and no list of records is
    returned: the number of defects cannot be formatted. *)
Lemma unprintable_defects_raise :
  map fst (fired lowlight_rules swamped_snapshot)
  = [ "Schedule Slippage Detected"; "Cost Overrun Risk";
      "Critical Defects Present"; "High Risk Exposure" ]
  /\ detect_lowlights 4300 swamped_snapshot None empty_project
     = Py.Raise Py.ValueError
  /\ ~ (exists lows,
          detect_lowlights 4300 swamped_snapshot None empty_project
          = Py.Ok lows).
Proof.
  assert (Hone : 1 <= 10 ^ 4300).
  { change 1 with (10 ^ 0) at 1.
    apply Z.pow_le_mono_r; [reflexivity | discriminate]. }
  assert (Hn : ~ describable 4300 swamped_snapshot).
  { unfold describable, printable, swamped_snapshot. cbn [sev1_defects].
    revert Hone. generalize (10 ^ 4300). intros p Hp. lia. }
  assert (H : detect_lowlights 4300 swamped_snapshot None empty_project
              = Py.Raise Py.ValueError) by (now apply lowlights_unwritten).
  split; [|split; [exact H|rewrite H; intros [lows Hl]; discriminate Hl]].
  unfold fired, lowlight_rules, swamped_snapshot.
  cbn [filter fst snd spi cpi sev1_defects risk_score].
  apply Z.leb_le in Hone. rewrite Hone.
  vm_compute. reflexivity.
Qed.

(** With an empty history the status carries no comparison at all, hence no
    window aggregate. *)
Lemma empty_history_reports_no_comparison :
  exists st,
    evaluate_project Iso.fromisoformat Py.sum_float 4300 first_occurrences
      noon_2025_09_17 noon_2025_09_17 empty_project (Some []) = Py.Ok st
    /\ ~ reports_neutral_comparison st.
Proof.
  eexists. split; [vm_compute; reflexivity|].
  intros [c [H _]]. discriminate H.
Qed.

(** The wording of C8 fails on a negative issue count, where the code clamps
    sev1 at 0; on a metric name in capitals, which the code lower-cases
    before it looks for "issue"; and on an issue count of -10^400, for which
    no metrics are computed: issue_count/100 raises [OverflowError]. *)
Lemma extract_metrics_not_as_worded :
  (exists m,
     _extract_metrics (with_kpi "issues" (-5)) = Py.Ok m
     /\ ~ extraction_as_worded (with_kpi "issues" (-5)) m
     /\ sev1_defects m = 0)
  /\ (-5) / 10 = -1
  /\ (exists m,
        _extract_metrics (with_kpi "Open Issues" 25) = Py.Ok m
        /\ ~ extraction_as_worded (with_kpi "Open Issues" 25) m
        /\ defect_count m = 25)
  /\ issue_count_by (Py.contains "issue") (with_kpi "Open Issues" 25) = 0
  /\ _extract_metrics flooded_project = Py.Raise Py.OverflowError.
Proof.
  split; [|split; [reflexivity|split; [|split; [reflexivity|]]]].
  - eexists. split; [vm_compute; reflexivity|]. split; [|reflexivity].
    intros H. unfold extraction_as_worded, extraction in H. cbv zeta in H.
    destruct H as (_ & _ & _ & _ & H & _). vm_compute in H. discriminate H.
  - eexists. split; [vm_compute; reflexivity|]. split; [|reflexivity].
    intros H. unfold extraction_as_worded, extraction in H. cbv zeta in H.
    destruct H as (_ & _ & _ & H & _). vm_compute in H. discriminate H.
  - vm_compute. reflexivity.
Qed.

(** A date that carries a UTC offset stops the comparison with a type error
    before the date that does not parse is reached. *)
Lemma aware_date_preempts_parse_error :
  Iso.fromisoformat "not-a-date" = None
  /\ calculate_7day_comparison Iso.fromisoformat Py.sum_float noon_2025_09_17
       empty_project aware_then_malformed = Py.Raise Py.TypeError
  /\ calculate_7day_comparison Iso.fromisoformat Py.sum_float noon_2025_09_17
       empty_project aware_then_malformed <> Py.Raise Py.ValueError.
Proof.
  split; [reflexivity|]. split; [vm_compute; reflexivity|].
  vm_compute. discriminate.
Qed.

Lemma naive_prefix_not_aware :
  Forall (not_aware Iso.fromisoformat) [undated 1; dated "2025-09-16" 2].
Proof.
  repeat constructor; intros s d Hs Hd; simpl in Hs; try discriminate Hs;
    injection Hs as <-; vm_compute in Hd; injection Hd as <-; reflexivity.
Defined.

(** A date that does not parse, after a record without a date and a naive
    one: the comparison fails with the parse error. *)
Lemma malformed_date_raises_value_error :
  calculate_7day_comparison Iso.fromisoformat Py.sum_float noon_2025_09_17
    empty_project
    ([undated 1; dated "2025-09-16" 2] ++ dated "not-a-date" 3
       :: [dated "2025-09-10T12:00:00+00:00" 5])
  = Py.Raise Py.ValueError.
Proof.
  exact (proj1 (proj2 (malformed_date_propagates Iso.fromisoformat Py.sum_float
                         noon_2025_09_17 empty_project
                         [undated 1; dated "2025-09-16" 2]
                         [dated "2025-09-10T12:00:00+00:00" 5]
                         (dated "not-a-date" 3) "not-a-date" eq_refl eq_refl))
               naive_prefix_not_aware).
Defined.

(** * Further properties of the engine *)

(** ** Statuses of the evaluator *)

(** X1: the overall status is green, amber or red, never blue or grey; it is
    green exactly when the four dimensions are all green, and red exactly
    when one of them is red. *)
Theorem overall_green_iff_all_green (m : HealthMetrics) :
  exists st conf,
    calculate_overall_status m = Py.Ok (st, conf)
    /\ (st = GREEN \/ st = AMBER \/ st = RED)
    /\ (st = GREEN <->
        evaluate_schedule_health m = GREEN /\ evaluate_cost_health m = GREEN
        /\ evaluate_quality_health m = GREEN /\ evaluate_risk_health m = GREEN)
    /\ (st = RED <->
        evaluate_schedule_health m = RED \/ evaluate_cost_health m = RED
        \/ evaluate_quality_health m = RED \/ evaluate_risk_health m = RED).
Proof.
  destruct (overall_status_cases m) as [st H]. exists st. eexists. exact H.
Qed.

(** ** The detector against the evaluator *)

Lemma highlight_listed_iff (m : HealthMetrics) (prev : option HealthMetrics)
    (pd : ProjectData) (t : string) :
  listed t (detect_highlights m prev pd)
  <-> exists c, In (c, t) highlight_rules /\ c m = true.
Proof.
  unfold listed. rewrite highlight_titles. split.
  - intros Hin. apply in_map_iff in Hin. destruct Hin as [t' [[= ->] Hin]].
    now apply fired_in.
  - intros [c [Hin Hc]]. apply in_map. unfold fired.
    apply in_map_iff. exists (c, t). split; [reflexivity|].
    apply filter_In. now split.
Qed.

Lemma lowlight_listed_iff (limit : Z) (m : HealthMetrics)
    (prev : option HealthMetrics) (pd : ProjectData) (lows : list Dict)
    (t : string) :
  detect_lowlights limit m prev pd = Py.Ok lows ->
  listed t lows
  <-> exists c a, In (c, (t, a)) lowlight_rules /\ c m = true.
Proof.
  intros Hrun. unfold listed.
  destruct (lowlight_titles limit m prev pd lows Hrun) as (_ & Ht & _).
  assert (E : map title lows
              = map (fun r => Some (fst r)) (fired lowlight_rules m)).
  { transitivity (map fst (map (fun d => (title d, action_required d)) lows)).
    - now rewrite map_map.
    - rewrite Ht. now rewrite map_map. }
  rewrite E. split.
  - intros Hin. apply in_map_iff in Hin. destruct Hin as [[t' a] [[= ->] Hin]].
    apply fired_in in Hin. destruct Hin as [c H]. now exists c, a.
  - intros [c [a [Hin Hc]]]. apply in_map_iff. exists (t, a).
    split; [reflexivity|]. unfold fired. apply in_map_iff. exists (c, (t, a)).
    split; [reflexivity|]. apply filter_In. now split.
Qed.

Lemma schedule_trigger_green (x : float) :
  (1.05 <=? x)%float = true -> (0.98 <=? x)%float = true.
Proof. apply leb_trans. reflexivity. Qed.

Lemma schedule_trigger_not_green (x : float) :
  (x <=? 0.95)%float = true -> (0.98 <=? x)%float = false.
Proof.
  intros H. destruct (0.98 <=? x)%float eqn:E; [|reflexivity].
  rewrite (not_between 0.95 0.98 x eq_refl E) in H. discriminate H.
Qed.

Lemma risk_trigger_red (x : float) :
  (0.6 <? x)%float = true ->
  (x <=? 0.3)%float = false /\ (x <=? 0.6)%float = false.
Proof.
  intros H. pose proof (gt_not_le x 0.6 H) as H6. unfold Py.le in H6.
  split; [|exact H6].
  destruct (x <=? 0.3)%float eqn:E; [|reflexivity].
  rewrite (leb_trans x 0.3 0.6 E eq_refl) in H6. discriminate H6.
Qed.

Lemma schedule_lowlight_not_green (m : HealthMetrics) :
  (spi m <=? 0.95)%float = true -> evaluate_schedule_health m <> GREEN.
Proof.
  intros H. unfold evaluate_schedule_health. cbv zeta.
  change (Py.ge (spi m) (spi_min (green (schedule THRESHOLDS))))
    with (0.98 <=? spi m)%float.
  rewrite (schedule_trigger_not_green _ H).
  destruct (Py.ge _ _); discriminate.
Qed.

Lemma cost_lowlight_not_green (m : HealthMetrics) :
  (cpi m <=? 0.95)%float = true -> evaluate_cost_health m <> GREEN.
Proof.
  intros H. unfold evaluate_cost_health. cbv zeta.
  change (Py.ge (cpi m) (cpi_min (green (cost THRESHOLDS))))
    with (0.98 <=? cpi m)%float.
  rewrite (schedule_trigger_not_green _ H).
  destruct (Py.ge _ _); discriminate.
Qed.

Lemma quality_lowlight_red (m : HealthMetrics) :
  (1 <=? sev1_defects m) = true -> evaluate_quality_health m = RED.
Proof.
  intros H. apply Z.leb_le in H. unfold evaluate_quality_health. simpl.
  assert (E : (sev1_defects m <=? 0) = false) by (apply Z.leb_gt; lia).
  now rewrite E.
Qed.

Lemma risk_lowlight_red (m : HealthMetrics) :
  (0.6 <? risk_score m)%float = true -> evaluate_risk_health m = RED.
Proof.
  intros H. destruct (risk_trigger_red _ H) as [H3 H6].
  unfold evaluate_risk_health. cbv zeta.
  change (Py.le (risk_score m) (risk_score_max (green (risk THRESHOLDS))))
    with (risk_score m <=? 0.3)%float.
  change (Py.le (risk_score m) (risk_score_max (amber (risk THRESHOLDS))))
    with (risk_score m <=? 0.6)%float.
  now rewrite H3, H6.
Qed.

(** X2: a highlight or lowlight never contradicts the status of its
    dimension: the schedule and cost highlights come with a green dimension
    and their lowlights with one that is not green; "Zero Critical Defects"
    comes with green quality, "Critical Defects Present" with red quality,
    and "High Risk Exposure" with red risk. *)
Theorem detector_agrees_with_evaluator (limit : Z) (m : HealthMetrics)
    (prev : option HealthMetrics) (pd : ProjectData) :
  let highs := detect_highlights m prev pd in
  (listed "Schedule Performance Exceeds Target" highs ->
   evaluate_schedule_health m = GREEN)
  /\ (listed "Cost Performance Under Budget" highs ->
      evaluate_cost_health m = GREEN)
  /\ (listed "Zero Critical Defects" highs -> evaluate_quality_health m = GREEN)
  /\ (forall lows,
        detect_lowlights limit m prev pd = Py.Ok lows ->
        (listed "Schedule Slippage Detected" lows ->
         evaluate_schedule_health m <> GREEN)
        /\ (listed "Cost Overrun Risk" lows -> evaluate_cost_health m <> GREEN)
        /\ (listed "Critical Defects Present" lows ->
            evaluate_quality_health m = RED)
        /\ (listed "High Risk Exposure" lows -> evaluate_risk_health m = RED)).
Proof.
  intros highs. subst highs.
  split; [|split; [|split]].
  1-3: intros H; apply highlight_listed_iff in H; destruct H as [c [Hin Hc]];
    simpl in Hin; destruct Hin as [E|[E|[E|[E|[]]]]]; inversion E; subst c.
  - unfold evaluate_schedule_health. cbv zeta.
    change (Py.ge (spi m) (spi_min (green (schedule THRESHOLDS))))
      with (0.98 <=? spi m)%float.
    now rewrite (schedule_trigger_green _ Hc).
  - unfold evaluate_cost_health. cbv zeta.
    change (Py.ge (cpi m) (cpi_min (green (cost THRESHOLDS))))
      with (0.98 <=? cpi m)%float.
    now rewrite (schedule_trigger_green _ Hc).
  - apply andb_prop in Hc. destruct Hc as [H1 H2].
    apply Z.eqb_eq in H1, H2. unfold evaluate_quality_health.
    rewrite H1, H2. reflexivity.
  - intros lows Hrun.
    repeat split; intros H;
      apply (lowlight_listed_iff limit m prev pd lows _ Hrun) in H;
      destruct H as [c [a [Hin Hc]]];
      simpl in Hin; destruct Hin as [E|[E|[E|[E|[]]]]]; inversion E; subst c.
    + now apply schedule_lowlight_not_green.
    + now apply cost_lowlight_not_green.
    + now apply quality_lowlight_red.
    + now apply risk_lowlight_red.
Qed.

(** X3: a snapshot whose overall status is green has no lowlight at all, and
    one that lists "Critical Defects Present" or "High Risk Exposure" is red
    overall. *)
Theorem lowlights_exclude_green (limit : Z) (m : HealthMetrics)
    (prev : option HealthMetrics) (pd : ProjectData) :
  exists st conf,
    calculate_overall_status m = Py.Ok (st, conf)
    /\ (st = GREEN -> detect_lowlights limit m prev pd = Py.Ok [])
    /\ (forall lows,
          detect_lowlights limit m prev pd = Py.Ok lows ->
          listed "Critical Defects Present" lows
          \/ listed "High Risk Exposure" lows ->
          st = RED).
Proof.
  destruct (overall_status_cases m) as [st (Hrun & _ & Hgreen & Hred)].
  exists st. eexists. split; [exact Hrun|]. split.
  - intros Hst. apply Hgreen in Hst. destruct Hst as (Hs & Hc & Hq & Hr).
    assert (E1 : (spi m <=? 0.95)%float = false).
    { destruct (spi m <=? 0.95)%float eqn:E; [|reflexivity].
      now destruct (schedule_lowlight_not_green m E). }
    assert (E2 : (cpi m <=? 0.95)%float = false).
    { destruct (cpi m <=? 0.95)%float eqn:E; [|reflexivity].
      now destruct (cost_lowlight_not_green m E). }
    assert (E3 : (1 <=? sev1_defects m) = false).
    { destruct (1 <=? sev1_defects m) eqn:E; [|reflexivity].
      rewrite (quality_lowlight_red m E) in Hq. discriminate Hq. }
    assert (E4 : (0.6 <? risk_score m)%float = false).
    { destruct (0.6 <? risk_score m)%float eqn:E; [|reflexivity].
      rewrite (risk_lowlight_red m E) in Hr. discriminate Hr. }
    assert (Hd : describable limit m) by (left; apply Z.leb_gt in E3; lia).
    destruct (lowlights_written limit m prev pd Hd) as (lows & Hl & Ht & _).
    rewrite Hl. f_equal.
    unfold fired, lowlight_rules in Ht. cbn [filter fst] in Ht.
    rewrite E1, E2, E3, E4 in Ht. simpl in Ht.
    now apply map_eq_nil in Ht.
  - intros lows Hl [H|H]; apply Hred;
      apply (lowlight_listed_iff limit m prev pd lows _ Hl) in H;
      destruct H as [c [a [Hin Hc]]]; simpl in Hin;
      destruct Hin as [E|[E|[E|[E|[]]]]]; inversion E; subst c.
    + right. right. left. now apply quality_lowlight_red.
    + right. right. right. now apply risk_lowlight_red.
Qed.

(** ** Extracted metrics *)

(** X4: the two defect estimates of an extracted snapshot are never
    negative; together they are a fifth of the issue count (rounded down, 0
    for a negative count), so they never exceed a non-negative issue count. *)
Theorem defect_estimates_bounded (pd : ProjectData) :
  extracts pd (fun m =>
    0 <= sev1_defects m
    /\ 0 <= sev2_defects m
    /\ sev1_defects m + sev2_defects m = Z.max 0 (defect_count m / 5)
    /\ (0 <= defect_count m -> sev1_defects m + sev2_defects m <= defect_count m)).
Proof.
  apply extracts_intro. intros m Hm.
  destruct (extract_metrics_fields pd m Hm) as (_ & _ & _ & -> & -> & -> & _).
  set (ic := issue_count pd). clearbody ic.
  pose proof (Z.div_mod ic 5 ltac:(lia)).
  pose proof (Z.mod_pos_bound ic 5 ltac:(lia)).
  pose proof (Z.div_mod ic 10 ltac:(lia)).
  pose proof (Z.mod_pos_bound ic 10 ltac:(lia)).
  repeat split; lia.
Qed.

Lemma quality_of_extracted (pd : ProjectData) (m : HealthMetrics) :
  _extract_metrics pd = Py.Ok m ->
  classified (defect_count m <? 5)
             ((5 <=? defect_count m) && (defect_count m <? 10))
             (evaluate_quality_health m).
Proof.
  intros Hm.
  destruct (extract_metrics_fields pd m Hm) as (_ & _ & _ & Hd & H1 & H2 & _).
  unfold evaluate_quality_health. rewrite Hd, H1, H2.
  set (ic := issue_count pd). clearbody ic.
  change (sev1_max (green (quality THRESHOLDS))) with 0.
  change (sev2_max (green (quality THRESHOLDS))) with 0.
  change (sev1_max (amber (quality THRESHOLDS))) with 0.
  change (sev2_max (amber (quality THRESHOLDS))) with 3.
  pose proof (Z.div_mod ic 5 ltac:(lia)) as D5.
  pose proof (Z.mod_pos_bound ic 5 ltac:(lia)) as M5.
  pose proof (Z.div_mod ic 10 ltac:(lia)) as D10.
  pose proof (Z.mod_pos_bound ic 10 ltac:(lia)) as M10.
  apply ladder_classified.
  - apply eq_true_iff_eq. rewrite andb_true_iff, !Z.leb_le, Z.ltb_lt. lia.
  - intros Hg. apply andb_false_iff in Hg. rewrite !Z.leb_gt in Hg.
    apply eq_true_iff_eq.
    rewrite !andb_true_iff, !Z.leb_le, Z.ltb_lt. lia.
  - intros H. apply andb_prop in H. destruct H as [H _].
    apply Z.leb_le in H. apply Z.ltb_ge. lia.
Qed.

(** X5: on extracted metrics the quality dimension is decided by the issue
    count alone: green below 5 issues, amber from 5 to 9, red from 10 on. *)
Theorem quality_by_issue_count (pd : ProjectData) :
  extracts pd (fun m =>
    defect_count m = issue_count pd
    /\ classified (defect_count m <? 5)
                  ((5 <=? defect_count m) && (defect_count m <? 10))
                  (evaluate_quality_health m)).
Proof.
  apply extracts_intro. intros m Hm.
  split; [apply (extract_metrics_fields pd m Hm)|].
  now apply (quality_of_extracted pd).
Qed.

(** X6: on extracted metrics the schedule dimension is amber when a
    milestone is "at-risk" and green otherwise, never red; "Schedule
    Slippage Detected" is listed exactly in the first case, and "Schedule
    Performance Exceeds Target" never. *)
Theorem schedule_by_at_risk_milestone (limit : Z) (pd : ProjectData) :
  extracts pd (fun m =>
    evaluate_schedule_health m = (if at_risk pd then AMBER else GREEN)
    /\ (forall lows,
          detect_lowlights limit m None pd = Py.Ok lows ->
          listed "Schedule Slippage Detected" lows <-> at_risk pd = true)
    /\ ~ listed "Schedule Performance Exceeds Target"
          (detect_highlights m None pd)).
Proof.
  apply extracts_intro. intros m Hm.
  destruct (extract_metrics_fields pd m Hm) as (Hspi & _).
  split; [|split].
  - unfold evaluate_schedule_health. cbv zeta. rewrite Hspi.
    destruct (at_risk pd); reflexivity.
  - intros lows Hl. rewrite (lowlight_listed_iff limit m None pd lows _ Hl).
    split.
    + intros [c [a [Hin Hc]]]. simpl in Hin.
      destruct Hin as [E|[E|[E|[E|[]]]]]; inversion E; subst c.
      rewrite Hspi in Hc. destruct (at_risk pd); [reflexivity|].
      vm_compute in Hc. discriminate Hc.
    + intros Hr. eexists. eexists. split; [left; reflexivity|].
      cbv beta. rewrite Hspi, Hr. reflexivity.
  - rewrite highlight_listed_iff. intros [c [Hin Hc]]. simpl in Hin.
    destruct Hin as [E|[E|[E|[E|[]]]]]; inversion E; subst c.
    rewrite Hspi in Hc. destruct (at_risk pd); vm_compute in Hc;
      discriminate Hc.
Qed.

(** X7: on extracted metrics the risk dimension follows the number of
    high-severity risks: green with none or one, amber with two, red with
    three, where "High Risk Exposure" is listed. *)
Theorem risk_by_high_risk_count (limit : Z) (pd : ProjectData) :
  extracts pd (fun m =>
    (high_risk_count pd <= 1 -> evaluate_risk_health m = GREEN)
    /\ (high_risk_count pd = 2 -> evaluate_risk_health m = AMBER)
    /\ (high_risk_count pd = 3 ->
        evaluate_risk_health m = RED
        /\ forall lows,
             detect_lowlights limit m None pd = Py.Ok lows ->
             listed "High Risk Exposure" lows)).
Proof.
  apply extracts_intro. intros m Hm.
  destruct (extract_metrics_fields pd m Hm) as (_ & _ & Hrisk & _).
  assert (Hpos : 0 <= high_risk_count pd).
  { unfold high_risk_count, Py.count, Py.len. lia. }
  unfold evaluate_risk_health. cbv zeta. rewrite Hrisk.
  split; [|split].
  - intros H.
    assert (E : high_risk_count pd = 0 \/ high_risk_count pd = 1) by lia.
    destruct E as [-> | ->]; vm_compute; reflexivity.
  - intros ->. vm_compute. reflexivity.
  - intros E. split; [rewrite E; vm_compute; reflexivity|].
    intros lows Hl. rewrite (lowlight_listed_iff limit m None pd lows _ Hl).
    eexists. eexists.
    split; [right; right; right; left; reflexivity|].
    cbv beta. rewrite Hrisk, E. vm_compute. reflexivity.
Qed.

Lemma count_true_two (c d e : bool) : 2 <= count_true [true; true; c; d; e].
Proof. destruct c, d, e; vm_compute; discriminate. Qed.

(** The estimated indices of an extracted snapshot raise two data flags. *)
Lemma extracted_deviations (pd : ProjectData) (m : HealthMetrics) :
  _extract_metrics pd = Py.Ok m -> 2 <= count_true (deviations m).
Proof.
  intros Hm.
  destruct (extract_metrics_fields pd m Hm) as (Hspi & Hcpi & _).
  unfold deviations. rewrite Hspi, Hcpi.
  assert (E1 : negb ((if at_risk pd then 0.95 else 1.02) =? 1.0)%float = true)
    by (destruct (at_risk pd); reflexivity).
  rewrite E1.
  change (negb (0.98 =? 1.0)%float) with true.
  apply count_true_two.
Qed.

(** X8: an extracted snapshot never scores a confidence below 0.4: its spi
    and cpi estimates always differ from 1.0. *)
Theorem extracted_confidence_at_least_two_fifths (pd : ProjectData) :
  extracts pd (fun m =>
    exists st conf,
      calculate_overall_status m = Py.Ok (st, conf)
      /\ (0.4 <=? conf)%float = true).
Proof.
  apply extracts_intro. intros m Hm.
  destruct (calculate_overall_status_returns m) as [st [Hrun _]].
  exists st. eexists. split; [exact Hrun|].
  pose proof (count_true_bounds (deviations m)) as Hb.
  change (Py.len (deviations m)) with 5 in Hb.
  pose proof (extracted_deviations pd m Hm) as H2.
  destruct (fifths_monotone 2 _ (conj (Z.le_0_2) H2) (proj2 Hb)) as (_ & H & _).
  assert (H04 : (0.4 <=? Py.nearest_quotient 2 5)%float = true)
    by (vm_compute; reflexivity).
  apply (leb_trans 0.4 (Py.nearest_quotient 2 5)); [exact H04 | exact H].
Qed.

(** ** Windows of the comparator *)

Section WindowFacts.

Variable fromisoformat : string -> option datetime.

Lemma loop_within (start end_ : datetime) (data acc l : list HistoricalRecord) :
  fold_left (filter_step fromisoformat start end_) data (Py.Ok acc) = Py.Ok l ->
  l = (acc ++ filter (within fromisoformat start end_) data)%list.
Proof.
  revert acc. induction data as [|x data IH]; intros acc; simpl.
  - intros [= <-]. now rewrite app_nil_r.
  - unfold within at 1, parsed_date.
    destruct (h_date x) as [s|]; simpl; [|apply IH].
    destruct (fromisoformat s) as [d|]; simpl;
      [|rewrite loop_raise; discriminate].
    destruct (datetime_le start d) as [[|]|e]; simpl;
      [| apply IH | rewrite loop_raise; discriminate].
    destruct (datetime_le d end_) as [[|]|e]; simpl;
      [| apply IH | rewrite loop_raise; discriminate].
    intros H. apply IH in H. unfold Py.append in H.
    now rewrite <- app_assoc in H.
Qed.

(** X9: when [_filter_period_data] returns, its result is the input list
    filtered, in the input order and without repetition of a record: exactly
    the records whose date parses and compares on or after [start] and on or
    before [end_]. *)
Theorem filter_period_data_is_a_filter (data l : list HistoricalRecord)
    (start end_ : datetime) :
  _filter_period_data fromisoformat data start end_ = Py.Ok l ->
  l = filter (within fromisoformat start end_) data.
Proof. unfold _filter_period_data. intros H. now apply loop_within in H. Qed.

Lemma in_window_iff (lo hi : Z) (r : HistoricalRecord) :
  in_window fromisoformat lo hi r = true
  <-> exists d, parsed_date fromisoformat r = Some d /\ lo <= micros d <= hi.
Proof.
  unfold in_window. destruct (parsed_date fromisoformat r) as [d|]; split.
  - intros H. apply andb_prop in H. destruct H as [H1 H2].
    apply Z.leb_le in H1, H2. exists d. now repeat split.
  - intros [d' [[= <-] [H1 H2]]]. apply andb_true_intro.
    split; now apply Z.leb_le.
  - discriminate.
  - intros [d [H _]]. discriminate H.
Qed.

(** X10: over a history whose dated records all parse to naive datetimes,
    the two windows share exactly the records dated at the instant seven days
    before the clock reading; every other record is in at most one window. *)
Theorem windows_overlap_only_at_boundary (clock : Z)
    (data : list HistoricalRecord) :
  Forall (readable fromisoformat) data ->
  let now := datetime_now clock in
  exists recent previous,
    _filter_period_data fromisoformat data
      (datetime_sub now (timedelta_days 7)) now = Py.Ok recent
    /\ _filter_period_data fromisoformat data
         (datetime_sub now (timedelta_days 14))
         (datetime_sub now (timedelta_days 7)) = Py.Ok previous
    /\ forall r,
         In r recent /\ In r previous
         <-> In r data
             /\ exists d, parsed_date fromisoformat r = Some d
                          /\ micros d = clock - timedelta_days 7.
Proof.
  intros Hall now.
  exists (filter (in_window fromisoformat (clock - week) clock) data),
         (filter (in_window fromisoformat (clock - 2 * week) (clock - week)) data).
  split; [exact (filter_readable fromisoformat _ _ data Hall)|].
  split; [exact (filter_readable fromisoformat _ _ data Hall)|].
  intros r. rewrite !filter_In, !in_window_iff.
  unfold week, timedelta_days. split.
  - intros [[Hin [d [Hd Hr]]] [_ [d' [Hd' Hp]]]].
    split; [exact Hin|]. exists d. split; [exact Hd|].
    rewrite Hd in Hd'. injection Hd' as <-. lia.
  - intros [Hin [d [Hd Hm]]].
    split; (split; [exact Hin|]); exists d; (split; [exact Hd|]); lia.
Qed.

End WindowFacts.

(** The recent window of the history with a boundary record, as a filter. *)
Lemma recent_window_of_boundary_history :
  [boundary_record; dated "2025-09-16" 2]
  = filter (within Iso.fromisoformat
              (datetime_now (noon_2025_09_17 - week))
              (datetime_now noon_2025_09_17))
      boundary_history.
Proof.
  apply (filter_period_data_is_a_filter Iso.fromisoformat).
  vm_compute. reflexivity.
Defined.

(** In that history only the record of 2025-09-10 noon is in both windows. *)
Lemma boundary_history_overlap :
  exists recent previous,
    _filter_period_data Iso.fromisoformat boundary_history
      (datetime_sub (datetime_now noon_2025_09_17) (timedelta_days 7))
      (datetime_now noon_2025_09_17) = Py.Ok recent
    /\ _filter_period_data Iso.fromisoformat boundary_history
         (datetime_sub (datetime_now noon_2025_09_17) (timedelta_days 14))
         (datetime_sub (datetime_now noon_2025_09_17) (timedelta_days 7))
       = Py.Ok previous
    /\ forall r,
         In r recent /\ In r previous
         <-> In r boundary_history
             /\ exists d, parsed_date Iso.fromisoformat r = Some d
                          /\ micros d = noon_2025_09_17 - timedelta_days 7.
Proof.
  exact (windows_overlap_only_at_boundary Iso.fromisoformat noon_2025_09_17
           boundary_history boundary_history_readable).
Defined.

(** ** The overall trend *)

Lemma trend_eq_dec (a b : TrendDirection) : {a = b} + {a <> b}.
Proof. decide equality. Defined.

(** An element whose key beats every other one wins [max], wherever it
    stands. *)
Lemma fold_max_dominant (key : TrendDirection -> Z) (t : TrendDirection)
    (xs : list TrendDirection) (best : TrendDirection) :
  best = t \/ In t xs ->
  (forall y, y = best \/ In y xs -> y <> t -> key y < key t) ->
  fold_left (fun b y => if key b <? key y then y else b) xs best = t.
Proof.
  revert best. induction xs as [|y xs IH]; intros best Hin Hdom; simpl.
  - destruct Hin as [H|[]]. exact H.
  - apply IH.
    + destruct (trend_eq_dec best t) as [Eb|Nb].
      * left. subst best. destruct (trend_eq_dec y t) as [->|Ny].
        -- now destruct (key t <? key t).
        -- assert (H : key y < key t) by (apply Hdom; [right; now left|exact Ny]).
           assert (H' : (key t <? key y) = false) by (apply Z.ltb_ge; lia).
           now rewrite H'.
      * destruct Hin as [H|[H|H]]; [contradiction| |now right].
        left. subst y.
        assert (H : key best < key t) by (apply Hdom; [now left|exact Nb]).
        apply Z.ltb_lt in H. now rewrite H.
    + intros z Hz Nz. apply Hdom; [|exact Nz].
      destruct Hz as [Hz|Hz]; [|right; now right].
      destruct (key best <? key y); subst z; [right; now left | now left].
Qed.

Lemma max_key_dominant (key : TrendDirection -> Z) (t : TrendDirection)
    (l : list TrendDirection) :
  In t l ->
  (forall y, In y l -> y <> t -> key y < key t) ->
  Py.max_key key l = Py.Ok t.
Proof.
  destruct l as [|x xs]; [intros []|]. intros Hin Hdom. unfold Py.max_key.
  f_equal. apply fold_max_dominant.
  - destruct Hin as [H|H]; [now left | now right].
  - intros y Hy. apply Hdom. destruct Hy as [->|Hy]; [now left | now right].
Qed.

(** Where no key beats the first one, [max] returns the first element. *)
Lemma max_key_first (key : TrendDirection -> Z) (x : TrendDirection)
    (xs : list TrendDirection) :
  (forall y, In y xs -> key y <= key x) ->
  Py.max_key key (x :: xs) = Py.Ok x.
Proof.
  intros Hle. unfold Py.max_key. f_equal.
  induction xs as [|y xs IH]; simpl; [reflexivity|].
  assert (H : (key x <? key y) = false).
  { apply Z.ltb_ge. apply Hle. now left. }
  rewrite H. apply IH. intros z Hz. apply Hle. now right.
Qed.

(** Among three trends, one that occurs twice occurs more often than any
    other. *)
Lemma majority_of_three (a b c t y : TrendDirection) :
  2 <= Py.count (trend_eqb t) [a; b; c] ->
  y <> t ->
  Py.count (trend_eqb y) [a; b; c] < Py.count (trend_eqb t) [a; b; c].
Proof.
  destruct a, b, c, t, y; vm_compute; intros H N;
    try reflexivity; try (exfalso; now apply N); exfalso; now apply H.
Qed.

Lemma count_of_distinct (a b c y : TrendDirection) :
  NoDup [a; b; c] -> In y [a; b; c] -> Py.count (trend_eqb y) [a; b; c] = 1.
Proof.
  intros Hnd Hin. inversion Hnd as [|? ? Ha Hnd']. subst.
  inversion Hnd' as [|? ? Hb _]. subst.
  destruct a, b, c, y; try reflexivity; exfalso;
    try (apply Ha; simpl; tauto); try (apply Hb; simpl; tauto);
    destruct Hin as [H|[H|[H|[]]]]; discriminate H.
Qed.

Lemma first_occurrences_from (l seen : list TrendDirection) (x : TrendDirection) :
  In x seen \/ In x l ->
  In x (fold_left (fun seen t => if existsb (trend_eqb t) seen then seen
                                 else (seen ++ [t])%list) l seen).
Proof.
  revert seen. induction l as [|y l IH]; intros seen H; simpl.
  - destruct H as [H|[]]. exact H.
  - apply IH. destruct H as [H|[H|H]].
    + left. destruct (existsb _ seen); [exact H|]. apply in_or_app. now left.
    + left. subst y. destruct (existsb (trend_eqb x) seen) eqn:E.
      * apply existsb_exists in E. destruct E as [z [Hz Ez]].
        destruct x, z; try discriminate Ez; exact Hz.
      * apply in_or_app. right. now left.
    + now right.
Qed.

Lemma first_occurrences_complete (l : list TrendDirection) (x : TrendDirection) :
  In x l -> In x (first_occurrences l).
Proof. intros H. apply first_occurrences_from. now right. Defined.

Section TrendFacts.

Variable fromisoformat : string -> option datetime.
Variable float_sum : list float -> float.
Variable limit : Z.
Variable set_iteration : list TrendDirection -> list TrendDirection.

Local Abbreviation run :=
  (evaluate_project fromisoformat float_sum limit set_iteration).
Local Abbreviation compare := (calculate_7day_comparison fromisoformat float_sum).

(** With a non-empty history, the metrics extracted and the lowlights
    written, the engine is the comparator followed by the vote on its three
    trends. *)
Lemma evaluate_project_with_history (c1 c2 : Z) (pd : ProjectData)
    (h : HistoricalRecord) (t : list HistoricalRecord) (m : HealthMetrics)
    (lows : list Dict) :
  _extract_metrics pd = Py.Ok m ->
  detect_lowlights limit m None pd = Py.Ok lows ->
  exists o conf,
    run c1 c2 pd (Some (h :: t))
    = (comparison <- compare c1 pd (h :: t) ;;
       voted <- Py.max_key
                  (fun x => Py.count (trend_eqb x) (trend_values comparison))
                  (set_iteration (trend_values comparison)) ;;
       Py.Ok
         {| project_id := Py.get (pd_id pd) "unknown";
            project_name := Py.get (pd_name pd) "Unknown Project";
            overall_status := o;
            trend := voted;
            health_metrics := m;
            highlights := detect_highlights m None pd;
            lowlights := lows;
            confidence_score := conf;
            evaluation_date := datetime_now c2;
            comparison_period := Some comparison |}).
Proof.
  intros Hm Hl.
  destruct (calculate_overall_status_returns m) as [o [Hrun _]].
  exists o. eexists. unfold evaluate_project. rewrite Hm.
  unfold Py.bind at 1. rewrite Hrun. unfold Py.bind at 1.
  rewrite Hl. unfold Py.bind at 1.
  destruct (calculate_7day_comparison fromisoformat float_sum c1 pd (h :: t))
    as [c|e]; unfold Py.bind; [|reflexivity].
  unfold trend_values.
  destruct (Py.max_key _ _) as [v|e]; reflexivity.
Qed.

(** The vote returns whenever the set yields every trend it was built
    from. *)
Lemma vote_returns (c : Comparison) :
  (forall l x, In x l -> In x (set_iteration l)) ->
  exists v,
    Py.max_key (fun x => Py.count (trend_eqb x) (trend_values c))
      (set_iteration (trend_values c)) = Py.Ok v.
Proof.
  intros Hmem.
  assert (Hin : In (trend_schedule (trends c)) (set_iteration (trend_values c))).
  { apply Hmem. now left. }
  destruct (set_iteration (trend_values c)) as [|x xs]; [destruct Hin|].
  unfold Py.max_key. eexists. reflexivity.
Qed.

(** The metrics and lowlights of a project that can be evaluated. *)
Lemma evaluable_parts (pd : ProjectData) :
  evaluable limit pd ->
  exists m lows,
    _extract_metrics pd = Py.Ok m
    /\ detect_lowlights limit m None pd = Py.Ok lows.
Proof.
  intros He. destruct (extractable_returns pd (proj1 He)) as [m Hm].
  rewrite (evaluable_describable limit pd m Hm) in He.
  destruct (lowlights_written limit m None pd He) as (lows & Hl & _).
  now exists m, lows.
Qed.

(** X11: with a non-empty history [evaluate_project] fails exactly when the
    metrics cannot be extracted, with [OverflowError]; or the lowlights
    cannot be written, with [ValueError]; or, the project being evaluable,
    when the comparator fails, and then with the exception of the
    comparator: a date that does not parse or is timezone-aware in the
    history makes the whole evaluation fail. *)
Theorem evaluate_project_fails_with_comparator (c1 c2 : Z) (pd : ProjectData)
    (h : HistoricalRecord) (t : list HistoricalRecord) (e : Py.exn) :
  (forall l x, In x l -> In x (set_iteration l)) ->
  run c1 c2 pd (Some (h :: t)) = Py.Raise e
  <-> (~ extractable pd /\ e = Py.OverflowError)
      \/ (extractable pd /\ ~ evaluable limit pd /\ e = Py.ValueError)
      \/ (evaluable limit pd /\ compare c1 pd (h :: t) = Py.Raise e).
Proof.
  intros Hmem.
  destruct (Z.lt_ge_cases (- (100 * Py.overflow_threshold)) (issue_count pd))
    as [He|He].
  - change (extractable pd) in He.
    assert (Hev : evaluable limit pd \/ ~ evaluable limit pd).
    { unfold evaluable. destruct (Z.le_gt_cases limit 0) as [Hl|Hl]; [tauto|].
      destruct (Z.lt_ge_cases (issue_count pd) (10 ^ (limit + 1))) as [H|H];
        [tauto|]. right. intros [_ [H'|H']]; lia. }
    destruct Hev as [Hev|Hev].
    + destruct (evaluable_parts pd Hev) as (m & lows & Hm & Hl).
      destruct (evaluate_project_with_history c1 c2 pd h t m lows Hm Hl)
        as [o [conf ->]].
      destruct (calculate_7day_comparison fromisoformat float_sum c1 pd (h :: t))
        as [c|e']; unfold Py.bind.
      * destruct (vote_returns c Hmem) as [v ->].
        split; [discriminate|].
        intros [[Hn _]|[(_ & Hn & _)|[_ H]]];
          [now destruct Hn | now destruct Hn | discriminate H].
      * split.
        -- intros [= ->]. right. right. now split.
        -- intros [[Hn _]|[(_ & Hn & _)|[_ [= ->]]]];
             [now destruct Hn | now destruct Hn | reflexivity].
    + rewrite (evaluate_project_unwritten fromisoformat float_sum limit
                 set_iteration c1 c2 pd _ He Hev).
      split.
      * intros [= <-]. right. left. now repeat split.
      * intros [[Hn _]|[(_ & _ & ->)|[H _]]];
          [now destruct Hn | reflexivity | now destruct Hev].
  - assert (Hn : ~ extractable pd) by (unfold extractable; lia).
    rewrite (evaluate_project_raises fromisoformat float_sum limit set_iteration
               c1 c2 pd _ _ (not_extractable_raises pd Hn)).
    split.
    + intros [= <-]. left. now split.
    + intros [[_ ->]|[(H & _)|[[H _] _]]];
        [reflexivity | now destruct Hn | now destruct Hn].
Qed.

(** X12: when two of the three per-dimension trends agree, the overall trend
    is their common value, in whatever order the set of trends is iterated. *)
Theorem overall_trend_is_the_majority (c1 c2 : Z) (pd : ProjectData)
    (h : HistoricalRecord) (t : list HistoricalRecord) (st : ProjectStatus) :
  (forall l x, In x l -> In x (set_iteration l)) ->
  run c1 c2 pd (Some (h :: t)) = Py.Ok st ->
  exists c,
    compare c1 pd (h :: t) = Py.Ok c
    /\ comparison_period st = Some c
    /\ forall v, 2 <= Py.count (trend_eqb v) (trend_values c) -> trend st = v.
Proof.
  intros Hmem Hrun.
  destruct (evaluate_project_fields fromisoformat float_sum limit set_iteration
              c1 c2 pd _ st Hrun) as (m & Hm & _ & _ & _ & Hl).
  revert Hrun.
  destruct (evaluate_project_with_history c1 c2 pd h t m _ Hm Hl)
    as [o [conf ->]].
  destruct (calculate_7day_comparison fromisoformat float_sum c1 pd (h :: t))
    as [c|e']; unfold Py.bind; [|discriminate].
  destruct (Py.max_key _ _) as [w|e'] eqn:Hvote; unfold Py.bind; [|discriminate].
  intros [= <-]. exists c. repeat split. cbn [trend].
  intros v Hv.
  assert (Hw : Py.max_key (fun x => Py.count (trend_eqb x) (trend_values c))
                 (set_iteration (trend_values c)) = Py.Ok v).
  { apply max_key_dominant.
    - apply Hmem. unfold trend_values in *.
      destruct (trend_schedule (trends c)), (trend_cost (trends c)),
        (trend_quality (trends c)), v; simpl; try tauto;
        vm_compute in Hv; exfalso; now apply Hv.
    - intros y _ Ny. now apply majority_of_three. }
  rewrite Hw in Hvote. now injection Hvote.
Qed.

(** X13: when the three per-dimension trends all differ, the overall trend
    is the one that the set of trends yields first: it depends on the
    iteration order of the set, not on the dimensions. *)
Theorem overall_trend_tie_follows_set_order (c1 c2 : Z) (pd : ProjectData)
    (h : HistoricalRecord) (t : list HistoricalRecord) (st : ProjectStatus) :
  (forall l x, In x (set_iteration l) <-> In x l) ->
  run c1 c2 pd (Some (h :: t)) = Py.Ok st ->
  exists c,
    comparison_period st = Some c
    /\ (NoDup (trend_values c) ->
        hd_error (set_iteration (trend_values c)) = Some (trend st)).
Proof.
  intros Hmem Hrun.
  destruct (evaluate_project_fields fromisoformat float_sum limit set_iteration
              c1 c2 pd _ st Hrun) as (m & Hm & _ & _ & _ & Hl).
  revert Hrun.
  destruct (evaluate_project_with_history c1 c2 pd h t m _ Hm Hl)
    as [o [conf ->]].
  destruct (calculate_7day_comparison fromisoformat float_sum c1 pd (h :: t))
    as [c|e']; unfold Py.bind; [|discriminate].
  destruct (Py.max_key _ _) as [w|e'] eqn:Hvote; unfold Py.bind; [|discriminate].
  intros [= <-]. exists c. split; [reflexivity|]. cbn [trend].
  intros Hnd.
  destruct (set_iteration (trend_values c)) as [|x xs] eqn:Eset;
    [discriminate Hvote|].
  rewrite max_key_first in Hvote; [now injection Hvote as <-|].
  intros y Hy.
  assert (Hx : In x (trend_values c)) by (apply Hmem; rewrite Eset; now left).
  assert (Hy' : In y (trend_values c))
    by (apply Hmem; rewrite Eset; now right).
  unfold trend_values in *.
  rewrite (count_of_distinct _ _ _ x Hnd Hx),
          (count_of_distinct _ _ _ y Hnd Hy'). lia.
Qed.

(** X14: a non-empty history none of whose records has a date is compared
    like two empty windows: for a project that can be evaluated the status
    carries a comparison with the neutral aggregates and three flat trends,
    and its overall trend is flat. *)
Theorem undated_history_compares_neutral (c1 c2 : Z) (pd : ProjectData)
    (h : HistoricalRecord) (t : list HistoricalRecord) :
  (forall l x, In x l -> In x (set_iteration l)) ->
  Forall (fun r => h_date r = None) (h :: t) ->
  evaluable limit pd ->
  exists st c,
    run c1 c2 pd (Some (h :: t)) = Py.Ok st
    /\ comparison_period st = Some c
    /\ neutral_comparison c
    /\ trend st = FLAT.
Proof.
  intros Hmem Hund He.
  destruct (evaluable_parts pd He) as (m & lows & Hm & Hl).
  destruct (evaluate_project_with_history c1 c2 pd h t m lows Hm Hl)
    as [o [conf ->]].
  assert (Hnone : filter has_date (h :: t) = []).
  { induction Hund as [|x l Hx _ IH]; [reflexivity|].
    simpl. unfold has_date at 1. now rewrite Hx. }
  assert (Hcmp : compare c1 pd (h :: t) = compare c1 pd []).
  { unfold calculate_7day_comparison, _filter_period_data. cbv zeta.
    rewrite !(loop_skips_undated fromisoformat _ _ (h :: t)), Hnone.
    reflexivity. }
  rewrite Hcmp, (comparison_of_empty fromisoformat float_sum).
  set (c := {| current_period :=
                 {| period_start := datetime_now (c1 - week);
                    period_end := datetime_now c1;
                    period_metrics := neutral_aggregate |};
               previous_period :=
                 {| period_start := datetime_now (c1 - 2 * week);
                    period_end := datetime_now (c1 - week);
                    period_metrics := neutral_aggregate |};
               trends := all_flat |}).
  unfold Py.bind at 1.
  assert (Hvote : Py.max_key (fun x => Py.count (trend_eqb x) (trend_values c))
                    (set_iteration (trend_values c)) = Py.Ok FLAT).
  { apply max_key_dominant.
    - apply Hmem. now left.
    - intros y _ Ny. destruct y; try reflexivity. now destruct Ny. }
  rewrite Hvote. unfold Py.bind. eexists. exists c.
  split; [reflexivity|]. repeat split.
Qed.

End TrendFacts.

Lemma first_occurrences_within (l seen : list TrendDirection) (x : TrendDirection) :
  In x (fold_left (fun seen t => if existsb (trend_eqb t) seen then seen
                                 else (seen ++ [t])%list) l seen) ->
  In x seen \/ In x l.
Proof.
  revert seen. induction l as [|y l IH]; intros seen H; simpl in *.
  - now left.
  - apply IH in H. destruct H as [H|H]; [|right; now right].
    destruct (existsb _ seen); [now left|].
    apply in_app_or in H. destruct H as [H|[H|[]]]; [now left|].
    right. now left.
Qed.

Lemma first_occurrences_members (l : list TrendDirection) (x : TrendDirection) :
  In x (first_occurrences l) <-> In x l.
Proof.
  split.
  - intros H. apply first_occurrences_within in H. now destruct H as [[]|H].
  - apply first_occurrences_complete.
Defined.

(** A history with a timezone-aware date fails the whole evaluation. *)
Lemma aware_history_fails_evaluation :
  evaluate_project Iso.fromisoformat Py.sum_float 4300 first_occurrences
    noon_2025_09_17 noon_2025_09_17 empty_project (Some aware_then_malformed)
  = Py.Raise Py.TypeError.
Proof.
  apply (proj2 (evaluate_project_fails_with_comparator Iso.fromisoformat
                  Py.sum_float 4300 first_occurrences noon_2025_09_17
                  noon_2025_09_17 empty_project
                  (dated "2025-09-10T12:00:00+00:00" 5)
                  [dated "not-a-date" 3] Py.TypeError
                  first_occurrences_complete)).
  right. right. split; [|vm_compute; reflexivity].
  apply few_issues_evaluable. vm_compute. split; [discriminate | reflexivity].
Defined.

(** The history with a boundary record has two flat trends and a falling
    one; the overall trend is the majority. *)
Lemma boundary_history_trend_majority :
  exists st,
    evaluate_project Iso.fromisoformat Py.sum_float 4300 first_occurrences
      noon_2025_09_17 noon_2025_09_17 empty_project (Some boundary_history)
    = Py.Ok st
    /\ exists c,
         calculate_7day_comparison Iso.fromisoformat Py.sum_float
           noon_2025_09_17 empty_project boundary_history = Py.Ok c
         /\ comparison_period st = Some c
         /\ forall v, 2 <= Py.count (trend_eqb v) (trend_values c) ->
                      trend st = v.
Proof.
  eexists. split; [vm_compute; reflexivity|].
  apply (overall_trend_is_the_majority Iso.fromisoformat Py.sum_float 4300
           first_occurrences noon_2025_09_17 noon_2025_09_17 empty_project
           boundary_record [undated 3; dated "2025-09-16" 2] _
           first_occurrences_complete).
  vm_compute. reflexivity.
Defined.

(** A history whose three trends differ: the overall trend is the head of the
    iteration order. *)
Lemma mixed_history_trend_follows_order :
  exists st,
    evaluate_project Iso.fromisoformat Py.sum_float 4300 first_occurrences
      noon_2025_09_17 noon_2025_09_17 empty_project (Some mixed_history)
    = Py.Ok st
    /\ exists c,
         comparison_period st = Some c
         /\ (NoDup (trend_values c) ->
             hd_error (first_occurrences (trend_values c)) = Some (trend st)).
Proof.
  eexists. split; [vm_compute; reflexivity|].
  apply (overall_trend_tie_follows_set_order Iso.fromisoformat Py.sum_float
           4300 first_occurrences noon_2025_09_17 noon_2025_09_17 empty_project
           mixed_record [] _ first_occurrences_members).
  vm_compute. reflexivity.
Defined.

(** Two records without a date. *)
Lemma undated_history_is_neutral :
  exists st c,
    evaluate_project Iso.fromisoformat Py.sum_float 4300 first_occurrences
      noon_2025_09_17 noon_2025_09_17 empty_project (Some [undated 3; undated 4])
    = Py.Ok st
    /\ comparison_period st = Some c
    /\ neutral_comparison c
    /\ trend st = FLAT.
Proof.
  apply (undated_history_compares_neutral Iso.fromisoformat Py.sum_float
           4300 first_occurrences noon_2025_09_17 noon_2025_09_17
           empty_project (undated 3) [undated 4] first_occurrences_complete).
  - repeat constructor.
  - apply few_issues_evaluable. vm_compute. split; [discriminate | reflexivity].
Defined.

(** ** The portfolio report *)

(** The three status strings count disjoint sets of entries. *)
Lemma summary_counts_bounded (entries : list Entry) :
  let count_of s := Py.count (fun p => String.eqb (entry_status p) s) entries in
  0 <= count_of "green" /\ 0 <= count_of "amber" /\ 0 <= count_of "red"
  /\ count_of "green" + count_of "amber" + count_of "red" <= Py.len entries.
Proof.
  cbv zeta. unfold Py.count, Py.len.
  induction entries as [|e entries IH]; simpl List.length; [simpl; lia|].
  cbn [filter].
  destruct (String.eqb (entry_status e) "green") eqn:Eg;
    destruct (String.eqb (entry_status e) "amber") eqn:Ea;
    destruct (String.eqb (entry_status e) "red") eqn:Er;
    try apply String.eqb_eq in Eg; try apply String.eqb_eq in Ea;
    try apply String.eqb_eq in Er; try congruence;
    simpl List.length; lia.
Qed.

Lemma summary_counts_partition (entries : list Entry) :
  Forall (fun e => rag_string (entry_status e)) entries ->
  Py.count (fun p => String.eqb (entry_status p) "green") entries
  + Py.count (fun p => String.eqb (entry_status p) "amber") entries
  + Py.count (fun p => String.eqb (entry_status p) "red") entries
  = Py.len entries.
Proof.
  unfold Py.count, Py.len.
  induction 1 as [|e entries He _ IH]; [reflexivity|].
  cbn [filter].
  destruct He as [-> | [-> | ->]];
    repeat match goal with
           | |- context [String.eqb ?a ?b] =>
               let v := eval vm_compute in (String.eqb a b) in
               change (String.eqb a b) with v
           end;
    cbv iota; simpl List.length; lia.
Qed.

(** A share of the total is always printed. *)
Lemma percentage_returns (n total : Z) :
  0 <= n <= total ->
  exists s, percentage n total = Py.Ok s /\ (total = 0 -> s = "0%").
Proof.
  intros Hn. unfold percentage.
  destruct (total >? 0) eqn:Hpos.
  - apply Z.gtb_lt in Hpos.
    rewrite (int_truediv_part n total Hn Hpos). unfold Py.bind.
    eexists. split; [reflexivity|]. lia.
  - eexists. split; reflexivity.
Qed.

(** The summary is always produced, with the three counts of the entries. *)
Lemma generate_summary_returns (entries : list Entry) :
  exists s,
    _generate_summary entries = Py.Ok s
    /\ total_projects s = Py.len entries
    /\ health_distribution s
       = mkBands
           (Py.count (fun p => String.eqb (entry_status p) "green") entries)
           (Py.count (fun p => String.eqb (entry_status p) "amber") entries)
           (Py.count (fun p => String.eqb (entry_status p) "red") entries)
    /\ (entries = [] -> health_percentage s = mkBands "0%" "0%" "0%").
Proof.
  pose proof (summary_counts_bounded entries) as H. cbv zeta in H.
  destruct H as (Hg & Ha & Hr & Hsum).
  unfold _generate_summary. cbv zeta.
  destruct (percentage_returns
              (Py.count (fun p => String.eqb (entry_status p) "green") entries)
              (Py.len entries) ltac:(lia)) as (g & -> & Hg0).
  destruct (percentage_returns
              (Py.count (fun p => String.eqb (entry_status p) "amber") entries)
              (Py.len entries) ltac:(lia)) as (a & -> & Ha0).
  destruct (percentage_returns
              (Py.count (fun p => String.eqb (entry_status p) "red") entries)
              (Py.len entries) ltac:(lia)) as (r & -> & Hr0).
  unfold Py.bind. eexists. split; [reflexivity|].
  cbn [total_projects health_distribution health_percentage].
  split; [reflexivity|]. split; [reflexivity|].
  intros ->. now rewrite Hg0, Ha0, Hr0.
Qed.

(** X15: [_generate_summary] returns for every list of entries; it counts
    every entry in the total, and each entry under at most one colour: the
    three counts are not negative and add up to at most the total (an entry
    with another status is in the total only); over no entry the three
    percentages are "0%". *)
Theorem generate_summary_counts (entries : list Entry) :
  exists s,
    _generate_summary entries = Py.Ok s
    /\ total_projects s = Py.len entries
    /\ 0 <= green (health_distribution s)
    /\ 0 <= amber (health_distribution s)
    /\ 0 <= red (health_distribution s)
    /\ green (health_distribution s) + amber (health_distribution s)
       + red (health_distribution s) <= total_projects s
    /\ (entries = [] -> health_percentage s = mkBands "0%" "0%" "0%").
Proof.
  destruct (generate_summary_returns entries) as (s & Hrun & Ht & Hd & He).
  exists s. split; [exact Hrun|]. rewrite Ht, Hd. cbn [green amber red].
  pose proof (summary_counts_bounded entries) as H. cbv zeta in H.
  destruct H as (Hg & Ha & Hr & Hsum).
  repeat split; assumption.
Qed.

Section ReportFacts.

Variable fromisoformat : string -> option datetime.
Variable float_sum : list float -> float.
Variable limit : Z.
Variable set_iteration : list TrendDirection -> list TrendDirection.

Local Abbreviation entry :=
  (report_entry fromisoformat float_sum limit set_iteration).
Local Abbreviation step :=
  (report_step fromisoformat float_sum limit set_iteration).
Local Abbreviation report :=
  (generate_status_report fromisoformat float_sum limit set_iteration).

(** The entry of a project that can be evaluated. *)
Lemma report_entry_returns (clock : Z) (project : ProjectData) :
  evaluable limit project ->
  exists e, entry clock project = Py.Ok e /\ entry_of limit project e.
Proof.
  intros He. destruct (extractable_returns project (proj1 He)) as [m Hm].
  rewrite (evaluable_describable limit project m Hm) in He.
  destruct (lowlights_written limit m None project He) as (lows & Hl & _).
  destruct (overall_status_cases m) as [o (Hrun & Hrag & _)].
  unfold report_entry, evaluate_project. rewrite Hm.
  unfold Py.bind at 2. rewrite Hrun. unfold Py.bind at 2. rewrite Hl.
  unfold Py.bind. eexists. split; [reflexivity|].
  unfold entry_of. exists m, o. eexists.
  split; [exact Hm|]. split; [exact Hrun|].
  cbn [entry_project entry_trend entry_status entry_confidence entry_highlights
       entry_lowlights overall_status trend highlights lowlights
       confidence_score].
  repeat split; [|exact Hl].
  unfold rag_string. destruct Hrag as [-> | [-> | ->]]; simpl; tauto.
Qed.

(** The entry of a project that cannot: the exception of the extraction or
    of the lowlights. *)
Lemma report_entry_raises (clock : Z) (project : ProjectData) :
  ~ evaluable limit project ->
  exists e,
    entry clock project = Py.Raise e
    /\ (e = Py.OverflowError \/ e = Py.ValueError).
Proof.
  intros Hn. unfold report_entry.
  destruct (Z.lt_ge_cases (- (100 * Py.overflow_threshold))
              (issue_count project)) as [He|He].
  - exists Py.ValueError. split; [|now right].
    now rewrite (evaluate_project_unwritten fromisoformat float_sum limit
                   set_iteration clock clock project None He Hn).
  - assert (Hx : ~ extractable project) by (unfold extractable; lia).
    exists Py.OverflowError. split; [|now left].
    now rewrite (evaluate_project_raises fromisoformat float_sum limit
                   set_iteration clock clock project None _
                   (not_extractable_raises project Hx)).
Qed.

Lemma evaluable_or_not (project : ProjectData) :
  evaluable limit project \/ ~ evaluable limit project.
Proof.
  unfold evaluable, extractable.
  destruct (Z.lt_ge_cases (- (100 * Py.overflow_threshold))
              (issue_count project)) as [He|He]; [|right; lia].
  destruct (Z.le_gt_cases limit 0) as [Hl|Hl]; [tauto|].
  destruct (Z.lt_ge_cases (issue_count project) (10 ^ (limit + 1))) as [H|H];
    [tauto|]. right. intros [_ [H'|H']]; lia.
Qed.

Lemma report_loop_raise (clock : nat -> Z) (portfolio : list ProjectData)
    (e : Py.exn) :
  fold_left (step clock) portfolio (Py.Raise e) = Py.Raise e.
Proof. induction portfolio as [|p l IH]; simpl; [reflexivity | exact IH]. Qed.

(** The loop over the projects: it appends one entry per project, or stops at
    the first project that cannot be evaluated. *)
Lemma report_loop (clock : nat -> Z) (portfolio : list ProjectData)
    (acc : list Entry) (n : nat) :
  (Forall (evaluable limit) portfolio
   /\ exists entries,
        fold_left (step clock) portfolio (Py.Ok (acc, n))
        = Py.Ok ((acc ++ entries)%list, (n + List.length portfolio)%nat)
        /\ Forall2 (entry_of limit) portfolio entries)
  \/ (Exists (fun p => ~ evaluable limit p) portfolio
      /\ exists e,
           fold_left (step clock) portfolio (Py.Ok (acc, n)) = Py.Raise e
           /\ (e = Py.OverflowError \/ e = Py.ValueError)).
Proof.
  revert acc n. induction portfolio as [|p portfolio IH]; intros acc n.
  - left. split; [constructor|]. exists []. simpl.
    rewrite app_nil_r, Nat.add_0_r. split; constructor.
  - destruct (evaluable_or_not p) as [He|Hn].
    + destruct (report_entry_returns (clock n) p He) as [e [Hrun Hp]].
      assert (Hstep : step clock (Py.Ok (acc, n)) p
                      = Py.Ok (Py.append acc e, S n)).
      { unfold report_step, Py.bind. now rewrite Hrun. }
      cbn [fold_left]. rewrite Hstep.
      destruct (IH (Py.append acc e) (S n))
        as [[Hall [entries [Hloop Hent]]] | [Hex Hloop]].
      * left. split; [now constructor|].
        exists (e :: entries). split; [|now constructor].
        rewrite Hloop. unfold Py.append. rewrite <- app_assoc. simpl.
        f_equal. f_equal. lia.
      * right. split; [now apply Exists_cons_tl | exact Hloop].
    + right. split; [now apply Exists_cons_hd|].
      destruct (report_entry_raises (clock n) p Hn) as (e & Hrun & He).
      exists e. split; [|exact He].
      assert (Hstep : step clock (Py.Ok (acc, n)) p = Py.Raise e).
      { unfold report_step, Py.bind. now rewrite Hrun. }
      cbn [fold_left]. rewrite Hstep. apply report_loop_raise.
Qed.

Lemma all_or_some_not (portfolio : list ProjectData) :
  Forall (evaluable limit) portfolio ->
  Exists (fun p => ~ evaluable limit p) portfolio -> False.
Proof.
  intros Hall Hex. apply Exists_exists in Hex. destruct Hex as [p [Hin Hn]].
  apply Hn. rewrite Forall_forall in Hall. now apply Hall.
Qed.

(** The report of a portfolio, with what its entries satisfy. *)
Lemma generate_status_report_cases (clock : nat -> Z)
    (portfolio : list ProjectData) :
  (Forall (evaluable limit) portfolio
   /\ exists entries s,
        report clock portfolio
        = Py.Ok {| report_date := datetime_now (clock (List.length portfolio));
                   projects := entries;
                   summary := s |}
        /\ _generate_summary entries = Py.Ok s
        /\ Forall2 (entry_of limit) portfolio entries)
  \/ (Exists (fun p => ~ evaluable limit p) portfolio
      /\ exists e,
           report clock portfolio = Py.Raise e
           /\ (e = Py.OverflowError \/ e = Py.ValueError)).
Proof.
  unfold generate_status_report.
  destruct (report_loop clock portfolio [] O)
    as [[Hall [entries [Hloop Hent]]] | [Hex (e & Hloop & He)]]; rewrite Hloop.
  - left. split; [exact Hall|].
    destruct (generate_summary_returns entries) as (s & Hs & _).
    exists entries, s. unfold Py.bind. cbn [app]. rewrite Hs.
    repeat split; assumption.
  - right. split; [exact Hex|]. exists e. split; [reflexivity | exact He].
Qed.

(** X16: [generate_status_report] returns for a portfolio whose projects can
    all be evaluated, with one entry per project in the order of the
    portfolio; each entry carries the name key of its project (absent when
    the project has none), the status, confidence, highlights and lowlights of
    its extracted metrics, and the flat trend: a report never shows a rising
    or falling trend.  One project that cannot be evaluated makes the whole
    report fail, with [OverflowError] or [ValueError]. *)
Theorem report_lists_every_project (clock : nat -> Z)
    (portfolio : list ProjectData) :
  (Forall (evaluable limit) portfolio ->
   exists r,
     report clock portfolio = Py.Ok r
     /\ map entry_project (projects r) = map pd_name portfolio
     /\ Forall2 (entry_of limit) portfolio (projects r)
     /\ Forall (fun e => entry_trend e = TrendDirection_value FLAT) (projects r)
     /\ report_date r = datetime_now (clock (List.length portfolio)))
  /\ (Exists (fun p => ~ evaluable limit p) portfolio ->
      exists e,
        report clock portfolio = Py.Raise e
        /\ (e = Py.OverflowError \/ e = Py.ValueError)).
Proof.
  destruct (generate_status_report_cases clock portfolio)
    as [[Hf (entries & s & Hrun & _ & Hall)] | [Hex Hrun]].
  - split; [|intros Hex; exfalso; exact (all_or_some_not portfolio Hf Hex)].
    intros _. eexists. split; [exact Hrun|]. cbn [projects report_date].
    split; [|split; [exact Hall|split; [|reflexivity]]].
    + clear Hrun. induction Hall as [|p e ps es Hpe _ IH]; [reflexivity|].
      cbn [map]. destruct Hpe as (m & o & conf & _ & _ & Hname & _).
      inversion Hf; subst. now rewrite Hname, IH.
    + clear Hrun. induction Hall as [|p e ps es Hpe _ IH]; constructor.
      * now destruct Hpe as (m & o & conf & _ & _ & _ & _ & _ & Ht & _).
      * inversion Hf; subst. now apply IH.
  - split; [|intros _; exact Hrun].
    intros Hall. exfalso. exact (all_or_some_not portfolio Hall Hex).
Qed.

(** X17: [generate_status_report] returns for a portfolio whose projects can
    all be evaluated; in the summary of a returned report every project is
    counted under exactly one of green, amber and red: the three counts add
    up to the number of projects. *)
Theorem report_summary_partitions_portfolio (clock : nat -> Z)
    (portfolio : list ProjectData) :
  (Forall (evaluable limit) portfolio ->
   exists r, report clock portfolio = Py.Ok r)
  /\ (forall r,
        report clock portfolio = Py.Ok r ->
        total_projects (summary r) = Py.len portfolio
        /\ green (health_distribution (summary r))
           + amber (health_distribution (summary r))
           + red (health_distribution (summary r))
           = Py.len portfolio).
Proof.
  destruct (generate_status_report_cases clock portfolio)
    as [[_ (entries & s & Hrun & Hs & Hall)] | [Hex (e & Hrun & _)]].
  - split; [intros _; eexists; exact Hrun|].
    intros r. rewrite Hrun. intros [= <-]. cbn [summary].
    destruct (generate_summary_returns entries) as (s' & Hs' & Ht & Hd & _).
    rewrite Hs in Hs'. injection Hs' as <-.
    rewrite Ht, Hd. cbn [green amber red].
    assert (Hlen : Py.len entries = Py.len portfolio).
    { unfold Py.len. now rewrite (Forall2_length Hall). }
    split; [exact Hlen|]. rewrite <- Hlen.
    apply summary_counts_partition.
    clear Hrun Hlen Hs Ht Hd. induction Hall as [|p e ps es Hpe _ IH]; constructor;
      [|exact IH].
    now destruct Hpe as (m & o & conf & _ & _ & _ & _ & Hrag & _).
  - split; [|intros r; rewrite Hrun; discriminate].
    intros Hall. exfalso. exact (all_or_some_not portfolio Hall Hex).
Qed.

End ReportFacts.

(** A project whose issue count overflows issue_count/100 cannot be
    evaluated, and fails the report of any portfolio it is part of. *)
Example flooded_project_fails_report :
  ~ extractable flooded_project
  /\ evaluate_project Iso.fromisoformat Py.sum_float 4300 first_occurrences
       noon_2025_09_17 noon_2025_09_17 flooded_project None
     = Py.Raise Py.OverflowError
  /\ generate_status_report Iso.fromisoformat Py.sum_float 4300
       first_occurrences (fun _ => noon_2025_09_17)
       [empty_project; flooded_project]
     = Py.Raise Py.OverflowError.
Proof.
  split; [|split]; [|vm_compute; reflexivity..].
  unfold extractable. vm_compute. discriminate.
Qed.

(** Nor can a project whose sev1 estimate has more than 4300 digits, on an
    interpreter with that limit; without a limit it is evaluated. *)
Example swamped_project_fails_evaluation :
  extractable swamped_project
  /\ ~ evaluable 4300 swamped_project
  /\ evaluate_project Iso.fromisoformat Py.sum_float 4300 first_occurrences
       noon_2025_09_17 noon_2025_09_17 swamped_project None
     = Py.Raise Py.ValueError
  /\ evaluable 0 swamped_project.
Proof.
  assert (Hp : 0 < 10 ^ (4300 + 1))
    by (apply Z.pow_pos_nonneg; [reflexivity | discriminate]).
  assert (Hc : issue_count swamped_project = 10 ^ (4300 + 1)) by reflexivity.
  pose proof overflow_threshold_large as Hbig.
  assert (Hx : extractable swamped_project).
  { unfold extractable. rewrite Hc. clear Hc. revert Hp.
    generalize (10 ^ (4300 + 1)). intros p Hp. lia. }
  assert (Hn : ~ evaluable 4300 swamped_project).
  { unfold evaluable. rewrite Hc. clear Hc Hx. revert Hp.
    generalize (10 ^ (4300 + 1)). intros p Hp. lia. }
  split; [exact Hx|]. split; [exact Hn|].
  split; [now apply evaluate_project_unwritten|].
  split; [exact Hx | left; apply Z.le_refl].
Qed.

(** ** Composition of extraction and evaluation *)

(** X18: the overall status of extracted metrics is green exactly when no
    milestone is "at-risk", fewer than 5 issues are counted and the risk
    dimension is green; it is red exactly when 10 issues or more are counted
    or the risk dimension is red: schedule and cost never make it red. *)
Theorem overall_status_of_extracted (pd : ProjectData) :
  extracts pd (fun m =>
    exists st conf,
      calculate_overall_status m = Py.Ok (st, conf)
      /\ (st = GREEN <->
          at_risk pd = false /\ defect_count m < 5
          /\ evaluate_risk_health m = GREEN)
      /\ (st = RED <-> 10 <= defect_count m \/ evaluate_risk_health m = RED)).
Proof.
  apply extracts_intro. intros m Hm.
  destruct (overall_status_cases m) as [st (Hrun & _ & Hgreen & Hred)].
  exists st. eexists. split; [exact Hrun|].
  destruct (extract_metrics_fields pd m Hm) as (Hspi & Hcpi & _).
  assert (Hs : evaluate_schedule_health m = if at_risk pd then AMBER else GREEN).
  { unfold evaluate_schedule_health. cbv zeta. rewrite Hspi.
    destruct (at_risk pd); reflexivity. }
  assert (Hc : evaluate_cost_health m = GREEN).
  { unfold evaluate_cost_health. cbv zeta. rewrite Hcpi. reflexivity. }
  destruct (quality_of_extracted pd m Hm) as (Hqg & _ & Hqr).
  rewrite Hs, Hc in Hgreen, Hred. rewrite Hgreen, Hred, Hqg, Hqr. clear.
  rewrite Z.ltb_lt, Z.ltb_ge, andb_false_iff, Z.leb_gt, Z.ltb_ge.
  destruct (at_risk pd); split; split; intros H;
    intuition (try discriminate; try lia).
Qed.

(** ** Records of the detector *)

(** X19: every highlight record has impact "positive" and no
    [action_required] key; every lowlight record has impact "negative"; both
    lists hold at most four records. *)
Theorem record_polarity (limit : Z) (m : HealthMetrics)
    (prev : option HealthMetrics) (pd : ProjectData) :
  Forall (fun d => lookup "impact" d = Some "positive"
                   /\ action_required d = None)
         (detect_highlights m prev pd)
  /\ (List.length (detect_highlights m prev pd) <= 4)%nat
  /\ (forall lows,
        detect_lowlights limit m prev pd = Py.Ok lows ->
        Forall (fun d => lookup "impact" d = Some "negative") lows
        /\ (List.length lows <= 4)%nat).
Proof.
  split; [|split].
  - unfold detect_highlights. cbv zeta.
    set (h1 := Py.ge (spi m) _). set (h2 := Py.ge (cpi m) _).
    set (h3 := (_ =? 0) && (_ =? 0)). set (h4 := Py.gt _ 0.95).
    clearbody h1 h2 h3 h4.
    destruct h1, h2, h3, h4; repeat constructor.
  - unfold detect_highlights. cbv zeta.
    set (h1 := Py.ge (spi m) _). set (h2 := Py.ge (cpi m) _).
    set (h3 := (_ =? 0) && (_ =? 0)). set (h4 := Py.gt _ 0.95).
    clearbody h1 h2 h3 h4.
    destruct h1, h2, h3, h4; cbn [Py.append app List.length]; lia.
  - intros lows Hrun.
    now destruct (lowlight_titles limit m prev pd lows Hrun) as (_ & _ & H).
Qed.
